(** * uftrace: the data-file reader (utils/data-file.c)

    A shallow embedding of the ingestion layer of uftrace: the run header
    of the [info] file with its byte-order and bitfield-order checks, the
    legacy binary [task] log, the line-oriented [task.txt] log with its
    writers, and [open_data_file] which ties them together.

    The first part holds the definitions, in the order of the source
    file; the second part holds the lemmas and the theorems.

    The model is that of an LP64 machine ([long] and [size_t] have 64
    bits, [int] has 32) and of paths shorter than [PATH_MAX] and than
    [buf].  The legacy reader is modelled with the overrun of its name
    buffer.  The text reader is modelled on lines that fit it: session ids
    that fit [sid] with the NUL that ends them, a byte at least behind
    every [exename=] and [libname=], and [line + 5] taken within the
    line; the theorems about logs of any content say so ([line_fits]). *)

From Stdlib Require Import ZArith List Bool Lia String Ascii.
From Stdlib Require Import Strings.Byte.
Import ListNotations.

Local Open Scope Z_scope.

(** * Part I: definitions *)

(** ** Machine integers and bytes *)

Definition byte_val (b : byte) : Z := Z.of_N (Byte.to_N b).

(** An integer reduced to [w] bits, read unsigned and signed. *)
Definition wrap (w : Z) (x : Z) : Z := x mod 2 ^ w.

Definition to_signed (w : Z) (x : Z) : Z :=
  let u := wrap w x in
  if u <? 2 ^ (w - 1) then u else u - 2 ^ w.

(** The value of a byte sequence read as a little-endian, respectively
    big-endian, unsigned integer. *)
Fixpoint le_decode (bs : list byte) : Z :=
  match bs with
  | [] => 0
  | b :: t => byte_val b + 256 * le_decode t
  end.

Definition be_decode (bs : list byte) : Z := le_decode (rev bs).

(** <byteswap.h>: the constant-expression forms of the three swaps. *)
Definition bswap_16 (x : Z) : Z :=
  Z.lor (Z.land (Z.shiftr x 8) 0xff) (Z.shiftl (Z.land x 0xff) 8).

Definition bswap_32 (x : Z) : Z :=
  Z.lor (Z.lor (Z.lor
    (Z.shiftr (Z.land x 0xff000000) 24)
    (Z.shiftr (Z.land x 0x00ff0000) 8))
    (Z.shiftl (Z.land x 0x0000ff00) 8))
    (Z.shiftl (Z.land x 0x000000ff) 24).

Definition bswap_64 (x : Z) : Z :=
  Z.lor (Z.lor (Z.lor (Z.lor (Z.lor (Z.lor (Z.lor
    (Z.shiftr (Z.land x 0xff00000000000000) 56)
    (Z.shiftr (Z.land x 0x00ff000000000000) 40))
    (Z.shiftr (Z.land x 0x0000ff0000000000) 24))
    (Z.shiftr (Z.land x 0x000000ff00000000) 8))
    (Z.shiftl (Z.land x 0x00000000ff000000) 8))
    (Z.shiftl (Z.land x 0x0000000000ff0000) 24))
    (Z.shiftl (Z.land x 0x000000000000ff00) 40))
    (Z.shiftl (Z.land x 0x00000000000000ff) 56).

(** The byte order of a machine and the order in which its compiler
    allocates the bitfields of a word. *)
Inductive byte_order := LittleEndian | BigEndian.
Inductive bitfield_order := LsbFirst | MsbFirst.

(** <elf.h>: ELFDATA2LSB and ELFDATA2MSB. *)
Definition ELFDATA2LSB : Z := 1.
Definition ELFDATA2MSB : Z := 2.

(** A multi-byte field of a struct filled by [fread], as the machine
    reads it. *)
Definition decode_native (o : byte_order) (bs : list byte) : Z :=
  match o with
  | LittleEndian => le_decode bs
  | BigEndian => be_decode bs
  end.

(** The bytes of the field of width [w] at offset [off]. *)
Definition field (off w : nat) (raw : list byte) : list byte :=
  firstn w (skipn off raw).

Definition bytes (s : string) : list byte := list_byte_of_string s.

Fixpoint bytes_eqb (a b : list byte) : bool :=
  match a, b with
  | [], [] => true
  | x :: a', y :: b' => Byte.eqb x y && bytes_eqb a' b'
  | _, _ => false
  end.

(** ** Messages of the task logs (libmcount/mcount.h)

    The records carry the fields the source reads and writes. *)

Record ftrace_msg_task := {
  time : Z;      (* uint64_t *)
  pid : Z;       (* int32_t *)
  tid : Z;       (* int32_t *)
}.

Record ftrace_msg_sess := {
  sess_task : ftrace_msg_task;
  sid : list byte;
  namelen : Z;   (* int *)
}.

Record ftrace_msg_dlopen := {
  dlop_task : ftrace_msg_task;
  dlop_sid : list byte;
  base_addr : Z; (* uint64_t *)
  dlop_namelen : Z;
}.

(** The envelope of a message of the legacy log: [msg.magic], [msg.type]. *)
Record ftrace_msg := {
  magic : Z;
  type : Z;
}.

(** ** What the headers declare

    uftrace.h and libmcount/mcount.h are not among the sources: their
    constants, the layout of the run header and of the messages, and the
    machine the reader runs on are the fields of one class; every
    definition below takes them from it. *)

Class Abi := {
  (* the running machine *)
  host_order : byte_order;
  host_bitfields : bitfield_order;
  (* uftrace.h: the run header *)
  UFTRACE_MAGIC_STR : list byte;
  UFTRACE_MAGIC_LEN : nat;
  UFTRACE_FILE_VERSION : Z;
  UFTRACE_FILE_VERSION_MIN : Z;
  UFTRACE_DIR_NAME : string;
  UFTRACE_DIR_OLD_NAME : string;
  sizeof_hdr : nat;
  off_magic : nat;
  off_version : nat;
  off_endian : nat;
  off_feat_mask : nat;
  off_info_mask : nat;
  off_max_stack : nat;
  (* uftrace.h: feature bits and the record magic *)
  TASK_SESSION : Z;
  SYM_REL_ADDR : Z;
  ARGUMENT : Z;
  RETVAL : Z;
  MAX_STACK : Z;
  KERNEL : Z;
  RECORD_MAGIC : Z;
  (* libmcount/mcount.h *)
  MCOUNT_RSTACK_MAX : Z;
  FTRACE_MSG_MAGIC : Z;
  FTRACE_MSG_SESSION : Z;
  FTRACE_MSG_TID : Z;
  FTRACE_MSG_FORK_END : Z;
  sizeof_msg : nat;
  decode_msg : list byte -> ftrace_msg;
  sizeof_tmsg : nat;
  decode_tmsg : list byte -> ftrace_msg_task;
  sizeof_smsg : nat;
  decode_smsg : list byte -> ftrace_msg_sess;
  (* sizeof(smsg.sid), sizeof(dlop.sid) *)
  sizeof_sid : nat;
  sizeof_dlop_sid : nat;
}.

(** utils/utils.h: NSEC_PER_SEC.
    Modelled from the spec: the macro is not among the sources; the
    timestamp is composed as sec x 10^9 + nsec. *)
Definition NSEC_PER_SEC : Z := 1000000000.

(** ** The session and task registry (utils/session.c)

    The registry is an external collaborator: the readers only call its
    four operations.  [R] is the type of a [struct uftrace_session_link],
    [P] that of a pointer to a session in it. *)

Class Registry (R P : Type) := {
  (* RB_ROOT, RB_ROOT, NULL *)
  sessions_init : R;
  create_session :
    R -> ftrace_msg_sess -> string -> list byte -> bool -> R;
  create_task : R -> ftrace_msg_task -> bool -> bool -> R;
  get_session_from_sid : R -> list byte -> option P;
  session_add_dlopen : R -> P -> Z -> Z -> list byte -> R;
}.

(** What the readers rely on, from the registry's description: sessions
    are keyed by their id, and only creating a session adds one. *)
Class RegistryLaws (R P : Type) `{Registry R P} : Prop := {
  find_init : forall x, get_session_from_sid sessions_init x = None;
  find_create_session : forall r m d e b x,
    get_session_from_sid (create_session r m d e b) x <> None
    <-> (x = sid m \/ get_session_from_sid r x <> None);
  find_create_task : forall r m f n x,
    get_session_from_sid (create_task r m f n) x <> None
    <-> get_session_from_sid r x <> None;
  find_add_dlopen : forall r s t a l x,
    get_session_from_sid (session_add_dlopen r s t a l) x <> None
    <-> get_session_from_sid r x <> None;
}.

(** Modelled from the spec: the registry itself, which utils/session.c
    implements and the sources do not hold.  Sessions are kept with their
    id, their tasks are created once per event of the log, and a session
    is found by its id; a pointer to a session is its position. *)
Record uftrace_session := {
  us_sid : list byte;
  us_pid : Z;
  us_time : Z;
  us_dirname : string;
  us_exename : list byte;
  us_sym_rel : bool;
  us_dlopens : list (Z * Z * list byte);
}.

Record uftrace_task := {
  ut_tid : Z;
  ut_pid : Z;
  ut_time : Z;
  ut_fork : bool;
}.

Record uftrace_session_link := {
  root : list uftrace_session;
  tasks : list uftrace_task;
}.

Fixpoint find_sid (ss : list uftrace_session) (x : list byte) (i : nat)
    : option nat :=
  match ss with
  | [] => None
  | s :: t => if bytes_eqb (us_sid s) x then Some i else find_sid t x (S i)
  end.

Fixpoint add_dlopen_at (ss : list uftrace_session) (i : nat)
    (d : Z * Z * list byte) : list uftrace_session :=
  match ss, i with
  | [], _ => []
  | s :: t, O =>
      {| us_sid := us_sid s; us_pid := us_pid s; us_time := us_time s;
         us_dirname := us_dirname s; us_exename := us_exename s;
         us_sym_rel := us_sym_rel s; us_dlopens := us_dlopens s ++ [d] |} :: t
  | s :: t, S j => s :: add_dlopen_at t j d
  end.

#[export] Instance list_registry : Registry uftrace_session_link nat := {
  sessions_init := {| root := []; tasks := [] |};
  create_session r m d e b :=
    {| root := root r ++
         [{| us_sid := sid m; us_pid := pid (sess_task m);
             us_time := time (sess_task m); us_dirname := d;
             us_exename := e; us_sym_rel := b; us_dlopens := [] |}];
       tasks := tasks r |};
  create_task r m f n :=
    {| root := root r;
       tasks := tasks r ++
         [{| ut_tid := tid m; ut_pid := pid m; ut_time := time m;
             ut_fork := f |}] |};
  get_session_from_sid r x := find_sid (root r) x O;
  session_add_dlopen r s t a l :=
    {| root := add_dlopen_at (root r) s (t, a, l); tasks := tasks r |};
}.

(** ** Files, diagnostics and outcomes *)

(** What opening a path gives: the bytes of the file; no file, in a
    directory where one can be created; or a failure with its errno. *)
Inductive fentry :=
| File (data : list byte)
| Absent
| OpenErr (errno : positive).

Definition filesys := string -> fentry.

(** <errno.h> *)
Definition ENOENT : positive := 2%positive.

(** [fopen(path, "r")], [open(path, O_RDONLY)]: the file or errno. *)
Definition open_read (fs : filesys) (path : string)
    : list byte + positive :=
  match fs path with
  | File data => inl data
  | Absent => inr ENOENT
  | OpenErr e => inr e
  end.

(** [fopen(path, "a")]: the present contents of the file to append to. *)
Definition open_append (fs : filesys) (path : string)
    : list byte + positive :=
  match fs path with
  | File data => inl data
  | Absent => inl []
  | OpenErr e => inr e
  end.

Definition fs_store (fs : filesys) (path : string) (data : list byte)
    : filesys :=
  fun p => if String.eqb p path then File data else fs p.

(** The messages of [pr_err], [pr_err_ns], [pr_log] and [pr_warn]. *)
Inductive diag :=
| cannot_find_file (buf : string)            (* "cannot find %s file!" *)
| record_msg (exename : list byte)           (* RECORD_MSG *)
| cannot_open_file (buf : string)            (* "cannot open %s file" *)
| cannot_open (fname : string)               (* "cannot open %s" *)
| cannot_read_header                         (* "cannot read header data" *)
| invalid_magic                              (* "invalid magic string found!" *)
| unsupported_version (v : Z)                (* "unsupported file version: %u" *)
| cannot_read_info                           (* "cannot read ftrace header info!" *)
| invalid_task_file                          (* "invalid task file" *)
| invalid_contents                           (* "invalid contents in task file" *)
| invalid_task_txt.                          (* "invalid task.txt format" *)

(** What a run leaves behind besides its result: the paths it opened
    and the messages it logged, in order.  ([pr_dbg] is left out.) *)
Inductive event :=
| ev_open (path : string)
| ev_log (d : diag)
| ev_warn (d : diag).

(** How a call ends: it returns; [pr_err] ends the process with a
    message; [assert] aborts it; or it stores past the end of a buffer,
    after which C defines nothing.  [OutOfFuel] is the loop bound of the
    model running out, which [read_task_file] never meets. *)
Inductive result (A : Type) : Type :=
| Ret (a : A)
| Fatal (d : diag)
| Abort
| OutOfFuel
| Undefined.

Arguments Ret {A} a.
Arguments Fatal {A} d.
Arguments Abort {A}.
Arguments OutOfFuel {A}.
Arguments Undefined {A}.

Definition M (A : Type) : Type := list event -> result A * list event.

Definition ret {A} (a : A) : M A := fun tr => (Ret a, tr).

Definition bind {A B} (m : M A) (f : A -> M B) : M B :=
  fun tr =>
    match m tr with
    | (Ret a, tr') => f a tr'
    | (Fatal d, tr') => (Fatal d, tr')
    | (Abort, tr') => (Abort, tr')
    | (OutOfFuel, tr') => (OutOfFuel, tr')
    | (Undefined, tr') => (Undefined, tr')
    end.

Definition emit (e : event) : M unit := fun tr => (Ret tt, tr ++ [e]).
Definition pr_err {A} (d : diag) : M A := fun tr => (Fatal d, tr).
Definition pr_log (d : diag) : M unit := emit (ev_log d).
Definition pr_warn (d : diag) : M unit := emit (ev_warn d).
Definition lift {A} (r : result A) : M A := fun tr => (r, tr).

Declare Scope io_scope.
Delimit Scope io_scope with io.
Notation "x <- m ;; k" := (bind m (fun x => k))
  (at level 61, m at next level, right associativity) : io_scope.
Notation "m ;;; k" := (bind m (fun _ => k))
  (at level 61, right associativity) : io_scope.

Definition fopen (fs : filesys) (path : string) : M (list byte + positive) :=
  fun tr => (Ret (open_read fs path), tr ++ [ev_open path]).

(** Modelled from the spec: [read_all] of utils/utils.c, which the
    sources do not hold.  It reads exactly [size] bytes (a size_t) at the
    cursor, and a short or failed read is an error: [None] stands for its
    negative result. *)
Definition read_all (fd : list byte) (size : Z)
    : option (list byte * list byte) :=
  let n := wrap 64 size in
  if n <=? Z.of_nat (List.length fd)
  then Some (firstn (Z.to_nat n) fd, skipn (Z.to_nat n) fd)
  else None.

(** ** read_task_file: the legacy binary log *)

(** [sizeof(buf)], the buffer the name of a session is read into. *)
Definition sizeof_buf : Z := 1024.

Section Readers.
Context {abi : Abi}.
Context {R P : Type} {reg : Registry R P}.

Local Open Scope io_scope.

(** One turn of the [while] loop on the rest [fd] of the file: [inl]
    is the [goto out] with [ret] still -1 (or the loop's end, with
    [ret = 0]), [inr] the state the next turn starts from.

    The name of a session is read into [buf] with no look at its
    length: [read_all] stores the bytes at [buf] as it reads them, so
    that a size above [sizeof(buf)], with more than [sizeof(buf)] bytes
    left in the file to read, stores past the end of [buf].  With fewer
    bytes left the read stores what there is, within [buf], and fails.
    The size is [namelen] as a size_t: a negative [namelen] is a size
    above [sizeof(buf)] too. *)
Definition read_task_msg (dirname : string)
    (needs_session sym_rel_addr : bool) (fd : list byte) (sess : R)
    : M (Z * R + list byte * R) :=
  match read_all fd (Z.of_nat sizeof_msg) with
  | None => ret (inl (0, sess))
  | Some (m, fd) =>
    let msg := decode_msg m in
    if negb (magic msg =? FTRACE_MSG_MAGIC) then ret (inl (-1, sess))
    else if type msg =? FTRACE_MSG_SESSION then
      match read_all fd (Z.of_nat sizeof_smsg) with
      | None => ret (inl (-1, sess))
      | Some (sm, fd) =>
        let smsg := decode_smsg sm in
        if (sizeof_buf <? wrap 64 (namelen smsg))
           && (sizeof_buf <? Z.of_nat (List.length fd))
        then lift Undefined
        else
        match read_all fd (namelen smsg) with
        | None => ret (inl (-1, sess))
        | Some (buf, fd) =>
          let after_pad (fd : list byte) :=
            ret (inr (fd,
                      if needs_session
                      then create_session sess smsg dirname buf sym_rel_addr
                      else sess)) in
          if negb (Z.rem (namelen smsg) 8 =? 0) then
            match read_all fd (8 - Z.rem (namelen smsg) 8) with
            | None => ret (inl (-1, sess))
            | Some (_, fd) => after_pad fd
            end
          else after_pad fd
        end
      end
    else if type msg =? FTRACE_MSG_TID then
      match read_all fd (Z.of_nat sizeof_tmsg) with
      | None => ret (inl (-1, sess))
      | Some (tm, fd) =>
        ret (inr (fd, create_task sess (decode_tmsg tm) false needs_session))
      end
    else if type msg =? FTRACE_MSG_FORK_END then
      match read_all fd (Z.of_nat sizeof_tmsg) with
      | None => ret (inl (-1, sess))
      | Some (tm, fd) =>
        ret (inr (fd, create_task sess (decode_tmsg tm) true needs_session))
      end
    else
      pr_log invalid_contents ;;; ret (inl (-1, sess))
  end.

Fixpoint read_task_loop (fuel : nat) (dirname : string)
    (needs_session sym_rel_addr : bool) (fd : list byte) (sess : R)
    : M (Z * R) :=
  match fuel with
  | O => lift OutOfFuel
  | S fuel =>
    r <- read_task_msg dirname needs_session sym_rel_addr fd sess ;;
    match r with
    | inl out => ret out
    | inr (fd, sess) =>
        read_task_loop fuel dirname needs_session sym_rel_addr fd sess
    end
  end.

Definition read_task_file (fs : filesys) (sess : R) (dirname : string)
    (needs_session sym_rel_addr : bool) : M (Z * R) :=
  fd <- fopen fs (dirname ++ "/task") ;;
  match fd with
  | inr _ => ret (-1, sess)
  | inl fd =>
      read_task_loop (S (List.length fd)) dirname
        needs_session sym_rel_addr fd sess
  end.

End Readers.

(** ** C strings and sscanf

    The text reader works on the lines of [getline] with [strncmp],
    [sscanf], [strstr], [strrchr] and [strlen] of the C library. *)

Definition NUL : byte := x00.
Definition NL : byte := x0a.
Definition QUOTE : byte := x22.

(** The lines [getline] returns one after the other, each with its
    newline; the last one may lack it. *)
Fixpoint getlines (data : list byte) : list (list byte) :=
  match data with
  | [] => []
  | c :: t =>
      if Byte.eqb c NL then [c] :: getlines t
      else match getlines t with
           | [] => [[c]]
           | l :: ls => (c :: l) :: ls
           end
  end.

(** The C string a buffer holds: its bytes up to the first NUL. *)
Fixpoint cstr (buf : list byte) : list byte :=
  match buf with
  | [] => []
  | c :: t => if Byte.eqb c NUL then [] else c :: cstr t
  end.

(** A text without NUL and without newline: the body of a line. *)
Definition line_body (s : list byte) : Prop :=
  Forall (fun c => Byte.eqb c NUL = false /\ Byte.eqb c NL = false) s.

(** [strncmp(s, t, n) == 0] *)
Fixpoint strncmp_eq (s t : list byte) (n : nat) : bool :=
  match n with
  | O => true
  | S n' =>
      match s, t with
      | [], [] => true
      | a :: s', b :: t' => Byte.eqb a b && strncmp_eq s' t' n'
      | _, _ => false
      end
  end.

Fixpoint is_prefix (p s : list byte) : bool :=
  match p, s with
  | [], _ => true
  | a :: p', b :: s' => Byte.eqb a b && is_prefix p' s'
  | _ :: _, [] => false
  end.

(** [strstr(hay, needle)]: the string from the first occurrence on. *)
Fixpoint strstr (hay needle : list byte) : option (list byte) :=
  if is_prefix needle hay then Some hay
  else match hay with
       | [] => None
       | _ :: t => strstr t needle
       end.

(** [pos = strrchr(s, c); if (pos) *pos = '\0';]: the string cut at
    the last [c], or [None] when it holds no [c]. *)
Fixpoint cut_at_last (c : byte) (s : list byte) : option (list byte) :=
  match s with
  | [] => None
  | x :: t =>
      match cut_at_last c t with
      | Some p => Some (x :: p)
      | None => if Byte.eqb x c then Some [] else None
      end
  end.

Definition strlen (s : list byte) : Z := Z.of_nat (List.length s).

(** [isspace] in the C locale. *)
Definition is_space (c : byte) : bool :=
  let v := byte_val c in (v =? 32) || ((9 <=? v) && (v <=? 13)).

Definition digit_val (c : byte) : option Z :=
  let v := byte_val c in
  if (48 <=? v) && (v <=? 57) then Some (v - 48) else None.

Definition is_digit (c : byte) : bool :=
  match digit_val c with Some _ => true | None => false end.

(** No digit follows: a decimal item ends here. *)
Definition no_digit_head (s : list byte) : Prop :=
  match s with
  | c :: _ => is_digit c = false
  | [] => True
  end.

Definition hex_val (c : byte) : option Z :=
  let v := byte_val c in
  if (48 <=? v) && (v <=? 57) then Some (v - 48)
  else if (97 <=? v) && (v <=? 102) then Some (v - 87)
  else if (65 <=? v) && (v <=? 70) then Some (v - 55)
  else None.

Fixpoint skip_space (s : list byte) : list byte :=
  match s with
  | c :: t => if is_space c then skip_space t else s
  | [] => []
  end.

(** The digits at the head of [s] in the given base, added to [acc]. *)
Fixpoint scan_digits (val : byte -> option Z) (base : Z) (acc : Z)
    (s : list byte) : Z * list byte :=
  match s with
  | c :: t =>
      match val c with
      | Some d => scan_digits val base (acc * base + d) t
      | None => (acc, s)
      end
  | [] => (acc, [])
  end.

Definition scan_sign (s : list byte) : bool * list byte :=
  match s with
  | c :: t =>
      if Byte.eqb c "-" then (true, t)
      else if Byte.eqb c "+" then (false, t)
      else (false, s)
  | [] => (false, [])
  end.

(** An integer input item: white space, a sign, digits (one at least). *)
Definition scan_int (val : byte -> option Z) (base : Z) (s : list byte)
    : option (bool * Z * list byte) :=
  let (neg, s) := scan_sign s in
  match s with
  | c :: _ =>
      match val c with
      | Some _ =>
          let (n, rest) := scan_digits val base 0 s in Some (neg, n, rest)
      | None => None
      end
  | [] => None
  end.

(** The "0x" a hexadecimal item may start with. *)
Definition skip_0x (s : list byte) : list byte :=
  match s with
  | a :: b :: t =>
      if Byte.eqb a "0" && (Byte.eqb b "x" || Byte.eqb b "X") then t else s
  | _ => s
  end.

Definition scan_hex (s : list byte) : option (bool * Z * list byte) :=
  let (neg, s) := scan_sign s in
  match skip_0x s with
  | c :: t =>
      match hex_val c with
      | Some _ =>
          let (n, rest) := scan_digits hex_val 16 0 (c :: t) in
          Some (neg, n, rest)
      | None => None
      end
  | [] => None
  end.

(** The value of an item as [strtoul] gives it: saturated, and negated
    modulo 2^64 after a minus sign. *)
Definition ULONG_MAX : Z := 2 ^ 64 - 1.
Definition LONG_MAX : Z := 2 ^ 63 - 1.
Definition LONG_MIN : Z := - 2 ^ 63.

Definition strtoul_val (neg : bool) (n : Z) : Z :=
  if ULONG_MAX <? n then ULONG_MAX
  else if neg then wrap 64 (- n) else n.

(** ... and as [strtol] gives it, stored into an [int]. *)
Definition strtol_val (neg : bool) (n : Z) : Z :=
  let v := if neg then - n else n in
  if LONG_MAX <? v then LONG_MAX
  else if v <? LONG_MIN then LONG_MIN else v.

Definition store_int (v : Z) : Z := to_signed 32 v.

(** The run of bytes other than [c] at the head of [s] is dropped. *)
Fixpoint drop_not (c : byte) (s : list byte) : list byte :=
  match s with
  | x :: t => if Byte.eqb x c then s else drop_not c t
  | [] => []
  end.

(** The run of bytes that are not white space, and the rest. *)
Fixpoint span_word (s : list byte) : list byte * list byte :=
  match s with
  | x :: t =>
      if is_space x then ([], s)
      else let (w, rest) := span_word t in (x :: w, rest)
  | [] => ([], [])
  end.

(** The conversions the formats of this file use, and the directives of
    a format. *)
Inductive conv :=
| cv_lu                  (* %lu *)
| cv_d                   (* %d *)
| cv_lx                  (* %lx, PRIx64 *)
| cv_s                   (* %s *)
| cv_skip_not (c : byte) (* %*[^c] *).

Inductive directive :=
| d_lit (c : byte)
| d_space
| d_conv (c : conv).

(** What a conversion stores through its pointer argument. *)
Inductive sval :=
| v_num (n : Z)
| v_str (s : list byte).

Definition strip (p s : list byte) : option (list byte) :=
  if is_prefix p s then Some (skipn (List.length p) s) else None.

Fixpoint parse_format (fuel : nat) (f : list byte) : list directive :=
  match fuel with
  | O => []
  | S fuel =>
    match strip (bytes "%lu") f with
    | Some t => d_conv cv_lu :: parse_format fuel t
    | None =>
    match strip (bytes "%lx") f with
    | Some t => d_conv cv_lx :: parse_format fuel t
    | None =>
    match strip (bytes "%d") f with
    | Some t => d_conv cv_d :: parse_format fuel t
    | None =>
    match strip (bytes "%s") f with
    | Some t => d_conv cv_s :: parse_format fuel t
    | None =>
    match strip (bytes "%*[^") f with
    | Some (c :: t) =>
        d_conv (cv_skip_not c) :: parse_format fuel (skipn 1 t)
    | _ =>
    match f with
    | [] => []
    | c :: t =>
        (if is_space c then d_space else d_lit c) :: parse_format fuel t
    end end end end end end
  end.

Definition format (f : string) : list directive :=
  parse_format (String.length f) (bytes f).

(** [sscanf(s, fmt, ...)]: the values of the conversions done, in the
    order of the pointer arguments; the scan stops at the first directive
    that fails, and the arguments of the conversions not done keep what
    they held. *)
Fixpoint sscanf (s : list byte) (fmt : list directive) : list sval :=
  match fmt with
  | [] => []
  | d_lit c :: fmt =>
      match s with
      | x :: t => if Byte.eqb x c then sscanf t fmt else []
      | [] => []
      end
  | d_space :: fmt => sscanf (skip_space s) fmt
  | d_conv cv_lu :: fmt =>
      match scan_int digit_val 10 (skip_space s) with
      | Some (neg, n, rest) => v_num (strtoul_val neg n) :: sscanf rest fmt
      | None => []
      end
  | d_conv cv_lx :: fmt =>
      match scan_hex (skip_space s) with
      | Some (neg, n, rest) => v_num (strtoul_val neg n) :: sscanf rest fmt
      | None => []
      end
  | d_conv cv_d :: fmt =>
      match scan_int digit_val 10 (skip_space s) with
      | Some (neg, n, rest) =>
          v_num (store_int (strtol_val neg n)) :: sscanf rest fmt
      | None => []
      end
  | d_conv cv_s :: fmt =>
      match span_word (skip_space s) with
      | ([], _) => []
      | (w, rest) => v_str w :: sscanf rest fmt
      end
  | d_conv (cv_skip_not c) :: fmt =>
      match s with
      | x :: t => if Byte.eqb x c then [] else sscanf (drop_not c t) fmt
      | [] => []
      end
  end.

(** The [i]-th pointer argument after the scan: the value stored, or
    what the variable held. *)
Definition stored_num (vs : list sval) (i : nat) (old : Z) : Z :=
  match nth_error vs i with
  | Some (v_num n) => n
  | _ => old
  end.

Definition stored_str (vs : list sval) (i : nat) (old : list byte)
    : list byte :=
  match nth_error vs i with
  | Some (v_str s) => s
  | _ => old
  end.

(** ** read_task_txt_file: the text log *)

(** The formats of the four kinds of line. *)
Definition fmt_task : list directive :=
  Eval cbv in format "timestamp=%lu.%lu tid=%d pid=%d".
Definition fmt_fork : list directive :=
  Eval cbv in format "timestamp=%lu.%lu pid=%d ppid=%d".
Definition fmt_sess : list directive :=
  Eval cbv in format "timestamp=%lu.%lu %*[^i]id=%d sid=%s".
Definition fmt_dlop : list directive :=
  Eval cbv in format "timestamp=%lu.%lu tid=%d sid=%s base=%lx".

(** The local variables of [read_task_txt_file] that live across the
    turns of its loop.  They start out uninitialised: the reader takes
    what they hold at first as an argument. *)
Record txt_locals := {
  sec : Z;
  nsec : Z;
  tmsg : ftrace_msg_task;
  smsg : ftrace_msg_sess;
  dlop : ftrace_msg_dlopen;
}.

(** [(uint64_t)sec * NSEC_PER_SEC + nsec] *)
Definition compose_time (sec nsec : Z) : Z :=
  wrap 64 (sec * NSEC_PER_SEC + nsec).

(** The scans of the four kinds of line, with the assignments that
    follow them: the locals after the line. *)
Definition scan_task (fmt : list directive) (line : list byte)
    (lv : txt_locals) : txt_locals :=
  let vs := sscanf (skipn 5 line) fmt in
  let sec := stored_num vs 0 (sec lv) in
  let nsec := stored_num vs 1 (nsec lv) in
  {| sec := sec; nsec := nsec;
     tmsg := {| time := compose_time sec nsec;
                pid := stored_num vs 3 (pid (tmsg lv));
                tid := stored_num vs 2 (tid (tmsg lv)) |};
     smsg := smsg lv; dlop := dlop lv |}.

Definition scan_sess (line exename : list byte) (lv : txt_locals)
    : txt_locals :=
  let vs := sscanf (skipn 5 line) fmt_sess in
  let sec := stored_num vs 0 (sec lv) in
  let nsec := stored_num vs 1 (nsec lv) in
  let pid := stored_num vs 2 (pid (sess_task (smsg lv))) in
  {| sec := sec; nsec := nsec; tmsg := tmsg lv;
     smsg := {| sess_task := {| time := compose_time sec nsec;
                                pid := pid; tid := pid |};
                sid := stored_str vs 3 (sid (smsg lv));
                namelen := strlen exename |};
     dlop := dlop lv |}.

Definition scan_dlop (line exename : list byte) (lv : txt_locals)
    : txt_locals :=
  let vs := sscanf (skipn 5 line) fmt_dlop in
  let sec := stored_num vs 0 (sec lv) in
  let nsec := stored_num vs 1 (nsec lv) in
  let tid := stored_num vs 2 (tid (dlop_task (dlop lv))) in
  {| sec := sec; nsec := nsec; tmsg := tmsg lv; smsg := smsg lv;
     dlop := {| dlop_task := {| time := compose_time sec nsec;
                                pid := tid; tid := tid |};
                dlop_sid := stored_str vs 3 (dlop_sid (dlop lv));
                base_addr := stored_num vs 4 (base_addr (dlop lv));
                dlop_namelen := strlen exename |} |}.

(** [exename = pos + 8 + 1], cut at the last double quote that
    [strrchr] finds in it, when there is one. *)
Definition quoted_name (pos : list byte) : list byte :=
  let exename := skipn 9 pos in
  match cut_at_last QUOTE exename with
  | Some name => name
  | None => exename
  end.

(** The line starts with the tag. *)
Definition line_tag (buf : list byte) (tag : string) : bool :=
  strncmp_eq (cstr buf) (bytes tag) 4.

(** The session id [smsg.sid] holds after the scan of a SESS line, and
    [dlop.sid] after that of a DLOP line: the line's session id.  [None]
    when the line lacks the name the reader ends the process for. *)
Definition sess_line_sid (buf : list byte) (lv : txt_locals)
    : option (list byte) :=
  match strstr (cstr buf) (bytes "exename=") with
  | Some pos => Some (sid (smsg (scan_sess (cstr buf) (quoted_name pos) lv)))
  | None => None
  end.

Definition dlop_line_sid (buf : list byte) (lv : txt_locals)
    : option (list byte) :=
  match strstr (cstr buf) (bytes "libname=") with
  | Some pos =>
      Some (dlop_sid (dlop (scan_dlop (cstr buf) (quoted_name pos) lv)))
  | None => None
  end.

(** A SESS or DLOP line without the name the reader looks for. *)
Definition lacks_name (buf : list byte) : Prop :=
  (line_tag buf "SESS" = true
   /\ strstr (cstr buf) (bytes "exename=") = None)
  \/ (line_tag buf "DLOP" = true
      /\ strstr (cstr buf) (bytes "libname=") = None).

Section TextReader.
Context {R P : Type} {reg : Registry R P}.

(** One turn of the [while] loop, on the line [getline] returned. *)
Definition read_task_txt_line (dirname : string)
    (needs_session sym_rel_addr : bool) (buf : list byte)
    (sess : R) (lv : txt_locals) : result (R * txt_locals) :=
  let line := cstr buf in
  if strncmp_eq line (bytes "TASK") 4 then
    let lv := scan_task fmt_task line lv in
    Ret (create_task sess (tmsg lv) false needs_session, lv)
  else if strncmp_eq line (bytes "FORK") 4 then
    let lv := scan_task fmt_fork line lv in
    Ret (create_task sess (tmsg lv) true needs_session, lv)
  else if strncmp_eq line (bytes "SESS") 4 then
    if negb needs_session then Ret (sess, lv)
    else
      match strstr line (bytes "exename=") with
      | None => Fatal invalid_task_txt
      | Some pos =>
          let exename := quoted_name pos in
          let lv := scan_sess line exename lv in
          Ret (create_session sess (smsg lv) dirname exename sym_rel_addr,
               lv)
      end
  else if strncmp_eq line (bytes "DLOP") 4 then
    if negb needs_session then Ret (sess, lv)
    else
      match strstr line (bytes "libname=") with
      | None => Fatal invalid_task_txt
      | Some pos =>
          let exename := quoted_name pos in
          let lv := scan_dlop line exename lv in
          match get_session_from_sid sess (dlop_sid (dlop lv)) with
          | None => Abort
          | Some s =>
              Ret (session_add_dlopen sess s (time (dlop_task (dlop lv)))
                     (base_addr (dlop lv)) exename, lv)
          end
      end
  else Ret (sess, lv).

Fixpoint read_task_txt_lines (dirname : string)
    (needs_session sym_rel_addr : bool) (lines : list (list byte))
    (sess : R) (lv : txt_locals) : result (R * txt_locals) :=
  match lines with
  | [] => Ret (sess, lv)
  | l :: rest =>
      match read_task_txt_line dirname needs_session sym_rel_addr l
              sess lv with
      | Ret (sess, lv) =>
          read_task_txt_lines dirname needs_session sym_rel_addr rest
            sess lv
      | r => r
      end
  end.

(** [lv] is what the locals hold on entry.  The result is the value
    returned and the registry. *)
Definition read_task_txt_file (fs : filesys) (lv : txt_locals) (sess : R)
    (dirname : string) (needs_session sym_rel_addr : bool) : M (Z * R) :=
  bind (fopen fs (dirname ++ "/task.txt")) (fun fp =>
    match fp with
    | inr errno => ret (- Z.pos errno, sess)
    | inl data =>
        match read_task_txt_lines dirname needs_session sym_rel_addr
                (getlines data) sess lv with
        | Ret (sess, _) => ret (0, sess)
        | Fatal d => pr_err d
        | Abort => lift Abort
        | OutOfFuel => lift OutOfFuel
        | Undefined => lift Undefined
        end
    end).

(** A SESS line among [pre], read from the registry [r0] with the
    locals [lv0], created a session with the id [x]. *)
Definition created_from_sess_line (dirname : string) (sym_rel_addr : bool)
    (pre : list (list byte)) (r0 : R) (lv0 : txt_locals) (x : list byte)
    : Prop :=
  exists p1 l p2 s1 lv1,
    pre = p1 ++ l :: p2
    /\ read_task_txt_lines dirname true sym_rel_addr p1 r0 lv0 = Ret (s1, lv1)
    /\ line_tag l "SESS" = true
    /\ sess_line_sid l lv1 = Some x.

End TextReader.

(** ** The writers of the text log *)

Definition digit_char (d : Z) : byte :=
  match d with
  | 0 => "0" | 1 => "1" | 2 => "2" | 3 => "3" | 4 => "4"
  | 5 => "5" | 6 => "6" | 7 => "7" | 8 => "8" | _ => "9"
  end%byte.

(** The decimal digits of [n] in front of [acc]; twenty digits hold any
    64-bit value. *)
Fixpoint dec_digits (fuel : nat) (n : Z) (acc : list byte) : list byte :=
  match fuel with
  | O => acc
  | S fuel =>
      let acc := digit_char (n mod 10) :: acc in
      if n / 10 =? 0 then acc else dec_digits fuel (n / 10) acc
  end.

(** [printf("%lu", n)] for an unsigned 64-bit [n]. *)
Definition print_lu (n : Z) : list byte := dec_digits 20 n [].

(** [printf("%09lu", n)] *)
Definition print_09lu (n : Z) : list byte :=
  let ds := print_lu n in
  repeat "0"%byte (9 - List.length ds) ++ ds.

(** [printf("%d", n)] for an [int] [n]. *)
Definition print_d (n : Z) : list byte :=
  if n <? 0 then "-"%byte :: print_lu (- n) else print_lu n.

(** [snprintf(buf, sz, ...)] keeps [sz - 1] bytes at most. *)
Definition snprintf (sz : nat) (out : list byte) : list byte :=
  firstn (sz - 1) out.

Definition snprint_timestamp (sz : nat) (timestamp : Z) : list byte :=
  snprintf sz (print_lu (timestamp / NSEC_PER_SEC) ++ bytes "."
               ++ print_09lu (timestamp mod NSEC_PER_SEC)).

(** The line [fprintf] appends for a task. *)
Definition task_line (tmsg : ftrace_msg_task) : list byte :=
  let ts := snprint_timestamp 128 (time tmsg) in
  bytes "TASK timestamp=" ++ ts ++ bytes " tid=" ++ print_d (tid tmsg)
  ++ bytes " pid=" ++ print_d (pid tmsg) ++ [NL].

Definition fork_line (tmsg : ftrace_msg_task) : list byte :=
  let ts := snprint_timestamp 128 (time tmsg) in
  bytes "FORK timestamp=" ++ ts ++ bytes " pid=" ++ print_d (tid tmsg)
  ++ bytes " ppid=" ++ print_d (pid tmsg) ++ [NL].

(** Each writer opens the log for appending, writes its line and closes
    the log; [pr_err] when it cannot open it. *)
Definition append_line (fs : filesys) (dirname : string) (line : list byte)
    : result filesys :=
  let fname := (dirname ++ "/task.txt")%string in
  match open_append fs fname with
  | inr _ => Fatal (cannot_open fname)
  | inl old => Ret (fs_store fs fname (old ++ line))
  end.

Definition write_task_info (fs : filesys) (dirname : string)
    (tmsg : ftrace_msg_task) : result filesys :=
  append_line fs dirname (task_line tmsg).

Definition write_fork_info (fs : filesys) (dirname : string)
    (tmsg : ftrace_msg_task) : result filesys :=
  append_line fs dirname (fork_line tmsg).

Definition hex_char (d : Z) : byte :=
  match d with
  | 0 => "0" | 1 => "1" | 2 => "2" | 3 => "3" | 4 => "4"
  | 5 => "5" | 6 => "6" | 7 => "7" | 8 => "8" | 9 => "9"
  | 10 => "a" | 11 => "b" | 12 => "c" | 13 => "d" | 14 => "e"
  | _ => "f"
  end%byte.

(** The hexadecimal digits of [n] in front of [acc]; sixteen digits
    hold any 64-bit value. *)
Fixpoint hex_digits (fuel : nat) (n : Z) (acc : list byte) : list byte :=
  match fuel with
  | O => acc
  | S fuel =>
      let acc := hex_char (n mod 16) :: acc in
      if n / 16 =? 0 then acc else hex_digits fuel (n / 16) acc
  end.

(** [printf("%" PRIx64, n)] for an unsigned 64-bit [n]. *)
Definition print_lx (n : Z) : list byte := hex_digits 16 n [].

(** [printf("%s", s)]: the bytes of the string, up to its NUL.  The
    session id of a message is printed the same way: the array is taken
    to hold a string that ends within it or at a zero right after it
    (libmcount/mcount.h, which declares it, is not among the sources). *)
Definition print_s (s : list byte) : list byte := cstr s.

(** The lines [fprintf] appends for a session and for a library. *)
Definition sess_line (smsg : ftrace_msg_sess) (exename : list byte)
    : list byte :=
  let ts := snprint_timestamp 128 (time (sess_task smsg)) in
  bytes "SESS timestamp=" ++ ts
  ++ bytes " pid=" ++ print_d (pid (sess_task smsg))
  ++ bytes " sid=" ++ print_s (sid smsg)
  ++ bytes " exename=" ++ [QUOTE] ++ print_s exename ++ [QUOTE; NL].

Definition dlop_line (dmsg : ftrace_msg_dlopen) (libname : list byte)
    : list byte :=
  let ts := snprint_timestamp 128 (time (dlop_task dmsg)) in
  bytes "DLOP timestamp=" ++ ts
  ++ bytes " tid=" ++ print_d (tid (dlop_task dmsg))
  ++ bytes " sid=" ++ print_s (dlop_sid dmsg)
  ++ bytes " base=" ++ print_lx (base_addr dmsg)
  ++ bytes " libname=" ++ [QUOTE] ++ print_s libname ++ [QUOTE; NL].

Definition write_session_info (fs : filesys) (dirname : string)
    (smsg : ftrace_msg_sess) (exename : list byte) : result filesys :=
  append_line fs dirname (sess_line smsg exename).

Definition write_dlopen_info (fs : filesys) (dirname : string)
    (dmsg : ftrace_msg_dlopen) (libname : list byte) : result filesys :=
  append_line fs dirname (dlop_line dmsg libname).

(** ** The run header and open_data_file *)

(** [struct uftrace_file_header], with the fields the source reads. *)
Record uftrace_file_header := {
  hdr_magic : list byte;
  version : Z;     (* uint32_t *)
  endian : Z;      (* uint8_t *)
  feat_mask : Z;   (* uint64_t *)
  info_mask : Z;   (* uint64_t *)
  max_stack : Z;   (* uint16_t *)
}.

(** [struct ftrace_info], [struct uftrace_kernel] and [struct opts], with
    the fields the source reads and writes. *)
Record ftrace_info := {
  info_exename : option (list byte);
  argspec : option (list byte);
}.

Record uftrace_kernel := {
  pevent : option Z;
  output_dir : option string;
  skip_out : bool;
}.

Record opts := {
  dirname : string;
  exename : option (list byte);
  depth : Z;
  threshold : Z;
  range : Z;
  kernel_skip_out : bool;
}.

(** [struct ftrace_file_handle]; [X] is the state the collaborators
    keep (the argument specs and the kernel symbols). *)
Record ftrace_file_handle (R X : Type) := {
  h_dirname : string;
  h_depth : Z;
  nr_tasks : Z;
  time_filter : Z;
  time_range : Z;
  sessions : R;
  kernel : uftrace_kernel;
  hdr : uftrace_file_header;
  needs_byte_swap : bool;
  needs_bit_swap : bool;
  info : ftrace_info;
  ext : X;
}.

Arguments h_dirname {R X} _.
Arguments h_depth {R X} _.
Arguments nr_tasks {R X} _.
Arguments time_filter {R X} _.
Arguments time_range {R X} _.
Arguments sessions {R X} _.
Arguments kernel {R X} _.
Arguments hdr {R X} _.
Arguments needs_byte_swap {R X} _.
Arguments needs_bit_swap {R X} _.
Arguments info {R X} _.
Arguments ext {R X} _.

(** The collaborators [open_data_file] calls: the reader of the blocks
    that follow the header ([None] is its negative result), the setup of
    the argument specs and the kernel data. *)
Class Collaborators (X : Type) := {
  read_ftrace_info : Z -> list byte -> option ftrace_info;
  setup_fstack_args : option (list byte) -> X -> X;
  setup_kernel_data : uftrace_kernel -> Z * uftrace_kernel;
  load_kernel_symbol : string -> X -> X;
}.

Section Open.
Context {abi : Abi}.
Context {R P : Type} {reg : Registry R P}.
Context {X : Type} {col : Collaborators X}.

Local Open Scope io_scope.

(** The endianness of the running machine (libmcount). *)
Definition get_elf_endian : Z :=
  match host_order with
  | LittleEndian => ELFDATA2LSB
  | BigEndian => ELFDATA2MSB
  end.

(** [handle->hdr] after [fread] has filled it with the bytes [raw]. *)
Definition hdr_of_raw (raw : list byte) : uftrace_file_header :=
  {| hdr_magic := field off_magic UFTRACE_MAGIC_LEN raw;
     version := decode_native host_order (field off_version 4 raw);
     endian := decode_native host_order (field off_endian 1 raw);
     feat_mask := decode_native host_order (field off_feat_mask 8 raw);
     info_mask := decode_native host_order (field off_info_mask 8 raw);
     max_stack := decode_native host_order (field off_max_stack 2 raw) |}.

(** Modelled from the spec: [data.s.magic], the read of the bitfield
    [magic] of a [struct uftrace_record] laid over the two words
    [data.d] (uftrace.h is not among the sources).  The field is three
    bits wide and follows three bits of other fields in the second
    word: bits 3 to 5 when the compiler allocates bitfields from the
    least significant bit, bits 58 to 60 when it starts from the most
    significant one. *)
Definition record_magic_of (o : bitfield_order) (d1 : Z) : Z :=
  match o with
  | LsbFirst => Z.land (Z.shiftr d1 3) 7
  | MsbFirst => Z.land (Z.shiftr d1 58) 7
  end.

(** [check_data_order]: the two flags it stores in the handle. *)
Definition check_data_order (h : uftrace_file_header) : bool * bool :=
  let needs_byte_swap := negb (get_elf_endian =? endian h) in
  let d1 := wrap 64 (Z.shiftl RECORD_MAGIC 3) in
  let needs_bit_swap :=
    negb (record_magic_of host_bitfields d1 =? RECORD_MAGIC) in
  (needs_byte_swap, needs_bit_swap).

(** The four swaps of [open_data_file] when the byte order differs. *)
Definition swap_header (h : uftrace_file_header) : uftrace_file_header :=
  {| hdr_magic := hdr_magic h;
     version := bswap_32 (version h);
     endian := endian h;
     feat_mask := bswap_64 (feat_mask h);
     info_mask := bswap_64 (info_mask h);
     max_stack := bswap_16 (max_stack h) |}.

(** From [fread] to the swaps: [check_data_order] and the header as
    the version check finds it. *)
Definition load_header (raw : list byte)
    : bool * bool * uftrace_file_header :=
  let h := hdr_of_raw raw in
  let (needs_byte_swap, needs_bit_swap) := check_data_order h in
  (needs_byte_swap, needs_bit_swap,
   if needs_byte_swap then swap_header h else h).

(** [fread(ptr, size, 1, fp)]: the item and the rest of the stream,
    [None] when fewer than [size] bytes are left. *)
Definition fread1 (size : nat) (fp : list byte)
    : option (list byte * list byte) :=
  if (size <=? List.length fp)%nat
  then Some (firstn size fp, skipn size fp)
  else None.

(** One pass over the code between the label [retry] and the body:
    [again] and [buf] are the variables of that name, [retry] is the
    jump back.  The result is the stream and [again], or [None] for
    the [goto out]. *)
Definition try_open (fs : filesys) (o : opts) (again : bool)
    (buf : string) (retry : string -> M (option (list byte * bool)))
    : M (option (list byte * bool)) :=
  fp <- fopen fs buf ;;
  match fp with
  | inl fp => ret (Some (fp, again))
  | inr errno =>
      let buf := if again then (dirname o ++ "/info")%string else buf in
      if Pos.eqb errno ENOENT then
        if negb again && String.eqb (dirname o) UFTRACE_DIR_NAME then
          retry (UFTRACE_DIR_OLD_NAME ++ "/info")%string
        else
          pr_log (cannot_find_file buf) ;;;
          match exename o with
          | Some e => pr_err (record_msg e)
          | None => ret None
          end
      else pr_err (cannot_open_file buf)
  end.

(** The jump is taken with [again] set, and a pass with [again] set
    does not jump. *)
Definition open_info (fs : filesys) (o : opts)
    : M (option (list byte * bool)) :=
  try_open fs o false (dirname o ++ "/info")%string
    (fun buf => try_open fs o true buf (fun _ => ret None)).

Definition has_feat (h : uftrace_file_header) (bit : Z) : bool :=
  negb (Z.land (feat_mask h) bit =? 0).

(** The readers of the two task logs, and the warning when both
    fail. *)
Definition read_sessions (fs : filesys) (lv : txt_locals)
    (dir : string) (h : uftrace_file_header) (sess : R) : M R :=
  if has_feat h TASK_SESSION then
    let sym_rel := has_feat h SYM_REL_ADDR in
    r <- read_task_txt_file fs lv sess dir true sym_rel ;;
    let (ret1, sess) := (r : Z * R) in
    if ret1 <? 0 then
      r <- read_task_file fs sess dir true sym_rel ;;
      let (ret2, sess) := (r : Z * R) in
      if ret2 <? 0 then pr_warn invalid_task_file ;;; ret sess
      else ret sess
    else ret sess
  else ret sess.

(** The end of [open_data_file], after the task logs are read: the
    argument specs, the default stack depth, the kernel data, and the
    [ret = 0] it returns with the configuration and the handle.  The
    assignments to [*opts] and [*handle] that the source makes on its way
    (the directory, the filters, the executable name) are gathered here:
    nothing reads them in between. *)
Definition finish_open (o : opts) (handle : ftrace_file_handle R X)
    (dir : string) (byte_swap bit_swap : bool) (h : uftrace_file_header)
    (inf : ftrace_info) (sess : R) : Z * opts * ftrace_file_handle R X :=
  let exe := match exename o with
             | None => info_exename inf
             | Some e => Some e
             end in
  let x := if has_feat h (Z.lor ARGUMENT RETVAL)
           then setup_fstack_args (argspec inf) (ext handle)
           else ext handle in
  let h := if negb (has_feat h MAX_STACK)
           then {| hdr_magic := hdr_magic h; version := version h;
                   endian := endian h; feat_mask := feat_mask h;
                   info_mask := info_mask h;
                   max_stack := MCOUNT_RSTACK_MAX |}
           else h in
  let '(k, x) :=
    if has_feat h KERNEL then
      let '(st, k) :=
        setup_kernel_data
          {| pevent := None; output_dir := Some dir;
             skip_out := kernel_skip_out o |} in
      (k, if st =? 0 then load_kernel_symbol dir x else x)
    else ({| pevent := None; output_dir := output_dir (kernel handle);
             skip_out := skip_out (kernel handle) |}, x) in
  (0,
   {| dirname := dir; exename := exe; depth := depth o;
      threshold := threshold o; range := range o;
      kernel_skip_out := kernel_skip_out o |},
   {| h_dirname := dir; h_depth := depth o; nr_tasks := 0;
      time_filter := threshold o; time_range := range o;
      sessions := sess; kernel := k; hdr := h;
      needs_byte_swap := byte_swap; needs_bit_swap := bit_swap;
      info := inf; ext := x |}).

(** [opts->dirname] once the header is open: the old default name when
    the header was found there. *)
Definition active_dir (o : opts) (again : bool) : string :=
  if again then UFTRACE_DIR_OLD_NAME else dirname o.

(** [memcmp(handle->hdr.magic, UFTRACE_MAGIC_STR, UFTRACE_MAGIC_LEN) == 0] *)
Definition magic_ok (h : uftrace_file_header) : bool :=
  bytes_eqb (firstn UFTRACE_MAGIC_LEN (hdr_magic h))
            (firstn UFTRACE_MAGIC_LEN UFTRACE_MAGIC_STR).

Definition version_ok (h : uftrace_file_header) : bool :=
  negb ((version h <? UFTRACE_FILE_VERSION_MIN)
        || (UFTRACE_FILE_VERSION <? version h)).

Definition open_data_file (fs : filesys) (lv : txt_locals) (o : opts)
    (handle : ftrace_file_handle R X)
    : M (Z * opts * ftrace_file_handle R X) :=
  r <- open_info fs o ;;
  match r with
  | None => ret (-1, o, handle)
  | Some (fp, again) =>
    let dir := active_dir o again in
    match fread1 sizeof_hdr fp with
    | None => pr_err cannot_read_header
    | Some (raw, fp) =>
      if negb (magic_ok (hdr_of_raw raw)) then pr_err invalid_magic
      else
        let '(byte_swap, bit_swap, h) := load_header raw in
        if negb (version_ok h)
        then pr_err (unsupported_version (version h))
        else
          match read_ftrace_info (info_mask h) fp with
          | None => pr_err cannot_read_info
          | Some inf =>
            sess <- read_sessions fs lv dir h sessions_init ;;
            ret (finish_open o handle dir byte_swap bit_swap h inf sess)
          end
    end
  end.

End Open.

(** ** Well-formedness of the headers' data, and an instance *)

(** The fields of the run header lie within it. *)
Definition hdr_layout_ok {abi : Abi} : Prop :=
  (off_version + 4 <= sizeof_hdr)%nat
  /\ (off_feat_mask + 8 <= sizeof_hdr)%nat
  /\ (off_info_mask + 8 <= sizeof_hdr)%nat
  /\ (off_max_stack + 2 <= sizeof_hdr)%nat.

(** The sizes of the messages are positive and fit a size_t, and the
    length of a name is an [int]. *)
Definition msg_layout_ok {abi : Abi} : Prop :=
  (0 < sizeof_msg)%nat
  /\ Z.of_nat sizeof_msg < 2 ^ 64
  /\ Z.of_nat sizeof_smsg < 2 ^ 64
  /\ Z.of_nat sizeof_tmsg < 2 ^ 64
  /\ forall bs, - 2 ^ 31 <= namelen (decode_smsg bs) < 2 ^ 31.

(** ** The legacy log in the words of the spec *)

(** The padding after a name of [namelen] bytes: none when [namelen] is
    a multiple of 8, else 8 - (namelen mod 8) bytes. *)
Definition session_padding (namelen : Z) : Z :=
  if namelen mod 8 =? 0 then 0 else 8 - namelen mod 8.








(** An instance of the headers, for the examples: a little-endian
    64-bit machine whose compiler allocates bitfields from the least
    significant bit, a 40-byte run header, an 8-byte envelope, a 16-byte
    task message and a 40-byte session message. *)
Definition le_decode_tmsg (bs : list byte) : ftrace_msg_task :=
  {| time := le_decode (field 0 8 bs);
     pid := to_signed 32 (le_decode (field 8 4 bs));
     tid := to_signed 32 (le_decode (field 12 4 bs)) |}.

Definition x86_64 : Abi := {|
  host_order := LittleEndian;
  host_bitfields := LsbFirst;
  UFTRACE_MAGIC_STR := bytes "Ftrace!" ++ [NUL];
  UFTRACE_MAGIC_LEN := 8;
  UFTRACE_FILE_VERSION := 4;
  UFTRACE_FILE_VERSION_MIN := 3;
  UFTRACE_DIR_NAME := "uftrace.data";
  UFTRACE_DIR_OLD_NAME := "ftrace.dir";
  sizeof_hdr := 40;
  off_magic := 0;
  off_version := 8;
  off_endian := 14;
  off_feat_mask := 16;
  off_info_mask := 24;
  off_max_stack := 32;
  TASK_SESSION := 2;
  SYM_REL_ADDR := 32;
  ARGUMENT := 8;
  RETVAL := 16;
  MAX_STACK := 64;
  KERNEL := 4;
  RECORD_MAGIC := 5;
  MCOUNT_RSTACK_MAX := 1024;
  FTRACE_MSG_MAGIC := 0xface;
  FTRACE_MSG_SESSION := 6;
  FTRACE_MSG_TID := 3;
  FTRACE_MSG_FORK_END := 5;
  sizeof_msg := 8;
  decode_msg bs :=
    {| magic := le_decode (field 0 2 bs); type := le_decode (field 2 2 bs) |};
  sizeof_tmsg := 16;
  decode_tmsg := le_decode_tmsg;
  sizeof_smsg := 40;
  decode_smsg bs :=
    {| sess_task := le_decode_tmsg bs;
       sid := field 16 16 bs;
       namelen := to_signed 32 (le_decode (field 36 4 bs)) |};
  sizeof_sid := 16;
  sizeof_dlop_sid := 16;
|}.

(** The same machine with the other byte order and bitfield order. *)
Definition big_endian : Abi := {|
  host_order := BigEndian;
  host_bitfields := MsbFirst;
  UFTRACE_MAGIC_STR := @UFTRACE_MAGIC_STR x86_64;
  UFTRACE_MAGIC_LEN := 8;
  UFTRACE_FILE_VERSION := 4;
  UFTRACE_FILE_VERSION_MIN := 3;
  UFTRACE_DIR_NAME := "uftrace.data";
  UFTRACE_DIR_OLD_NAME := "ftrace.dir";
  sizeof_hdr := 40;
  off_magic := 0;
  off_version := 8;
  off_endian := 14;
  off_feat_mask := 16;
  off_info_mask := 24;
  off_max_stack := 32;
  TASK_SESSION := 2;
  SYM_REL_ADDR := 32;
  ARGUMENT := 8;
  RETVAL := 16;
  MAX_STACK := 64;
  KERNEL := 4;
  RECORD_MAGIC := 5;
  MCOUNT_RSTACK_MAX := 1024;
  FTRACE_MSG_MAGIC := 0xface;
  FTRACE_MSG_SESSION := 6;
  FTRACE_MSG_TID := 3;
  FTRACE_MSG_FORK_END := 5;
  sizeof_msg := 8;
  decode_msg := @decode_msg x86_64;
  sizeof_tmsg := 16;
  decode_tmsg := le_decode_tmsg;
  sizeof_smsg := 40;
  decode_smsg := @decode_smsg x86_64;
  sizeof_sid := 16;
  sizeof_dlop_sid := 16;
|}.

(** Collaborators that find no optional block and set nothing up. *)
Definition no_collaborators : Collaborators unit := {|
  read_ftrace_info _ _ := Some {| info_exename := None; argspec := None |};
  setup_fstack_args _ x := x;
  setup_kernel_data k := (0, k);
  load_kernel_symbol _ x := x;
|}.

(** The bytes of [n] in [w] bytes, least significant first. *)
Fixpoint le_bytes (w : nat) (n : Z) : list byte :=
  match w with
  | O => []
  | S w =>
      match Byte.of_N (Z.to_N (n mod 256)) with
      | Some b => b :: le_bytes w (n / 256)
      | None => []
      end
  end.

(** A run header as a little-endian writer lays it out: the magic, the
    version, the header size, the endianness tag, the class, the two
    masks, the stack depth and six unused bytes. *)
Definition sample_header (ver tag feat inf depth : Z) : list byte :=
  bytes "Ftrace!" ++ [NUL] ++ le_bytes 4 ver ++ le_bytes 2 40
  ++ le_bytes 1 tag ++ le_bytes 1 2 ++ le_bytes 8 feat ++ le_bytes 8 inf
  ++ le_bytes 2 depth ++ le_bytes 6 0.

(** A file system with the files listed, and nothing else. *)
Fixpoint files (l : list (string * list byte)) : filesys :=
  match l with
  | [] => fun _ => Absent
  | (p, d) :: t => fun q => if String.eqb q p then File d else files t q
  end.

Definition locals0 : txt_locals :=
  let t := {| time := 0; pid := 0; tid := 0 |} in
  {| sec := 0; nsec := 0; tmsg := t;
     smsg := {| sess_task := t; sid := []; namelen := 0 |};
     dlop := {| dlop_task := t; dlop_sid := []; base_addr := 0;
                dlop_namelen := 0 |} |}.

Definition opts0 (dir : string) : opts :=
  {| dirname := dir; exename := None; depth := 0; threshold := 0;
     range := 0; kernel_skip_out := false |}.

Definition handle0 : ftrace_file_handle uftrace_session_link unit :=
  {| h_dirname := ""; h_depth := 0; nr_tasks := 0; time_filter := 0;
     time_range := 0; sessions := sessions_init;
     kernel := {| pevent := None; output_dir := None; skip_out := false |};
     hdr := {| hdr_magic := []; version := 0; endian := 0; feat_mask := 0;
               info_mask := 0; max_stack := 0 |};
     needs_byte_swap := false; needs_bit_swap := false;
     info := {| info_exename := None; argspec := None |}; ext := tt |}.

(** Runs of [open_data_file] for the examples: the registry is the list
    registry, the collaborators do nothing, the trace starts empty. *)
Definition open_sample (abi : Abi) (fs : filesys) (dir : string) :=
  @open_data_file abi _ _ list_registry unit no_collaborators fs locals0
    (opts0 dir) handle0 [].

Definition quoted (s : string) : list byte := [QUOTE] ++ bytes s ++ [QUOTE].

(** The text log of the scenario of the spec: a task and its session. *)
Definition sample_txt : list byte :=
  bytes "TASK timestamp=10.000000001 tid=5 pid=5" ++ [NL]
  ++ bytes "SESS timestamp=10.000000000 pid=5 sid=abc123 exename="
  ++ quoted "/bin/app" ++ [NL].

(** A header of the current version without features in the default
    directory; one with session info, and its text log, in the old
    default directory. *)
Definition fs_plain : filesys :=
  files [("uftrace.data/info"%string, sample_header 4 1 0 0 0)].

(** A header written by a little-endian machine that holds the stack
    depth 0x1234, with the feature mask [feat]. *)
Definition fs_depth (feat : Z) : filesys :=
  files [("uftrace.data/info"%string, sample_header 4 1 feat 0 0x1234)].

Definition fs_old_dir : filesys :=
  files [("ftrace.dir/info"%string, sample_header 4 1 2 0 0);
         ("ftrace.dir/task.txt"%string, sample_txt)].

(** Messages of the legacy log as the instance lays them out. *)
Definition sample_envelope (tag : Z) : list byte :=
  le_bytes 2 0xface ++ le_bytes 2 tag ++ le_bytes 4 0.

Definition sample_tmsg (t p i : Z) : list byte :=
  le_bytes 8 t ++ le_bytes 4 p ++ le_bytes 4 i.

Definition sample_smsg (t p : Z) (id : string) (len : Z) : list byte :=
  sample_tmsg t p p ++ bytes id ++ le_bytes 4 0 ++ le_bytes 4 len.

(** A whole TID message, and one followed by three stray bytes. *)
Definition sample_tid_msg : list byte :=
  sample_envelope 3 ++ sample_tmsg 10000000001 5 5.


(** A log with the session of the sample and a library loaded into it,
    and the line of a library loaded into a session that no line made. *)
Definition sample_dlop (id : string) : list byte :=
  bytes "DLOP timestamp=11.000000000 tid=5 sid=" ++ bytes id
  ++ bytes " base=7f0000001000 libname=" ++ quoted "libfoo.so" ++ [NL].




(** ** The run header as a producer lays it out *)

(** The endianness tag a machine of byte order [p] writes, and the
    bytes of the value [v] in a field of [w] bytes in that order. *)
Definition elf_tag (p : byte_order) : Z :=
  match p with
  | LittleEndian => ELFDATA2LSB
  | BigEndian => ELFDATA2MSB
  end.

Definition encode_native (p : byte_order) (w : nat) (v : Z) : list byte :=
  match p with
  | LittleEndian => le_bytes w v
  | BigEndian => rev (le_bytes w v)
  end.

(** ** The legacy log as a sequence of messages *)








(** ** The text log as a sequence of records *)

(** What the four writers are called with. *)
Inductive info_record :=
| task_info (m : ftrace_msg_task)
| fork_info (m : ftrace_msg_task)
| session_info (m : ftrace_msg_sess) (exename : list byte)
| dlopen_info (m : ftrace_msg_dlopen) (libname : list byte).

Definition info_line (r : info_record) : list byte :=
  match r with
  | task_info m => task_line m
  | fork_info m => fork_line m
  | session_info m exename => sess_line m exename
  | dlopen_info m libname => dlop_line m libname
  end.

Definition write_info (fs : filesys) (dirname : string) (r : info_record)
    : result filesys :=
  match r with
  | task_info m => write_task_info fs dirname m
  | fork_info m => write_fork_info fs dirname m
  | session_info m exename => write_session_info fs dirname m exename
  | dlopen_info m libname => write_dlopen_info fs dirname m libname
  end.

Fixpoint write_infos (fs : filesys) (dirname : string)
    (rs : list info_record) : result filesys :=
  match rs with
  | [] => Ret fs
  | r :: rest =>
      match write_info fs dirname r with
      | Ret fs => write_infos fs dirname rest
      | e => e
      end
  end.

(** The values the formats can carry: a 64-bit time, [int] ids, a
    session id of hexadecimal digits, a 64-bit address, and a name that
    is C text on one line. *)
Definition is_int (v : Z) : Prop := - 2 ^ 31 <= v < 2 ^ 31.
Definition is_u64 (v : Z) : Prop := 0 <= v < 2 ^ 64.

Definition sid_ok (s : list byte) : Prop :=
  s <> [] /\ Forall (fun c => hex_val c <> None) s.

Definition task_ok (m : ftrace_msg_task) : Prop :=
  is_u64 (time m) /\ is_int (tid m) /\ is_int (pid m).

Definition info_ok (r : info_record) : Prop :=
  match r with
  | task_info m | fork_info m => task_ok m
  | session_info m exename =>
      is_u64 (time (sess_task m)) /\ is_int (pid (sess_task m))
      /\ sid_ok (sid m) /\ line_body exename
  | dlopen_info m libname =>
      is_u64 (time (dlop_task m)) /\ is_int (tid (dlop_task m))
      /\ sid_ok (dlop_sid m) /\ is_u64 (base_addr m) /\ line_body libname
  end.

(** The session message the reader builds from the line of a session:
    the pid stands for the tid, and the length is that of the name. *)
Definition session_as_read (m : ftrace_msg_sess) (exename : list byte)
    : ftrace_msg_sess :=
  {| sess_task := {| time := time (sess_task m); pid := pid (sess_task m);
                     tid := pid (sess_task m) |};
     sid := sid m;
     namelen := strlen exename |}.

(** What a record adds to the registry when its line is read; [None]
    when the session of a library is not there. *)
Definition info_apply {R P : Type} {reg : Registry R P}
    (dirname : string) (needs_session sym_rel_addr : bool)
    (sess : R) (r : info_record) : option R :=
  match r with
  | task_info m => Some (create_task sess m false needs_session)
  | fork_info m => Some (create_task sess m true needs_session)
  | session_info m exename =>
      Some (if needs_session
            then create_session sess (session_as_read m exename) dirname
                   exename sym_rel_addr
            else sess)
  | dlopen_info m libname =>
      if needs_session then
        match get_session_from_sid sess (dlop_sid m) with
        | Some s =>
            Some (session_add_dlopen sess s (time (dlop_task m))
                    (base_addr m) libname)
        | None => None
        end
      else Some sess
  end.

Fixpoint replay {R P : Type} {reg : Registry R P}
    (dirname : string) (needs_session sym_rel_addr : bool)
    (rs : list info_record) (sess : R) : option R :=
  match rs with
  | [] => Some sess
  | r :: rest =>
      match info_apply dirname needs_session sym_rel_addr sess r with
      | Some sess => replay dirname needs_session sym_rel_addr rest sess
      | None => None
      end
  end.

(** No hexadecimal digit and no [x] follows: a hexadecimal item ends
    here. *)
Definition no_hex_head (s : list byte) : Prop :=
  match s with
  | c :: _ => hex_val c = None /\ Byte.eqb c "x" = false
              /\ Byte.eqb c "X" = false
  | [] => True
  end.

(** A text that holds no [n]: the names [strstr] looks for, [exename=]
    and [libname=], cannot start in it. *)
Definition no_n (s : list byte) : Prop :=
  Forall (fun c => Byte.eqb c "n" = false) s.


(** ** Lines that fit the text reader *)

(** The token [%s] takes for the session id of a SESS or DLOP line, the
    fourth conversion of either format; none when the scan ends before
    it. *)
Definition sid_token (fmt : list directive) (buf : list byte)
    : option (list byte) :=
  match nth_error (sscanf (skipn 5 (cstr buf)) fmt) 3 with
  | Some (v_str s) => Some s
  | _ => None
  end.

(** The token and the NUL that ends it fit an array of [size] bytes. *)
Definition token_fits (size : nat) (tok : option (list byte)) : Prop :=
  match tok with
  | Some s => (List.length s < size)%nat
  | None => True
  end.

(** [line + 5] lies within the line. *)
Definition scan_within (buf : list byte) : Prop :=
  (5 <= List.length (cstr buf))%nat.

(** [pos + 8 + 1] lies within the line: a byte at least follows the
    marker. *)
Definition name_follows (buf : list byte) (marker : string) : Prop :=
  match strstr (cstr buf) (bytes marker) with
  | Some pos => (9 <= List.length pos)%nat
  | None => True
  end.

(** A line the text reader handles within its buffers: what it scans
    lies within the line, the session id of a SESS line fits [smsg.sid]
    and that of a DLOP line [dlop.sid], and the name is read from within
    the line.  SESS and DLOP lines are scanned when sessions are read. *)
Definition line_fits {abi : Abi} (needs_session : bool) (buf : list byte)
    : Prop :=
  (line_tag buf "TASK" = true \/ line_tag buf "FORK" = true ->
   scan_within buf)
  /\ (needs_session = true -> line_tag buf "SESS" = true ->
      scan_within buf
      /\ token_fits sizeof_sid (sid_token fmt_sess buf)
      /\ name_follows buf "exename=")
  /\ (needs_session = true -> line_tag buf "DLOP" = true ->
      scan_within buf
      /\ token_fits sizeof_dlop_sid (sid_token fmt_dlop buf)
      /\ name_follows buf "libname=").

(** * Part II: lemmas and theorems *)

(** ** Facts on bytes and swaps *)

Lemma byte_val_range (b : byte) : 0 <= byte_val b < 256.
Proof.
  unfold byte_val. pose proof (Byte.to_N_bounded b). lia.
Qed.

Lemma byte_val_testbit_high (b : byte) (i : Z) :
  8 <= i -> Z.testbit (byte_val b) i = false.
Proof.
  intros Hi. pose proof (byte_val_range b) as Hb.
  rewrite <- (Z.mod_small (byte_val b) (2 ^ 8)) by (change (2 ^ 8) with 256; lia).
  apply Z.mod_pow2_bits_high. lia.
Qed.

Lemma le_decode_cons_lor (b : byte) (x : Z) :
  byte_val b + 256 * x = Z.lor (byte_val b) (Z.shiftl x 8).
Proof.
  assert (Hland : Z.land (byte_val b) (Z.shiftl x 8) = 0).
  { apply Z.bits_inj'. intros n Hn.
    rewrite Z.land_spec, Z.bits_0.
    destruct (Z.ltb_spec n 8).
    - rewrite Z.shiftl_spec_low by lia. apply andb_false_r.
    - rewrite byte_val_testbit_high by lia. reflexivity. }
  rewrite <- Z.lxor_lor by exact Hland.
  rewrite <- Z.add_nocarry_lxor by exact Hland.
  rewrite Z.shiftl_mul_pow2 by lia. change (2 ^ 8) with 256. lia.
Qed.

Lemma le_decode_testbit (bs : list byte) :
  forall k i, 0 <= k -> 0 <= i < 8 ->
  Z.testbit (le_decode bs) (8 * k + i)
  = Z.testbit (byte_val (nth (Z.to_nat k) bs x00)) i.
Proof.
  induction bs as [|b t IH]; intros k i Hk Hi.
  - cbn [le_decode]. rewrite Z.bits_0.
    destruct (Z.to_nat k); cbn [nth]; change (byte_val x00) with 0;
      rewrite Z.bits_0; reflexivity.
  - cbn [le_decode]. rewrite le_decode_cons_lor, Z.lor_spec.
    destruct (Z.eq_dec k 0) as [->|Hk0].
    + rewrite Z.shiftl_spec_low by lia. simpl. rewrite orb_false_r.
      reflexivity.
    + rewrite byte_val_testbit_high by lia.
      rewrite Z.shiftl_spec by lia.
      replace (8 * k + i - 8) with (8 * (k - 1) + i) by lia.
      rewrite IH by lia.
      replace (Z.to_nat k) with (S (Z.to_nat (k - 1))) by lia.
      reflexivity.
Qed.

Lemma le_decode_nonneg (bs : list byte) : 0 <= le_decode bs.
Proof.
  induction bs as [|b t IH]; cbn [le_decode]; [lia|].
  pose proof (byte_val_range b). lia.
Qed.

Lemma le_decode_bound (bs : list byte) :
  le_decode bs < 2 ^ (8 * Z.of_nat (List.length bs)).
Proof.
  induction bs as [|b t IH]; [simpl; lia|].
  cbn [le_decode List.length]. pose proof (byte_val_range b).
  replace (8 * Z.of_nat (S (List.length t)))
    with (8 + 8 * Z.of_nat (List.length t)) by lia.
  rewrite Z.pow_add_r by lia. change (2 ^ 8) with 256. lia.
Qed.

Lemma mask_testbit (m j : Z) :
  0 <= m ->
  Z.testbit (Z.shiftl (Z.ones 8) m) j = (m <=? j) && (j <? m + 8).
Proof.
  intros Hm. destruct (Z.ltb_spec j 0).
  - rewrite Z.testbit_neg_r by lia.
    destruct (Z.leb_spec m j); [lia|reflexivity].
  - rewrite Z.shiftl_spec by lia.
    destruct (Z.leb_spec m j).
    + rewrite Z.testbit_ones_nonneg by lia.
      destruct (Z.ltb_spec (j - m) 8), (Z.ltb_spec j (m + 8)); try lia; reflexivity.
    + rewrite Z.testbit_neg_r by lia. reflexivity.
Qed.

Ltac mask_bits :=
  repeat first [ rewrite Z.lor_spec | rewrite Z.land_spec
               | rewrite mask_testbit by lia
               | rewrite Z.shiftr_spec by lia
               | rewrite Z.shiftl_spec by lia ];
  repeat match goal with
         | |- context [Z.leb ?a ?b] => destruct (Z.leb_spec a b); try lia
         | |- context [Z.ltb ?a ?b] => destruct (Z.ltb_spec a b); try lia
         end;
  cbn [andb orb];
  repeat rewrite andb_true_r; repeat rewrite andb_false_r;
  repeat rewrite orb_false_r; repeat rewrite orb_false_l;
  try reflexivity.

Lemma bswap_16_testbit (x k i : Z) :
  0 <= k < 2 -> 0 <= i < 8 ->
  Z.testbit (bswap_16 x) (8 * k + i) = Z.testbit x (8 * (1 - k) + i).
Proof.
  intros Hk Hi. unfold bswap_16.
  change 0xff with (Z.shiftl (Z.ones 8) 0).
  assert (k = 0 \/ k = 1) as [-> | ->] by lia; mask_bits.
  all: try (f_equal; lia).
Qed.

Lemma bswap_32_testbit (x k i : Z) :
  0 <= k < 4 -> 0 <= i < 8 ->
  Z.testbit (bswap_32 x) (8 * k + i) = Z.testbit x (8 * (3 - k) + i).
Proof.
  intros Hk Hi. unfold bswap_32.
  change 0xff000000 with (Z.shiftl (Z.ones 8) 24).
  change 0x00ff0000 with (Z.shiftl (Z.ones 8) 16).
  change 0x0000ff00 with (Z.shiftl (Z.ones 8) 8).
  change 0x000000ff with (Z.shiftl (Z.ones 8) 0).
  assert (k = 0 \/ k = 1 \/ k = 2 \/ k = 3) as [-> | [-> | [-> | ->]]] by lia;
    mask_bits.
  all: try (f_equal; lia).
Qed.

Lemma bswap_64_testbit (x k i : Z) :
  0 <= k < 8 -> 0 <= i < 8 ->
  Z.testbit (bswap_64 x) (8 * k + i) = Z.testbit x (8 * (7 - k) + i).
Proof.
  intros Hk Hi. unfold bswap_64.
  change 0xff00000000000000 with (Z.shiftl (Z.ones 8) 56).
  change 0x00ff000000000000 with (Z.shiftl (Z.ones 8) 48).
  change 0x0000ff0000000000 with (Z.shiftl (Z.ones 8) 40).
  change 0x000000ff00000000 with (Z.shiftl (Z.ones 8) 32).
  change 0x00000000ff000000 with (Z.shiftl (Z.ones 8) 24).
  change 0x0000000000ff0000 with (Z.shiftl (Z.ones 8) 16).
  change 0x000000000000ff00 with (Z.shiftl (Z.ones 8) 8).
  change 0x00000000000000ff with (Z.shiftl (Z.ones 8) 0).
  assert (k = 0 \/ k = 1 \/ k = 2 \/ k = 3 \/ k = 4 \/ k = 5 \/ k = 6 \/ k = 7)
    as [-> | [-> | [-> | [-> | [-> | [-> | [-> | ->]]]]]]] by lia;
    mask_bits.
  all: try (f_equal; lia).
Qed.

Lemma bswap_16_high (x n : Z) : 16 <= n -> Z.testbit (bswap_16 x) n = false.
Proof.
  intros Hn. unfold bswap_16.
  change 0xff with (Z.shiftl (Z.ones 8) 0). mask_bits.
Qed.

Lemma bswap_32_high (x n : Z) : 32 <= n -> Z.testbit (bswap_32 x) n = false.
Proof.
  intros Hn. unfold bswap_32.
  change 0xff000000 with (Z.shiftl (Z.ones 8) 24).
  change 0x00ff0000 with (Z.shiftl (Z.ones 8) 16).
  change 0x0000ff00 with (Z.shiftl (Z.ones 8) 8).
  change 0x000000ff with (Z.shiftl (Z.ones 8) 0). mask_bits.
Qed.

Lemma bswap_64_high (x n : Z) : 64 <= n -> Z.testbit (bswap_64 x) n = false.
Proof.
  intros Hn. unfold bswap_64.
  change 0xff00000000000000 with (Z.shiftl (Z.ones 8) 56).
  change 0x00ff000000000000 with (Z.shiftl (Z.ones 8) 48).
  change 0x0000ff0000000000 with (Z.shiftl (Z.ones 8) 40).
  change 0x000000ff00000000 with (Z.shiftl (Z.ones 8) 32).
  change 0x00000000ff000000 with (Z.shiftl (Z.ones 8) 24).
  change 0x0000000000ff0000 with (Z.shiftl (Z.ones 8) 16).
  change 0x000000000000ff00 with (Z.shiftl (Z.ones 8) 8).
  change 0x00000000000000ff with (Z.shiftl (Z.ones 8) 0). mask_bits.
Qed.

(** A swap of the value of [w] bytes is the value of the reversed bytes. *)
Section SwapDecode.
Variable w : Z.
Variable swap : Z -> Z.
Hypothesis w_pos : 0 < w.
Hypothesis swap_low : forall x k i, 0 <= k < w -> 0 <= i < 8 ->
  Z.testbit (swap x) (8 * k + i) = Z.testbit x (8 * (w - 1 - k) + i).
Hypothesis swap_high : forall x n, 8 * w <= n -> Z.testbit (swap x) n = false.

Lemma swap_le_decode (bs : list byte) :
  Z.of_nat (List.length bs) = w -> swap (le_decode bs) = le_decode (rev bs).
Proof.
  intros Hlen. apply Z.bits_inj'. intros n Hn.
  pose proof (Z.div_mod n 8 ltac:(lia)) as Hdm.
  pose proof (Z.mod_pos_bound n 8 ltac:(lia)) as Hm.
  assert (0 <= n / 8) as Hq by (apply Z.div_pos; lia).
  rewrite Hdm. set (k := n / 8) in *. set (i := n mod 8) in *.
  rewrite (le_decode_testbit (rev bs)) by lia.
  destruct (Z.ltb_spec k w) as [Hlt|Hge].
  - rewrite swap_low by lia. rewrite le_decode_testbit by lia.
    rewrite rev_nth by lia. do 3 f_equal. lia.
  - rewrite swap_high by lia.
    rewrite nth_overflow by (rewrite length_rev; lia).
    change (byte_val x00) with 0. rewrite Z.bits_0. reflexivity.
Qed.

Lemma swap_be_decode (bs : list byte) :
  Z.of_nat (List.length bs) = w -> swap (be_decode bs) = be_decode (rev bs).
Proof.
  intros Hlen. unfold be_decode.
  rewrite swap_le_decode by (rewrite length_rev; exact Hlen).
  reflexivity.
Qed.
End SwapDecode.

(** ** The run header: byte order *)

Lemma bswap_16_decode (o : byte_order) (bs : list byte) :
  List.length bs = 2%nat ->
  bswap_16 (decode_native o bs) = decode_native o (rev bs).
Proof.
  intros Hl. destruct o; cbn [decode_native].
  - apply (swap_le_decode 2 bswap_16); try lia.
    + intros; apply bswap_16_testbit; lia.
    + intros; apply bswap_16_high; lia.
  - apply (swap_be_decode 2 bswap_16); try lia.
    + intros; apply bswap_16_testbit; lia.
    + intros; apply bswap_16_high; lia.
Qed.

Lemma bswap_32_decode (o : byte_order) (bs : list byte) :
  List.length bs = 4%nat ->
  bswap_32 (decode_native o bs) = decode_native o (rev bs).
Proof.
  intros Hl. destruct o; cbn [decode_native].
  - apply (swap_le_decode 4 bswap_32); try lia.
    + intros; apply bswap_32_testbit; lia.
    + intros; apply bswap_32_high; lia.
  - apply (swap_be_decode 4 bswap_32); try lia.
    + intros; apply bswap_32_testbit; lia.
    + intros; apply bswap_32_high; lia.
Qed.

Lemma bswap_64_decode (o : byte_order) (bs : list byte) :
  List.length bs = 8%nat ->
  bswap_64 (decode_native o bs) = decode_native o (rev bs).
Proof.
  intros Hl. destruct o; cbn [decode_native].
  - apply (swap_le_decode 8 bswap_64); try lia.
    + intros; apply bswap_64_testbit; lia.
    + intros; apply bswap_64_high; lia.
  - apply (swap_be_decode 8 bswap_64); try lia.
    + intros; apply bswap_64_testbit; lia.
    + intros; apply bswap_64_high; lia.
Qed.

Lemma field_length (off w : nat) (raw : list byte) :
  (off + w <= List.length raw)%nat -> List.length (field off w raw) = w.
Proof.
  intros H. unfold field. rewrite length_firstn, length_skipn. lia.
Qed.

Section Header.
Context {abi : Abi}.

(** The header as [open_data_file] loads it: when the endianness tag
    of the header differs from that of the running machine, the byte-swap
    flag is set and the version, the feature mask, the info mask and the
    stack depth are the values of their bytes on disk taken in reverse
    order; when the tags agree the flag is clear and the header is as it
    was read. *)
Lemma load_header_byte_order (raw : list byte)
    (byte_swap bit_swap : bool) (h : uftrace_file_header) :
  hdr_layout_ok ->
  List.length raw = sizeof_hdr ->
  load_header raw = (byte_swap, bit_swap, h) ->
  (endian (hdr_of_raw raw) <> get_elf_endian ->
     byte_swap = true
     /\ version h
        = decode_native host_order (rev (field off_version 4 raw))
     /\ feat_mask h
        = decode_native host_order (rev (field off_feat_mask 8 raw))
     /\ info_mask h
        = decode_native host_order (rev (field off_info_mask 8 raw))
     /\ max_stack h
        = decode_native host_order (rev (field off_max_stack 2 raw)))
  /\ (endian (hdr_of_raw raw) = get_elf_endian ->
        byte_swap = false /\ h = hdr_of_raw raw).
Proof.
  intros (Hv & Hf & Hi & Hm) Hlen Hload.
  unfold load_header, check_data_order in Hload.
  split; intros Htag.
  - destruct (Z.eqb_spec get_elf_endian (endian (hdr_of_raw raw)))
      as [E|E]; [congruence|].
    cbn [negb] in Hload. injection Hload as <- _ <-.
    cbn [swap_header version feat_mask info_mask max_stack hdr_of_raw].
    rewrite bswap_32_decode by (apply field_length; lia).
    rewrite !bswap_64_decode by (apply field_length; lia).
    rewrite bswap_16_decode by (apply field_length; lia).
    repeat split; reflexivity.
  - destruct (Z.eqb_spec get_elf_endian (endian (hdr_of_raw raw)))
      as [E|E]; [|congruence].
    cbn [negb] in Hload. injection Hload as <- _ <-.
    split; reflexivity.
Qed.

End Header.


(** ** open_data_file: its path to a return *)

Section OpenPath.
Context {abi : Abi}.
Context {R P : Type} {reg : Registry R P}.
Context {X : Type} {col : Collaborators X}.

Variable fs : filesys.
Variable lv : txt_locals.
Variable o : opts.
Variable handle : ftrace_file_handle R X.

(** Once the header is opened, read and accepted, what is left of
    [open_data_file] is the reading of the task logs. *)
Lemma open_data_file_run (tr tr1 : list event) (fp raw rest : list byte)
    (again byte_swap bit_swap : bool) (h : uftrace_file_header)
    (inf : ftrace_info) :
  open_info fs o tr = (Ret (Some (fp, again)), tr1) ->
  fread1 sizeof_hdr fp = Some (raw, rest) ->
  magic_ok (hdr_of_raw raw) = true ->
  load_header raw = (byte_swap, bit_swap, h) ->
  version_ok h = true ->
  read_ftrace_info (info_mask h) rest = Some inf ->
  open_data_file fs lv o handle tr
  = bind (read_sessions fs lv (active_dir o again) h sessions_init)
      (fun sess =>
         ret (finish_open o handle (active_dir o again) byte_swap bit_swap
                h inf sess)) tr1.
Proof.
  intros Ho Hr Hm Hl Hv Hi.
  unfold open_data_file. unfold bind at 1. rewrite Ho, Hr, Hm.
  cbn [negb]. rewrite Hl, Hv. cbn [negb]. rewrite Hi. reflexivity.
Qed.

(** Conversely, a return of [open_data_file] is either the [goto out]
    of a header that is not found, or the end of that path. *)
Lemma open_data_file_ret (tr tr' : list event)
    (v : Z * opts * ftrace_file_handle R X) :
  open_data_file fs lv o handle tr = (Ret v, tr') ->
  (open_info fs o tr = (Ret None, tr') /\ v = (-1, o, handle))
  \/ exists fp again raw rest byte_swap bit_swap h inf tr1 sess,
       open_info fs o tr = (Ret (Some (fp, again)), tr1)
       /\ fread1 sizeof_hdr fp = Some (raw, rest)
       /\ magic_ok (hdr_of_raw raw) = true
       /\ load_header raw = (byte_swap, bit_swap, h)
       /\ version_ok h = true
       /\ read_ftrace_info (info_mask h) rest = Some inf
       /\ read_sessions fs lv (active_dir o again) h sessions_init tr1
          = (Ret sess, tr')
       /\ v = finish_open o handle (active_dir o again) byte_swap bit_swap
                h inf sess.
Proof.
  unfold open_data_file. unfold bind at 1.
  destruct (open_info fs o tr) as [[[[fp again]|]| | | |] tr1] eqn:Ho;
    try discriminate.
  - destruct (fread1 sizeof_hdr fp) as [[raw rest]|] eqn:Hr;
      [|discriminate].
    destruct (magic_ok (hdr_of_raw raw)) eqn:Hm; [|discriminate].
    cbn [negb].
    destruct (load_header raw) as [[byte_swap bit_swap] h] eqn:Hl.
    destruct (version_ok h) eqn:Hv; [|discriminate]. cbn [negb].
    destruct (read_ftrace_info (info_mask h) rest) as [inf|] eqn:Hi;
      [|discriminate].
    unfold bind.
    destruct (read_sessions fs lv _ h sessions_init tr1)
      as [[sess| | | |] tr2] eqn:Hs; try discriminate.
    unfold ret. intros E. injection E as <- <-.
    right. exists fp, again, raw, rest, byte_swap, bit_swap, h, inf, tr1, sess.
    repeat split; assumption.
  - unfold ret. intros E. injection E as <- <-. left. split; reflexivity.
Qed.

End OpenPath.

(** ** The results of the two readers *)

Lemma read_all_some (fd a b : list byte) (size : Z) :
  read_all fd size = Some (a, b) ->
  fd = a ++ b /\ Z.of_nat (List.length a) = wrap 64 size.
Proof.
  unfold read_all.
  destruct (Z.leb_spec (wrap 64 size) (Z.of_nat (List.length fd)));
    [|discriminate].
  intros E. injection E as <- <-. split.
  - symmetry. apply firstn_skipn.
  - assert (0 <= wrap 64 size) by (apply Z.mod_pos_bound; lia).
    rewrite length_firstn. lia.
Qed.

Lemma read_all_app (a b : list byte) (size : Z) :
  Z.of_nat (List.length a) = size -> size < 2 ^ 64 ->
  read_all (a ++ b) size = Some (a, b).
Proof.
  intros Hl Hs. unfold read_all, wrap.
  rewrite Z.mod_small by lia.
  destruct (Z.leb_spec size (Z.of_nat (List.length (a ++ b)))) as [_|H].
  - replace (Z.to_nat size) with (List.length a) by lia.
    rewrite firstn_app, Nat.sub_diag, firstn_all, firstn_O, app_nil_r.
    rewrite skipn_app, Nat.sub_diag, skipn_all, skipn_O. reflexivity.
  - rewrite length_app in H. lia.
Qed.

Lemma read_all_short (fd : list byte) (size : Z) :
  0 <= size < 2 ^ 64 -> Z.of_nat (List.length fd) < size ->
  read_all fd size = None.
Proof.
  intros Hs Hl. unfold read_all, wrap. rewrite Z.mod_small by lia.
  destruct (Z.leb_spec size (Z.of_nat (List.length fd))); [lia|reflexivity].
Qed.

Section ReaderResults.
Context {abi : Abi}.
Context {R P : Type} {reg : Registry R P}.

Ltac read_cases :=
  repeat match goal with
         | |- context [if ?c then _ else _] => destruct c
         | |- context [match read_all ?fd ?n with _ => _ end] =>
             let a := fresh "a" in
             let b := fresh "b" in
             let E := fresh "E" in
             destruct (read_all fd n) as [[a b]|] eqn:E;
             [apply read_all_some in E; destruct E as [E _];
              apply (f_equal (@List.length byte)) in E;
              rewrite length_app in E|]
         end.

(** A turn of the legacy loop returns, unless it overruns the name
    buffer; it leaves the trace alone but for the log of an unknown tag;
    it ends the loop with 0 or -1, or goes on with a rest shorter by an
    envelope at least. *)
Lemma read_task_msg_shape (dir : string) (ns sr : bool) (fd : list byte)
    (sess : R) (tr : list event) :
  msg_layout_ok ->
  exists r tr',
    read_task_msg dir ns sr fd sess tr = (r, tr')
    /\ (tr' = tr \/ tr' = tr ++ [ev_log invalid_contents])
    /\ (r = Undefined
        \/ exists v,
             r = Ret v
             /\ match v with
                | inl (rc, _) => rc = 0 \/ rc = -1
                | inr (fd', _) =>
                    (List.length fd' + sizeof_msg <= List.length fd)%nat
                end).
Proof.
  intros (Hpos & Hm & Hs & Ht). unfold read_task_msg.
  destruct (read_all fd (Z.of_nat sizeof_msg)) as [[m fd1]|] eqn:E.
  2:{ eexists _, _. split; [reflexivity|]. split; [auto|].
      right. eexists. split; [reflexivity|]. cbn. auto. }
  apply read_all_some in E. destruct E as [E Hlen].
  apply (f_equal (@List.length byte)) in E. rewrite length_app in E.
  unfold wrap in Hlen. rewrite Z.mod_small in Hlen by lia.
  read_cases;
    try (eexists _, _; split; [reflexivity|]; split; [auto|];
         first [left; reflexivity
               | right; eexists; split; [reflexivity|]; cbn; auto; lia]).
  all: eexists _, _; split;
    [unfold bind, pr_log, emit, ret; reflexivity|]; split; [auto|];
    right; eexists; split; [reflexivity|]; cbn; auto.
Qed.

(** The loop returns 0 or -1, or overruns the name buffer, once its
    bound exceeds the length of the file: it never runs out of it. *)
Lemma read_task_loop_returns (dir : string) (ns sr : bool) :
  msg_layout_ok ->
  forall (fuel : nat) (fd : list byte) (sess : R) (tr : list event),
    (List.length fd < fuel)%nat ->
    exists r tr',
      read_task_loop fuel dir ns sr fd sess tr = (r, tr')
      /\ (r = Undefined
          \/ exists rc sess', r = Ret (rc, sess') /\ (rc = 0 \/ rc = -1)).
Proof.
  intros Hok. induction fuel as [|fuel IH]; intros fd sess tr Hf; [lia|].
  cbn [read_task_loop]. unfold bind.
  destruct (read_task_msg_shape dir ns sr fd sess tr Hok)
    as (r & tr' & -> & _ & [-> | (v & -> & Hv)]).
  - eexists _, _. split; [reflexivity|]. left. reflexivity.
  - destruct v as [[rc s]|[fd' s]].
    + eexists _, _. split; [reflexivity|]. right. eauto.
    + destruct Hok as (Hpos & _). apply IH. lia.
Qed.

Lemma read_task_file_returns (fs : filesys) (sess : R) (dir : string)
    (ns sr : bool) (tr : list event) :
  msg_layout_ok ->
  exists r tr',
    read_task_file fs sess dir ns sr tr = (r, tr')
    /\ (r = Undefined
        \/ exists rc sess', r = Ret (rc, sess') /\ (rc = 0 \/ rc = -1)).
Proof.
  intros Hok. unfold read_task_file, bind, fopen.
  destruct (open_read fs (dir ++ "/task")) as [fd|e].
  - apply read_task_loop_returns; [assumption|lia].
  - eexists _, _. split; [reflexivity|]. right. eexists _, _.
    split; [reflexivity|]. auto.
Qed.

(** The only message the lines of the text log end the process with. *)
Lemma read_task_txt_line_fatal (dir : string) (ns sr : bool)
    (buf : list byte) (sess : R) (lv : txt_locals) (d : diag) :
  read_task_txt_line dir ns sr buf sess lv = Fatal d ->
  d = invalid_task_txt.
Proof.
  unfold read_task_txt_line.
  repeat match goal with
         | |- context [if ?c then _ else _] => destruct c
         | |- context [match strstr ?a ?b with _ => _ end] =>
             destruct (strstr a b)
         | |- context [match get_session_from_sid ?a ?b with _ => _ end] =>
             destruct (get_session_from_sid a b)
         end; try discriminate; congruence.
Qed.

Lemma read_task_txt_line_fuel (dir : string) (ns sr : bool)
    (buf : list byte) (sess : R) (lv : txt_locals) :
  read_task_txt_line dir ns sr buf sess lv <> OutOfFuel.
Proof.
  unfold read_task_txt_line.
  repeat match goal with
         | |- context [if ?c then _ else _] => destruct c
         | |- context [match strstr ?a ?b with _ => _ end] =>
             destruct (strstr a b)
         | |- context [match get_session_from_sid ?a ?b with _ => _ end] =>
             destruct (get_session_from_sid a b)
         end; discriminate.
Qed.

Lemma read_task_txt_line_defined (dir : string) (ns sr : bool)
    (buf : list byte) (sess : R) (lv : txt_locals) :
  read_task_txt_line dir ns sr buf sess lv <> Undefined.
Proof.
  unfold read_task_txt_line.
  repeat match goal with
         | |- context [if ?c then _ else _] => destruct c
         | |- context [match strstr ?a ?b with _ => _ end] =>
             destruct (strstr a b)
         | |- context [match get_session_from_sid ?a ?b with _ => _ end] =>
             destruct (get_session_from_sid a b)
         end; discriminate.
Qed.

Lemma read_task_txt_lines_result (dir : string) (ns sr : bool)
    (lines : list (list byte)) :
  forall (sess : R) (lv : txt_locals),
    (exists sess' lv',
       read_task_txt_lines dir ns sr lines sess lv = Ret (sess', lv'))
    \/ read_task_txt_lines dir ns sr lines sess lv = Fatal invalid_task_txt
    \/ read_task_txt_lines dir ns sr lines sess lv = Abort.
Proof.
  induction lines as [|l rest IH]; intros sess lv; cbn [read_task_txt_lines].
  - left. eauto.
  - destruct (read_task_txt_line dir ns sr l sess lv) as [[s lv']|d| | |]
      eqn:E.
    + apply IH.
    + apply read_task_txt_line_fatal in E. subst d. auto.
    + auto.
    + exfalso. exact (read_task_txt_line_fuel _ _ _ _ _ _ E).
    + exfalso. exact (read_task_txt_line_defined _ _ _ _ _ _ E).
Qed.

Lemma read_task_loop_no_exit (dir : string) (ns sr : bool) (fuel : nat) :
  forall (fd : list byte) (sess : R) (tr tr' : list event)
         (r : result (Z * R)),
    read_task_loop fuel dir ns sr fd sess tr = (r, tr') ->
    (exists v, r = Ret v) \/ r = OutOfFuel \/ r = Undefined.
Proof.
  induction fuel as [|fuel IH]; intros fd sess tr tr' r.
  - cbn. intros E. injection E as <- _. auto.
  - cbn [read_task_loop]. unfold bind.
    destruct (read_task_msg dir ns sr fd sess tr)
      as [[[v|[fd' s]]|d| | |] tr1] eqn:E.
    + unfold ret. intros E'. injection E' as <- _. eauto.
    + apply IH.
    + exfalso. revert E. unfold read_task_msg. read_cases;
        unfold bind, pr_log, emit, ret, lift; discriminate.
    + exfalso. revert E. unfold read_task_msg. read_cases;
        unfold bind, pr_log, emit, ret, lift; discriminate.
    + exfalso. revert E. unfold read_task_msg. read_cases;
        unfold bind, pr_log, emit, ret, lift; discriminate.
    + intros E'. injection E' as <- _. auto.
Qed.

Lemma read_task_file_no_exit (fs : filesys) (sess : R) (dir : string)
    (ns sr : bool) (tr tr' : list event) (r : result (Z * R)) :
  read_task_file fs sess dir ns sr tr = (r, tr') ->
  (exists v, r = Ret v) \/ r = OutOfFuel \/ r = Undefined.
Proof.
  unfold read_task_file, bind, fopen.
  destruct (open_read fs (dir ++ "/task")) as [fd|e].
  - apply read_task_loop_no_exit.
  - unfold ret. intros E. injection E as <- _. eauto.
Qed.

(** The text reader: a negative result when the log cannot be opened;
    once it is open, a result of 0, or the end of the process. *)
Lemma read_task_txt_file_result (fs : filesys) (lv : txt_locals)
    (sess : R) (dir : string) (ns sr : bool) (tr : list event) :
  let tr' := tr ++ [ev_open (dir ++ "/task.txt")] in
  match open_read fs (dir ++ "/task.txt") with
  | inr e =>
      read_task_txt_file fs lv sess dir ns sr tr
      = (Ret (- Z.pos e, sess), tr')
  | inl data =>
      (exists sess',
         read_task_txt_file fs lv sess dir ns sr tr = (Ret (0, sess'), tr'))
      \/ read_task_txt_file fs lv sess dir ns sr tr
         = (Fatal invalid_task_txt, tr')
      \/ read_task_txt_file fs lv sess dir ns sr tr = (Abort, tr')
  end.
Proof.
  intros tr'. unfold read_task_txt_file, bind, fopen.
  destruct (open_read fs (dir ++ "/task.txt")) as [data|e]; [|reflexivity].
  destruct (read_task_txt_lines_result dir ns sr (getlines data) sess lv)
    as [(s & lv' & ->)|[-> | ->]].
  - left. exists s. reflexivity.
  - right. left. reflexivity.
  - right. right. reflexivity.
Qed.

End ReaderResults.

(** ** open_data_file: bitfield order and version *)

Lemma record_magic_lsb (m : Z) :
  0 <= m < 8 -> record_magic_of LsbFirst (wrap 64 (Z.shiftl m 3)) = m.
Proof.
  intros H.
  assert (m = 0 \/ m = 1 \/ m = 2 \/ m = 3 \/ m = 4 \/ m = 5 \/ m = 6 \/ m = 7)
    as [-> | [-> | [-> | [-> | [-> | [-> | [-> | ->]]]]]]] by lia;
    reflexivity.
Qed.

Lemma record_magic_msb (m : Z) :
  0 <= m < 8 -> record_magic_of MsbFirst (wrap 64 (Z.shiftl m 3)) = 0.
Proof.
  intros H.
  assert (m = 0 \/ m = 1 \/ m = 2 \/ m = 3 \/ m = 4 \/ m = 5 \/ m = 6 \/ m = 7)
    as [-> | [-> | [-> | [-> | [-> | [-> | [-> | ->]]]]]]] by lia;
    reflexivity.
Qed.

Section OpenChecks.
Context {abi : Abi}.
Context {R P : Type} {reg : Registry R P}.
Context {X : Type} {col : Collaborators X}.

Lemma finish_open_fields (o : opts) (handle : ftrace_file_handle R X)
    (dir : string) (bs bits : bool) (h : uftrace_file_header)
    (inf : ftrace_info) (sess : R) (rc : Z) (o' : opts)
    (h' : ftrace_file_handle R X) :
  finish_open o handle dir bs bits h inf sess = (rc, o', h') ->
  rc = 0 /\ dirname o' = dir /\ h_dirname h' = dir
  /\ needs_byte_swap h' = bs /\ needs_bit_swap h' = bits
  /\ sessions h' = sess
  /\ version (hdr h') = version h
  /\ feat_mask (hdr h') = feat_mask h
  /\ info_mask (hdr h') = info_mask h
  /\ max_stack (hdr h')
     = if has_feat h MAX_STACK then max_stack h else MCOUNT_RSTACK_MAX.
Proof.
  unfold finish_open.
  destruct (has_feat h MAX_STACK); cbn [negb];
    match goal with
    | |- context [has_feat ?x KERNEL] => destruct (has_feat x KERNEL)
    end;
    try destruct (setup_kernel_data _) as [st k];
    intros E; injection E as <- <- <-; cbn; repeat split; reflexivity.
Qed.

Lemma load_header_bit_swap (raw : list byte) (bs bits : bool)
    (h : uftrace_file_header) :
  load_header raw = (bs, bits, h) ->
  bits = negb (record_magic_of host_bitfields
                 (wrap 64 (Z.shiftl RECORD_MAGIC 3)) =? RECORD_MAGIC).
Proof.
  intros E. apply (f_equal (fun x => snd (fst x))) in E.
  cbn [fst snd] in E. rewrite <- E. reflexivity.
Qed.

(** The handle an open returns holds the two flags and the header of
    [load_header], but for the default stack depth. *)
Lemma open_data_file_header (fs : filesys) (lv : txt_locals)
    (o o' : opts) (handle h' : ftrace_file_handle R X)
    (tr tr' : list event) :
  open_data_file fs lv o handle tr = (Ret (0, o', h'), tr') ->
  exists raw byte_swap bit_swap h,
    load_header raw = (byte_swap, bit_swap, h)
    /\ needs_byte_swap h' = byte_swap
    /\ needs_bit_swap h' = bit_swap
    /\ version (hdr h') = version h
    /\ feat_mask (hdr h') = feat_mask h
    /\ info_mask (hdr h') = info_mask h
    /\ max_stack (hdr h')
       = if has_feat h MAX_STACK then max_stack h else MCOUNT_RSTACK_MAX.
Proof.
  intros Hrun. apply open_data_file_ret in Hrun.
  destruct Hrun as [[_ E]|Hrun]; [discriminate|].
  destruct Hrun as (fp & again & raw & rest & bs & bits & h & inf & tr1
                    & sess & _ & _ & _ & Hl & _ & _ & _ & Hv).
  symmetry in Hv. apply finish_open_fields in Hv.
  destruct Hv as (_ & _ & _ & Hbs & Hbits & _ & H1 & H2 & H3 & H4).
  exists raw, bs, bits, h. repeat split; assumption.
Qed.

(** C2: the bit-swap flag of the handle is set exactly when the magic
    read back from the scratch words, written as the record magic
    shifted left by three bits, differs from the record magic.  With
    bitfields allocated from the least significant bit the flag is
    clear, with the other allocation it is set; the handle an open
    returns holds that one decision. *)
Theorem open_data_file_bit_order (fs : filesys) (lv : txt_locals)
    (o o' : opts) (handle h' : ftrace_file_handle R X)
    (tr tr' : list event) :
  open_data_file fs lv o handle tr = (Ret (0, o', h'), tr') ->
  0 < RECORD_MAGIC < 8 ->
  let decoded :=
    record_magic_of host_bitfields (wrap 64 (Z.shiftl RECORD_MAGIC 3)) in
  (needs_bit_swap h' = true <-> decoded <> RECORD_MAGIC)
  /\ (host_bitfields = LsbFirst -> needs_bit_swap h' = false)
  /\ (host_bitfields = MsbFirst -> needs_bit_swap h' = true).
Proof.
  intros Hrun Hm decoded.
  apply open_data_file_ret in Hrun.
  destruct Hrun as [[_ E]|Hrun]; [discriminate|].
  destruct Hrun as (fp & again & raw & rest & bs & bits & h & inf & tr1
                    & sess & _ & _ & _ & Hl & _ & _ & _ & Hv).
  symmetry in Hv. apply finish_open_fields in Hv.
  destruct Hv as (_ & _ & _ & _ & Hbits & _).
  apply load_header_bit_swap in Hl. rewrite Hbits, Hl. fold decoded.
  split; [|split].
  - destruct (Z.eqb_spec decoded RECORD_MAGIC) as [E|E]; cbn [negb].
    + split; [intros D; discriminate D|].
      intros N. exact (False_ind _ (N E)).
    + split; [intros _; exact E | reflexivity].
  - intros Ho. subst decoded. rewrite Ho, record_magic_lsb by lia.
    rewrite Z.eqb_refl. reflexivity.
  - intros Ho. subst decoded. rewrite Ho, record_magic_msb by lia.
    destruct (Z.eqb_spec 0 RECORD_MAGIC); [lia|reflexivity].
Qed.

End OpenChecks.

(** The value of a closed run, for the examples. *)
Ltac eval_run t E :=
  let v := eval vm_compute in t in
  assert (E : t = v) by (vm_compute; reflexivity).

Lemma open_data_file_bit_order_witness :
  exists o' h' tr',
    open_sample x86_64 fs_plain "uftrace.data" = (Ret (0, o', h'), tr')
    /\ 0 < @RECORD_MAGIC x86_64 < 8
    /\ needs_bit_swap h' = false.
Proof.
  eval_run (open_sample x86_64 fs_plain "uftrace.data") E.
  assert (M : 0 < @RECORD_MAGIC x86_64 < 8) by (cbn; lia).
  match type of E with
  | _ = (Ret (_, ?o, ?h), ?t) => exists o, h, t
  end.
  split; [exact E|]. split; [exact M|].
  exact (proj1 (proj2 (@open_data_file_bit_order x86_64 _ _ list_registry
                         unit no_collaborators _ _ _ _ _ _ _ _ E M))
               eq_refl).
Defined.

(** ** open_data_file: the version of the header *)

Section Version.
Context {abi : Abi}.
Context {R P : Type} {reg : Registry R P}.
Context {X : Type} {col : Collaborators X}.

(** The readers of the task logs end the process with one message
    only, that of a line of the text log without its name. *)
Lemma read_sessions_fatal (fs : filesys) (lv : txt_locals) (dir : string)
    (h : uftrace_file_header) (sess : R) (tr tr' : list event) (d : diag) :
  read_sessions fs lv dir h sess tr = (Fatal d, tr') ->
  d = invalid_task_txt.
Proof.
  unfold read_sessions.
  destruct (has_feat h TASK_SESSION); [|discriminate].
  unfold bind at 1.
  pose proof (read_task_txt_file_result fs lv sess dir true
                (has_feat h SYM_REL_ADDR) tr) as Ht.
  cbv zeta in Ht.
  destruct (open_read fs (dir ++ "/task.txt")) as [data|e].
  - destruct Ht as [(s & ->)|[-> | ->]]; cbn.
    + discriminate.
    + intros E. injection E as <- _. reflexivity.
    + discriminate.
  - rewrite Ht.
    destruct (Z.ltb_spec (- Z.pos e) 0) as [_|Hge]; [|lia].
    unfold bind.
    destruct (read_task_file fs sess dir true (has_feat h SYM_REL_ADDR) _)
      as [r tr2] eqn:E.
    apply read_task_file_no_exit in E.
    destruct E as [([rc s] & ->)|[-> | ->]].
    + destruct (rc <? 0); unfold pr_warn, emit, ret; discriminate.
    + discriminate.
    + discriminate.
Qed.

(** C3: a header whose version is below the minimum or above the
    current version ends the open with the message of an unsupported
    version; a version at the minimum or at the current version passes
    the check, and that message is not given. *)
Theorem open_data_file_version_range (fs : filesys) (lv : txt_locals)
    (o : opts) (handle : ftrace_file_handle R X) (tr tr1 : list event)
    (fp raw rest : list byte) (again bs bits : bool)
    (h : uftrace_file_header) :
  open_info fs o tr = (Ret (Some (fp, again)), tr1) ->
  fread1 sizeof_hdr fp = Some (raw, rest) ->
  magic_ok (hdr_of_raw raw) = true ->
  load_header raw = (bs, bits, h) ->
  UFTRACE_FILE_VERSION_MIN <= UFTRACE_FILE_VERSION ->
  (version h < UFTRACE_FILE_VERSION_MIN \/ UFTRACE_FILE_VERSION < version h ->
     open_data_file fs lv o handle tr
     = (Fatal (unsupported_version (version h)), tr1))
  /\ (version h = UFTRACE_FILE_VERSION_MIN
      \/ version h = UFTRACE_FILE_VERSION ->
        version_ok h = true
        /\ forall v tr2,
             open_data_file fs lv o handle tr
             <> (Fatal (unsupported_version v), tr2)).
Proof.
  intros Ho Hr Hm Hl Hle. split.
  - intros Hout. unfold open_data_file. unfold bind at 1.
    rewrite Ho, Hr, Hm. cbn [negb]. rewrite Hl.
    assert (Hv : version_ok h = false).
    { unfold version_ok.
      destruct (Z.ltb_spec (version h) UFTRACE_FILE_VERSION_MIN),
               (Z.ltb_spec UFTRACE_FILE_VERSION (version h));
        try reflexivity; lia. }
    rewrite Hv. reflexivity.
  - intros Hin.
    assert (Hv : version_ok h = true).
    { unfold version_ok.
      destruct (Z.ltb_spec (version h) UFTRACE_FILE_VERSION_MIN),
               (Z.ltb_spec UFTRACE_FILE_VERSION (version h));
        try reflexivity; lia. }
    split; [exact Hv|]. intros v tr2.
    unfold open_data_file. unfold bind at 1.
    rewrite Ho, Hr, Hm. cbn [negb]. rewrite Hl, Hv. cbn [negb].
    destruct (read_ftrace_info (info_mask h) rest) as [inf|];
      [|discriminate].
    unfold bind.
    destruct (read_sessions fs lv (active_dir o again) h sessions_init tr1)
      as [[s|d| | |] tr3] eqn:E; try discriminate.
    apply read_sessions_fatal in E. subst d. discriminate.
Qed.

End Version.

(** The header of version 4 of the sample passes, 4 being the current
    version of the instance. *)
Lemma open_data_file_version_range_witness :
  let raw := sample_header 4 1 0 0 0 in
  @open_info x86_64 fs_plain (opts0 "uftrace.data") []
  = (Ret (Some (raw, false)), [ev_open "uftrace.data/info"])
  /\ @UFTRACE_FILE_VERSION_MIN x86_64 <= @UFTRACE_FILE_VERSION x86_64
  /\ version (snd (@load_header x86_64 raw)) = @UFTRACE_FILE_VERSION x86_64
  /\ forall v tr2,
       open_sample x86_64 fs_plain "uftrace.data"
       <> (Fatal (unsupported_version v), tr2).
Proof.
  intros raw.
  assert (Ho : @open_info x86_64 fs_plain (opts0 "uftrace.data") []
               = (Ret (Some (raw, false)), [ev_open "uftrace.data/info"]))
    by reflexivity.
  assert (Hle : @UFTRACE_FILE_VERSION_MIN x86_64
                <= @UFTRACE_FILE_VERSION x86_64) by (cbn; lia).
  refine (conj Ho (conj Hle (conj eq_refl _))).
  exact (proj2 (proj2 (@open_data_file_version_range x86_64 _ _ list_registry
                         unit no_collaborators fs_plain locals0
                         (opts0 "uftrace.data") handle0 [] _ raw raw []
                         false false false (snd (@load_header x86_64 raw))
                         Ho eq_refl eq_refl eq_refl Hle)
                      (or_intror eq_refl))).
Defined.

(** ** open_data_file: the old default directory *)

Section Fallback.
Context {abi : Abi}.
Context {R P : Type} {reg : Registry R P}.
Context {X : Type} {col : Collaborators X}.

Variable fs : filesys.
Variable o : opts.

Let info_path : string := (dirname o ++ "/info")%string.
Let old_path : string := (UFTRACE_DIR_OLD_NAME ++ "/info")%string.

(** The header is there: one open. *)
Lemma open_info_found (tr : list event) (fp : list byte) :
  open_read fs info_path = inl fp ->
  open_info fs o tr = (Ret (Some (fp, false)), tr ++ [ev_open info_path]).
Proof.
  intros H. unfold open_info, try_open, bind, fopen.
  fold info_path. rewrite H. reflexivity.
Qed.

(** Another failure than ENOENT: one open, and the end. *)
Lemma open_info_error (tr : list event) (e : positive) :
  open_read fs info_path = inr e -> e <> ENOENT ->
  open_info fs o tr
  = (Fatal (cannot_open_file info_path), tr ++ [ev_open info_path]).
Proof.
  intros H Hne. unfold open_info, try_open, bind, fopen.
  fold info_path. rewrite H.
  destruct (Pos.eqb_spec e ENOENT); [contradiction|reflexivity].
Qed.

(** ENOENT in a directory of another name than the default: one open. *)
Lemma open_info_missing (tr : list event) :
  open_read fs info_path = inr ENOENT ->
  dirname o <> UFTRACE_DIR_NAME ->
  open_info fs o tr
  = (match exename o with
     | Some e => Fatal (record_msg e)
     | None => Ret None
     end,
     tr ++ [ev_open info_path] ++ [ev_log (cannot_find_file info_path)]).
Proof.
  intros H Hne. unfold open_info, try_open, bind, fopen.
  fold info_path. rewrite H, Pos.eqb_refl. cbn [negb andb].
  destruct (String.eqb_spec (dirname o) UFTRACE_DIR_NAME); [contradiction|].
  unfold pr_log, emit, pr_err, ret. rewrite <- app_assoc.
  destruct (exename o); reflexivity.
Qed.

(** ENOENT in the default directory: a second open, of the header in
    the old default directory, and no third one. *)
Lemma open_info_retry (tr : list event) :
  open_read fs info_path = inr ENOENT ->
  dirname o = UFTRACE_DIR_NAME ->
  open_info fs o tr
  = match open_read fs old_path with
    | inl fp =>
        (Ret (Some (fp, true)), tr ++ [ev_open info_path; ev_open old_path])
    | inr e =>
        if Pos.eqb e ENOENT then
          (match exename o with
           | Some e => Fatal (record_msg e)
           | None => Ret None
           end,
           tr ++ [ev_open info_path; ev_open old_path]
              ++ [ev_log (cannot_find_file info_path)])
        else
          (Fatal (cannot_open_file info_path),
           tr ++ [ev_open info_path; ev_open old_path])
    end.
Proof.
  intros H Hd. unfold open_info, try_open, bind, fopen.
  fold info_path old_path. rewrite H, Pos.eqb_refl. cbn [negb andb].
  destruct (String.eqb_spec (dirname o) UFTRACE_DIR_NAME); [|contradiction].
  rewrite <- app_assoc. cbn [app].
  destruct (open_read fs old_path) as [fp|e2]; [reflexivity|].
  cbn [negb andb].
  destruct (Pos.eqb e2 ENOENT); [|reflexivity].
  unfold pr_log, emit, pr_err, ret. rewrite <- app_assoc.
  destruct (exename o); reflexivity.
Qed.

(** C5: when the header is not found (ENOENT) and the directory is the
    default one, the header of the old default directory is opened, once;
    when that open succeeds, a return of [open_data_file] has the old
    name in the configuration and in the handle, and the task logs were
    read from there; another failure of the first open than ENOENT ends
    the process after that one open. *)
Theorem open_data_file_old_dir (lv : txt_locals)
    (handle : ftrace_file_handle R X) (tr : list event) :
  (open_read fs info_path = inr ENOENT ->
   dirname o = UFTRACE_DIR_NAME ->
   (exists r lg,
      open_info fs o tr = (r, tr ++ [ev_open info_path; ev_open old_path] ++ lg)
      /\ (lg = [] \/ lg = [ev_log (cannot_find_file info_path)]))
   /\ forall fp,
        open_read fs old_path = inl fp ->
        open_info fs o tr
        = (Ret (Some (fp, true)), tr ++ [ev_open info_path; ev_open old_path])
        /\ forall rc o' h' tr',
             open_data_file fs lv o handle tr = (Ret (rc, o', h'), tr') ->
             rc = 0
             /\ dirname o' = UFTRACE_DIR_OLD_NAME
             /\ h_dirname h' = UFTRACE_DIR_OLD_NAME
             /\ exists h,
                  read_sessions fs lv UFTRACE_DIR_OLD_NAME h sessions_init
                    (tr ++ [ev_open info_path; ev_open old_path])
                  = (Ret (sessions h'), tr'))
  /\ (forall e,
        open_read fs info_path = inr e -> e <> ENOENT ->
        open_data_file fs lv o handle tr
        = (Fatal (cannot_open_file info_path), tr ++ [ev_open info_path])).
Proof.
  split.
  - intros Hno Hd. pose proof (open_info_retry tr Hno Hd) as Hr. split.
    + destruct (open_read fs old_path) as [fp|e].
      * eexists _, []. rewrite app_nil_r. split; [exact Hr|]. auto.
      * destruct (Pos.eqb e ENOENT).
        -- eexists _, _. split; [exact Hr|]. auto.
        -- eexists _, []. rewrite app_nil_r. split; [exact Hr|]. auto.
    + intros fp Hold. rewrite Hold in Hr. split; [exact Hr|].
      intros rc o' h' tr' Hrun.
      apply open_data_file_ret in Hrun.
      destruct Hrun as [[Hnone _]|Hrun]; [congruence|].
      destruct Hrun as (fp' & again & raw & rest & bs & bits & h & inf & tr1
                        & sess & Ho & _ & _ & _ & _ & _ & Hs & Hv).
      rewrite Hr in Ho. injection Ho as <- <- <-.
      symmetry in Hv. apply finish_open_fields in Hv.
      destruct Hv as (-> & -> & -> & _ & _ & -> & _).
      cbn [active_dir] in *. repeat split; try reflexivity.
      exists h. exact Hs.
  - intros e He Hne. unfold open_data_file. unfold bind at 1.
    rewrite (open_info_error tr e He Hne). reflexivity.
Qed.

End Fallback.

(** The header and the text log of the sample are in the old default
    directory only. *)
Lemma open_data_file_old_dir_witness :
  exists o' h' tr',
    open_read fs_old_dir "uftrace.data/info" = inr ENOENT
    /\ open_sample x86_64 fs_old_dir "uftrace.data" = (Ret (0, o', h'), tr')
    /\ dirname o' = "ftrace.dir"%string
    /\ h_dirname h' = "ftrace.dir"%string.
Proof.
  eval_run (open_sample x86_64 fs_old_dir "uftrace.data") E.
  match type of E with
  | _ = (Ret (_, ?o, ?h), ?t) => exists o, h, t
  end.
  split; [reflexivity|]. split; [exact E|].
  destruct (@open_data_file_old_dir x86_64 _ _ list_registry unit
              no_collaborators fs_old_dir (opts0 "uftrace.data") locals0
              handle0 []) as [H _].
  destruct (H eq_refl eq_refl) as [_ H2].
  destruct (H2 (sample_header 4 1 2 0 0) eq_refl) as [_ H3].
  destruct (H3 _ _ _ _ E) as (_ & Hd & Hh & _).
  split; [exact Hd | exact Hh].
Defined.

(** ** read_task_file: the messages of the legacy log *)

Lemma session_padding_rem (n : Z) :
  0 <= n ->
  (Z.rem n 8 =? 0) = (n mod 8 =? 0)
  /\ (Z.rem n 8 <> 0 -> 8 - Z.rem n 8 = session_padding n).
Proof.
  intros Hn. rewrite Z.rem_mod_nonneg by lia. split; [reflexivity|].
  intros Hr. unfold session_padding.
  destruct (Z.eqb_spec (n mod 8) 0); [contradiction|reflexivity].
Qed.

Lemma session_padding_range (n : Z) : 0 <= session_padding n < 8.
Proof.
  unfold session_padding. pose proof (Z.mod_pos_bound n 8 ltac:(lia)).
  destruct (Z.eqb_spec (n mod 8) 0); lia.
Qed.

Lemma wrap_64_small (n : Z) : 0 <= n < 2 ^ 64 -> wrap 64 n = n.
Proof. intros H. unfold wrap. apply Z.mod_small. exact H. Qed.


Section Legacy.
Context {abi : Abi}.
Context {R P : Type} {reg : Registry R P}.

(** C6: a SESSION message whose name fits the buffer of 1024 bytes
    takes, after its payload, the [namelen] bytes of the name and then
    the padding: 8 - (namelen mod 8) bytes when [namelen] is not a
    multiple of 8, none when it is; the next envelope is read from what
    follows.  A name of 5 bytes has 3 bytes of padding, a name of 8
    bytes none.  A SESSION message with a longer name is read past the
    end of the buffer: the reader does not look at [namelen]. *)
Theorem read_task_msg_session (dir : string) (ns sr : bool)
    (env sm name pad rest : list byte) (sess : R) (tr : list event) :
  msg_layout_ok ->
  List.length env = sizeof_msg ->
  magic (decode_msg env) = FTRACE_MSG_MAGIC ->
  type (decode_msg env) = FTRACE_MSG_SESSION ->
  List.length sm = sizeof_smsg ->
  0 <= namelen (decode_smsg sm) ->
  Z.of_nat (List.length name) = namelen (decode_smsg sm) ->
  Z.of_nat (List.length pad) = session_padding (namelen (decode_smsg sm)) ->
  (namelen (decode_smsg sm) <= sizeof_buf ->
   read_task_msg dir ns sr (env ++ sm ++ name ++ pad ++ rest) sess tr
   = (Ret (inr (rest,
                if ns then create_session sess (decode_smsg sm) dir name sr
                else sess)), tr))
  /\ (sizeof_buf < namelen (decode_smsg sm) ->
      read_task_msg dir ns sr (env ++ sm ++ name ++ pad ++ rest) sess tr
      = (Undefined, tr))
  /\ session_padding 5 = 3
  /\ session_padding 8 = 0.
Proof.
  intros (Hpos & Hm & Hs & Ht & Hint) Henv Hmagic Htype Hsm Hn Hname Hpad.
  split; [|split; [|split; reflexivity]].
  - intros Hfit. unfold read_task_msg.
    rewrite (read_all_app env) by lia.
    rewrite Hmagic, Z.eqb_refl. cbn [negb]. rewrite Htype, Z.eqb_refl.
    rewrite (read_all_app sm) by lia.
    pose proof (Hint sm) as Hi.
    rewrite wrap_64_small by lia.
    destruct (Z.ltb_spec sizeof_buf (namelen (decode_smsg sm))); [lia|].
    cbn [andb].
    rewrite (read_all_app name) by lia.
    destruct (session_padding_rem _ Hn) as [Hz Hp].
    pose proof (session_padding_range (namelen (decode_smsg sm))) as Hr.
    destruct (Z.eqb_spec (Z.rem (namelen (decode_smsg sm)) 8) 0) as [E|E];
      cbn [negb].
    + assert (Hp0 : session_padding (namelen (decode_smsg sm)) = 0).
      { unfold session_padding. rewrite <- Hz. reflexivity. }
      rewrite Hp0 in Hpad. destruct pad; [|cbn in Hpad; lia].
      reflexivity.
    + rewrite (Hp E). rewrite (read_all_app pad) by lia. reflexivity.
  - intros Hbig. unfold read_task_msg.
    rewrite (read_all_app env) by lia.
    rewrite Hmagic, Z.eqb_refl. cbn [negb]. rewrite Htype, Z.eqb_refl.
    rewrite (read_all_app sm) by lia.
    pose proof (Hint sm) as Hi.
    rewrite wrap_64_small by lia.
    destruct (Z.ltb_spec sizeof_buf (namelen (decode_smsg sm))); [|lia].
    rewrite !length_app.
    destruct (Z.ltb_spec sizeof_buf
                (Z.of_nat (List.length name
                           + (List.length pad + List.length rest))));
      [reflexivity | lia].
Qed.

End Legacy.

Lemma to_signed_32_range (x : Z) : - 2 ^ 31 <= to_signed 32 x < 2 ^ 31.
Proof.
  unfold to_signed, wrap.
  pose proof (Z.mod_pos_bound x (2 ^ 32) ltac:(lia)) as H.
  change (2 ^ (32 - 1)) with (2 ^ 31).
  destruct (Z.ltb_spec (x mod 2 ^ 32) (2 ^ 31)); lia.
Qed.

Lemma x86_64_msg_layout_ok : @msg_layout_ok x86_64.
Proof.
  unfold msg_layout_ok. cbn.
  repeat split; try lia; apply to_signed_32_range.
Qed.

(** A name of five bytes and its three bytes of padding; and a name of
    1100 bytes, which the buffer does not hold. *)
Lemma read_task_msg_session_witness :
  let sm := sample_smsg 10000000000 5 "0123456789abcdef" 5 in
  let big := sample_smsg 10000000000 5 "0123456789abcdef" 1100 in
  namelen (@decode_smsg x86_64 sm) = 5
  /\ @read_task_msg x86_64 _ _ list_registry "d" true false
       (sample_envelope 6 ++ sm ++ bytes "hello" ++ [x00; x00; x00]
        ++ sample_tid_msg)
       sessions_init []
     = (Ret (inr (sample_tid_msg,
                  create_session sessions_init (@decode_smsg x86_64 sm) "d"
                    (bytes "hello") false)), [])
  /\ namelen (@decode_smsg x86_64 big) = 1100
  /\ @read_task_msg x86_64 _ _ list_registry "d" true false
       (sample_envelope 6 ++ big ++ repeat "a"%byte 1100
        ++ [x00; x00; x00; x00] ++ sample_tid_msg)
       sessions_init []
     = (Undefined, []).
Proof.
  intros sm big. split; [reflexivity|]. split; [|split; [reflexivity|]].
  - exact (proj1 (@read_task_msg_session x86_64 _ _ list_registry "d" true
                    false (sample_envelope 6) sm (bytes "hello")
                    [x00; x00; x00] sample_tid_msg sessions_init []
                    x86_64_msg_layout_ok eq_refl eq_refl eq_refl eq_refl
                    ltac:(vm_compute; discriminate) eq_refl eq_refl)
                 ltac:(vm_compute; discriminate)).
  - exact (proj1 (proj2 (@read_task_msg_session x86_64 _ _ list_registry
                           "d" true false (sample_envelope 6) big
                           (repeat "a"%byte 1100) [x00; x00; x00; x00]
                           sample_tid_msg sessions_init []
                           x86_64_msg_layout_ok eq_refl eq_refl eq_refl
                           eq_refl ltac:(vm_compute; discriminate)
                           ltac:(vm_compute; reflexivity)
                           ltac:(vm_compute; reflexivity)))
                 ltac:(vm_compute; reflexivity)).
Defined.

(** ** read_task_file: what it returns *)



Section LegacyStatus.
Context {abi : Abi}.
Context {R P : Type} {reg : Registry R P}.

Variable dir : string.
Variables ns sr : bool.



End LegacyStatus.

Section LegacyLoop.
Context {abi : Abi}.
Context {R P : Type} {reg : Registry R P}.

Variable dir : string.
Variables ns sr : bool.





End LegacyLoop.

Section LegacyFile.
Context {abi : Abi}.
Context {R P : Type} {reg : Registry R P}.


End LegacyFile.




(** ** Printing and scanning numbers *)

Lemma digit_val_char (d : Z) : 0 <= d < 10 -> digit_val (digit_char d) = Some d.
Proof.
  intros H.
  assert (d = 0 \/ d = 1 \/ d = 2 \/ d = 3 \/ d = 4 \/ d = 5 \/ d = 6
          \/ d = 7 \/ d = 8 \/ d = 9)
    as [-> | [-> | [-> | [-> | [-> | [-> | [-> | [-> | [-> | ->]]]]]]]]]
    by lia; reflexivity.
Qed.

Lemma is_digit_char (d : Z) : is_digit (digit_char d) = true.
Proof.
  destruct d as [|p|p]; try reflexivity.
  do 4 (destruct p as [p|p|]; try reflexivity).
Qed.

(** A digit is no NUL, no white space, no sign and no newline. *)
Lemma is_digit_plain (c : byte) :
  is_digit c = true ->
  Byte.eqb c NUL = false /\ is_space c = false
  /\ Byte.eqb c "-" = false /\ Byte.eqb c "+" = false
  /\ Byte.eqb c NL = false.
Proof.
  destruct c; cbv; intros H; try discriminate H; repeat split.
Qed.

Lemma dec_digits_digits (fuel : nat) :
  forall n acc,
    Forall (fun c => is_digit c = true) acc ->
    Forall (fun c => is_digit c = true) (dec_digits fuel n acc).
Proof.
  induction fuel as [|fuel IH]; intros n acc Hacc; cbn [dec_digits].
  - exact Hacc.
  - assert (H : Forall (fun c => is_digit c = true)
                  (digit_char (n mod 10) :: acc))
      by (constructor; [apply is_digit_char | exact Hacc]).
    destruct (n / 10 =? 0); [exact H | apply IH; exact H].
Qed.

Lemma dec_digits_nonempty (fuel : nat) :
  forall n acc, dec_digits (S fuel) n acc <> [].
Proof.
  induction fuel as [|fuel IH]; intros n acc.
  - cbn. destruct (n / 10 =? 0); discriminate.
  - cbn [dec_digits]. destruct (n / 10 =? 0); [discriminate|]. apply IH.
Qed.

Lemma dec_digits_length (fuel : nat) :
  forall n acc,
    (List.length (dec_digits fuel n acc) <= fuel + List.length acc)%nat.
Proof.
  induction fuel as [|fuel IH]; intros n acc; cbn [dec_digits].
  - lia.
  - destruct (n / 10 =? 0).
    + cbn [List.length]. lia.
    + specialize (IH (n / 10) (digit_char (n mod 10) :: acc)).
      cbn [List.length] in IH. lia.
Qed.

(** Scanning the digits printed for [n] gives [n]. *)
Lemma scan_dec_digits (fuel : nat) :
  forall n acc rest,
    0 <= n < 10 ^ Z.of_nat fuel ->
    scan_digits digit_val 10 0 (dec_digits fuel n acc ++ rest)
    = scan_digits digit_val 10 n (acc ++ rest).
Proof.
  induction fuel as [|fuel IH]; intros n acc rest Hn.
  - cbn [dec_digits]. change (10 ^ Z.of_nat 0) with 1 in Hn.
    replace n with 0 by lia. reflexivity.
  - cbn [dec_digits].
    assert (Hpow : 10 ^ Z.of_nat (S fuel) = 10 * 10 ^ Z.of_nat fuel).
    { rewrite Nat2Z.inj_succ, Z.pow_succ_r by lia. reflexivity. }
    pose proof (Z.div_mod n 10 ltac:(lia)) as Hdm.
    pose proof (Z.mod_pos_bound n 10 ltac:(lia)) as Hmod.
    destruct (Z.eqb_spec (n / 10) 0) as [E|E].
    + cbn [app scan_digits]. rewrite digit_val_char by lia.
      f_equal. lia.
    + rewrite IH.
      * cbn [app scan_digits]. rewrite digit_val_char by lia.
        f_equal. lia.
      * assert (0 <= n / 10) by (apply Z.div_pos; lia).
        split; [assumption|].
        apply Z.div_lt_upper_bound; lia.
Qed.

Lemma scan_digits_stop (n : Z) (rest : list byte) :
  no_digit_head rest -> scan_digits digit_val 10 n rest = (n, rest).
Proof.
  destruct rest as [|c t]; [reflexivity|].
  cbn [no_digit_head scan_digits]. unfold is_digit.
  destruct (digit_val c); [discriminate|reflexivity].
Qed.

Lemma scan_digits_zeros (k : nat) (s : list byte) :
  scan_digits digit_val 10 0 (repeat "0"%byte k ++ s)
  = scan_digits digit_val 10 0 s.
Proof.
  induction k as [|k IH]; [reflexivity|].
  cbn [repeat app scan_digits]. exact IH.
Qed.

Lemma print_lu_scan (n : Z) (rest : list byte) :
  0 <= n < 2 ^ 64 -> no_digit_head rest ->
  scan_digits digit_val 10 0 (print_lu n ++ rest) = (n, rest).
Proof.
  intros Hn Hr. unfold print_lu.
  rewrite scan_dec_digits by (change (10 ^ Z.of_nat 20) with (10 ^ 20); lia).
  apply scan_digits_stop. exact Hr.
Qed.

Lemma print_lu_head (n : Z) :
  exists c t, print_lu n = c :: t /\ is_digit c = true
              /\ Forall (fun c => is_digit c = true) t.
Proof.
  unfold print_lu.
  pose proof (dec_digits_digits 20 n [] (Forall_nil _)) as H.
  pose proof (dec_digits_nonempty 19 n []) as Hne.
  destruct (dec_digits 20 n []) as [|c t]; [contradiction|].
  inversion H; subst. eauto.
Qed.

(** A decimal item: digits, one at least, that scan to [n]. *)
Lemma scan_int_digits (ds rest : list byte) (n : Z) :
  ds <> [] -> Forall (fun c => is_digit c = true) ds ->
  scan_digits digit_val 10 0 (ds ++ rest) = (n, rest) ->
  scan_int digit_val 10 (skip_space (ds ++ rest)) = Some (false, n, rest).
Proof.
  intros Hne Hds Hscan. destruct ds as [|c t]; [contradiction|].
  inversion Hds as [|? ? Hc Ht]; subst.
  destruct (is_digit_plain c Hc) as (_ & Hsp & Hm & Hp & _).
  cbn [app skip_space] in *. rewrite Hsp.
  unfold scan_int, scan_sign. rewrite Hm, Hp.
  unfold is_digit in Hc. destruct (digit_val c) eqn:E; [|discriminate].
  rewrite Hscan. reflexivity.
Qed.

Lemma sscanf_lu_digits (ds rest : list byte) (n : Z) (fmt : list directive) :
  ds <> [] -> Forall (fun c => is_digit c = true) ds ->
  scan_digits digit_val 10 0 (ds ++ rest) = (n, rest) ->
  0 <= n < 2 ^ 64 ->
  sscanf (ds ++ rest) (d_conv cv_lu :: fmt) = v_num n :: sscanf rest fmt.
Proof.
  intros Hne Hds Hscan Hn. cbn [sscanf].
  rewrite (scan_int_digits ds rest n Hne Hds Hscan).
  unfold strtoul_val, ULONG_MAX.
  destruct (Z.ltb_spec (2 ^ 64 - 1) n); [lia|reflexivity].
Qed.

Lemma print_lu_item (n : Z) :
  print_lu n <> [] /\ Forall (fun c => is_digit c = true) (print_lu n).
Proof.
  destruct (print_lu_head n) as (c & t & E & Hc & Ht). rewrite E.
  split; [discriminate|]. constructor; assumption.
Qed.

Lemma print_09lu_item (n : Z) :
  print_09lu n <> [] /\ Forall (fun c => is_digit c = true) (print_09lu n).
Proof.
  unfold print_09lu. destruct (print_lu_item n) as [Hne Hd]. split.
  - intros E. apply app_eq_nil in E. destruct E as [_ E]. contradiction.
  - apply Forall_app. split; [|exact Hd].
    apply Forall_forall. intros c Hc. apply repeat_spec in Hc. subst c.
    reflexivity.
Qed.

Lemma print_09lu_scan (n : Z) (rest : list byte) :
  0 <= n < 2 ^ 64 -> no_digit_head rest ->
  scan_digits digit_val 10 0 (print_09lu n ++ rest) = (n, rest).
Proof.
  intros Hn Hr. unfold print_09lu.
  rewrite <- app_assoc, scan_digits_zeros. apply print_lu_scan; assumption.
Qed.

(** [%d] reads back what [%d] printed. *)
Lemma sscanf_d_print (v : Z) (rest : list byte) (fmt : list directive) :
  - 2 ^ 31 <= v < 2 ^ 31 -> no_digit_head rest ->
  sscanf (print_d v ++ rest) (d_conv cv_d :: fmt)
  = v_num v :: sscanf rest fmt.
Proof.
  intros Hv Hr. cbn [sscanf]. unfold print_d.
  destruct (Z.ltb_spec v 0) as [Hneg|Hpos].
  - (* a minus sign, then the digits of -v *)
    cbn [app skip_space].
    change (is_space "-") with false. cbv iota.
    unfold scan_int. cbn [scan_sign].
    change (Byte.eqb "-" "-") with true. cbv iota.
    destruct (print_lu_head (- v)) as (c & t & E & Hc & Ht).
    rewrite E. cbn [app]. unfold is_digit in Hc.
    destruct (digit_val c) eqn:Ec; [|discriminate].
    change (c :: t ++ rest) with ((c :: t) ++ rest). rewrite <- E.
    rewrite print_lu_scan by (try assumption; lia).
    f_equal. f_equal. unfold strtol_val, LONG_MAX, LONG_MIN, store_int.
    rewrite Z.opp_involutive.
    destruct (Z.ltb_spec (2 ^ 63 - 1) v); [lia|].
    destruct (Z.ltb_spec v (- 2 ^ 63)); [lia|].
    unfold to_signed, wrap. change (2 ^ (32 - 1)) with (2 ^ 31).
    replace (v mod 2 ^ 32) with (v + 2 ^ 32)
      by (apply Z.mod_unique with (q := -1); lia).
    destruct (Z.ltb_spec (v + 2 ^ 32) (2 ^ 31)); lia.
  - destruct (print_lu_item v) as [Hne Hd].
    rewrite (scan_int_digits (print_lu v) rest v Hne Hd)
      by (apply print_lu_scan; [lia|assumption]).
    f_equal. f_equal. unfold strtol_val, LONG_MAX, LONG_MIN, store_int.
    destruct (Z.ltb_spec (2 ^ 63 - 1) v); [lia|].
    destruct (Z.ltb_spec v (- 2 ^ 63)); [lia|].
    unfold to_signed, wrap. change (2 ^ (32 - 1)) with (2 ^ 31).
    rewrite Z.mod_small by lia.
    destruct (Z.ltb_spec v (2 ^ 31)); lia.
Qed.

(** The literal bytes of a format match themselves. *)
Lemma sscanf_lits (lit s : list byte) (fmt : list directive) :
  sscanf (lit ++ s) (map d_lit lit ++ fmt) = sscanf s fmt.
Proof.
  induction lit as [|c t IH]; [reflexivity|].
  cbn [app map sscanf]. rewrite (Byte.byte_dec_lb eq_refl). exact IH.
Qed.

(** ** A task line written and read back *)

Lemma snprint_timestamp_full (t : Z) :
  snprint_timestamp 128 t
  = print_lu (t / NSEC_PER_SEC) ++ bytes "." ++ print_09lu (t mod NSEC_PER_SEC).
Proof.
  unfold snprint_timestamp, snprintf. apply firstn_all2.
  rewrite !length_app. unfold print_09lu. rewrite length_app, repeat_length.
  pose proof (dec_digits_length 20 (t / NSEC_PER_SEC) []) as H1.
  pose proof (dec_digits_length 20 (t mod NSEC_PER_SEC) []) as H2.
  unfold print_lu. cbn [List.length bytes list_byte_of_string] in *.
  change (List.length (bytes ".")) with 1%nat. lia.
Qed.

Lemma compose_time_div_mod (t : Z) :
  0 <= t < 2 ^ 64 ->
  compose_time (t / NSEC_PER_SEC) (t mod NSEC_PER_SEC) = t.
Proof.
  intros H. unfold compose_time, wrap.
  pose proof (Z.div_mod t NSEC_PER_SEC ltac:(unfold NSEC_PER_SEC; lia)) as E.
  rewrite Z.mul_comm, <- E. apply Z.mod_small. exact H.
Qed.

Lemma sscanf_lit (c : byte) (s : list byte) (fmt : list directive) :
  sscanf (c :: s) (d_lit c :: fmt) = sscanf s fmt.
Proof. cbn [sscanf]. rewrite (Byte.byte_dec_lb eq_refl). reflexivity. Qed.

Lemma sscanf_space (s : list byte) (fmt : list directive) :
  sscanf s (d_space :: fmt) = sscanf (skip_space s) fmt.
Proof. reflexivity. Qed.

(** The four conversions of the scan of a TASK line. *)
Lemma sscanf_task_line (m : ftrace_msg_task) :
  0 <= time m < 2 ^ 64 ->
  - 2 ^ 31 <= tid m < 2 ^ 31 ->
  - 2 ^ 31 <= pid m < 2 ^ 31 ->
  sscanf (skipn 5 (task_line m)) fmt_task
  = [v_num (time m / NSEC_PER_SEC); v_num (time m mod NSEC_PER_SEC);
     v_num (tid m); v_num (pid m)].
Proof.
  intros Ht Hi Hp. unfold task_line. rewrite snprint_timestamp_full.
  set (s := time m / NSEC_PER_SEC). set (ns := time m mod NSEC_PER_SEC).
  assert (Hs : 0 <= s < 2 ^ 64).
  { subst s. unfold NSEC_PER_SEC. split.
    - apply Z.div_pos; lia.
    - apply Z.div_lt_upper_bound; lia. }
  assert (Hns : 0 <= ns < 2 ^ 64).
  { subst ns. pose proof (Z.mod_pos_bound (time m) NSEC_PER_SEC
                            ltac:(unfold NSEC_PER_SEC; lia)).
    unfold NSEC_PER_SEC in *. lia. }
  change (skipn 5 (bytes "TASK timestamp=" ++ ?x))
    with (bytes "timestamp=" ++ x).
  change fmt_task
    with (map d_lit (bytes "timestamp=")
          ++ d_conv cv_lu :: d_lit "." :: d_conv cv_lu :: d_space
             :: map d_lit (bytes "tid=")
          ++ d_conv cv_d :: d_space :: map d_lit (bytes "pid=")
          ++ [d_conv cv_d]).
  rewrite sscanf_lits.
  rewrite <- !app_assoc.
  destruct (print_lu_item s) as [Hne Hd].
  rewrite (sscanf_lu_digits (print_lu s) _ s)
    by first [assumption | apply print_lu_scan; [assumption|reflexivity]].
  f_equal.
  change (bytes "." ++ ?x) with ("."%byte :: x).
  rewrite sscanf_lit.
  destruct (print_09lu_item ns) as [Hne' Hd'].
  rewrite (sscanf_lu_digits (print_09lu ns) _ ns)
    by first [assumption | apply print_09lu_scan; [assumption|reflexivity]].
  f_equal.
  rewrite sscanf_space.
  change (skip_space (bytes " tid=" ++ ?x)) with (bytes "tid=" ++ x).
  rewrite sscanf_lits.
  rewrite sscanf_d_print by first [assumption | reflexivity].
  f_equal.
  rewrite sscanf_space.
  change (skip_space (bytes " pid=" ++ ?x)) with (bytes "pid=" ++ x).
  rewrite sscanf_lits.
  rewrite sscanf_d_print by first [assumption | reflexivity].
  reflexivity.
Qed.

Lemma cstr_body (a b : list byte) :
  line_body a -> cstr (a ++ b) = a ++ cstr b.
Proof.
  induction 1 as [|c t [Hc _] _ IH]; [reflexivity|].
  cbn [app cstr]. rewrite Hc, IH. reflexivity.
Qed.

Lemma getlines_nonempty (s : list byte) : s <> [] -> getlines s <> [].
Proof.
  destruct s as [|c t]; [contradiction|]. intros _. cbn [getlines].
  destruct (Byte.eqb c NL); [discriminate|].
  destruct (getlines t); discriminate.
Qed.

Lemma getlines_body (a : list byte) :
  line_body a -> getlines (a ++ [NL]) = [a ++ [NL]].
Proof.
  induction 1 as [|c t [_ Hc] _ IH]; [reflexivity|].
  cbn [app getlines]. rewrite Hc, IH. reflexivity.
Qed.

Lemma getlines_app (a b : list byte) :
  getlines ((a ++ [NL]) ++ b) = getlines (a ++ [NL]) ++ getlines b.
Proof.
  induction a as [|c t IH]; [reflexivity|].
  cbn [app getlines]. destruct (Byte.eqb c NL).
  - rewrite IH. reflexivity.
  - rewrite IH.
    pose proof (getlines_nonempty (t ++ [NL])) as Hne.
    destruct (getlines (t ++ [NL])) as [|l ls].
    + exfalso. apply Hne; [|reflexivity]. destruct t; discriminate.
    + reflexivity.
Qed.

Lemma digits_body (ds : list byte) :
  Forall (fun c => is_digit c = true) ds -> line_body ds.
Proof.
  intros H. eapply Forall_impl; [|exact H].
  intros c Hc. destruct (is_digit_plain c Hc) as (H1 & _ & _ & _ & H2).
  split; assumption.
Qed.

Lemma print_d_body (v : Z) : line_body (print_d v).
Proof.
  unfold print_d. destruct (v <? 0).
  - constructor; [split; reflexivity|].
    apply digits_body. apply print_lu_item.
  - apply digits_body. apply print_lu_item.
Qed.

Lemma bytes_body (s : string) :
  forallb (fun c => negb (Byte.eqb c NUL) && negb (Byte.eqb c NL)) (bytes s)
  = true ->
  line_body (bytes s).
Proof.
  intros H. apply Forall_forall. intros c Hc.
  rewrite forallb_forall in H. specialize (H c Hc).
  destruct (Byte.eqb c NUL), (Byte.eqb c NL); try discriminate H.
  split; reflexivity.
Qed.

(** The line of a task is a body and its newline. *)
Lemma task_line_body (m : ftrace_msg_task) :
  exists body, task_line m = body ++ [NL] /\ line_body body.
Proof.
  exists (bytes "TASK timestamp=" ++ snprint_timestamp 128 (time m)
          ++ bytes " tid=" ++ print_d (tid m) ++ bytes " pid="
          ++ print_d (pid m)).
  split.
  - unfold task_line. rewrite <- !app_assoc. reflexivity.
  - rewrite snprint_timestamp_full.
    apply Forall_app; split; [apply bytes_body; reflexivity|].
    apply Forall_app; split.
    { apply Forall_app; split; [apply digits_body, print_lu_item|].
      apply Forall_app; split; [apply bytes_body; reflexivity|].
      apply digits_body, print_09lu_item. }
    apply Forall_app; split; [apply bytes_body; reflexivity|].
    apply Forall_app; split; [apply print_d_body|].
    apply Forall_app; split; [apply bytes_body; reflexivity|].
    apply print_d_body.
Qed.

Section WriteRead.
Context {R P : Type} {reg : Registry R P}.

Variable dir : string.
Variables ns sr : bool.

(** The turn of the loop on the line of a task: the task is created
    with what was written. *)
Lemma read_task_txt_line_task (m : ftrace_msg_task) (sess : R)
    (lv : txt_locals) :
  0 <= time m < 2 ^ 64 ->
  - 2 ^ 31 <= tid m < 2 ^ 31 ->
  - 2 ^ 31 <= pid m < 2 ^ 31 ->
  exists lv',
    read_task_txt_line dir ns sr (task_line m) sess lv
    = Ret (create_task sess m false ns, lv').
Proof.
  intros Ht Hi Hp. unfold read_task_txt_line.
  assert (Hc : cstr (task_line m) = task_line m).
  { destruct (task_line_body m) as (body & -> & Hb).
    rewrite cstr_body by exact Hb. reflexivity. }
  rewrite Hc.
  assert (Hk : strncmp_eq (task_line m) (bytes "TASK") 4 = true)
    by reflexivity.
  rewrite Hk. unfold scan_task.
  rewrite (sscanf_task_line m Ht Hi Hp).
  cbn [stored_num nth_error tmsg].
  rewrite compose_time_div_mod by exact Ht.
  destruct m as [t p i]. cbn [time pid tid]. eexists. reflexivity.
Qed.

Lemma read_task_txt_lines_app (l1 l2 : list (list byte)) :
  forall (sess : R) (lv : txt_locals),
    read_task_txt_lines dir ns sr (l1 ++ l2) sess lv
    = match read_task_txt_lines dir ns sr l1 sess lv with
      | Ret (sess', lv') => read_task_txt_lines dir ns sr l2 sess' lv'
      | r => r
      end.
Proof.
  induction l1 as [|l rest IH]; intros sess lv; [reflexivity|].
  cbn [app read_task_txt_lines].
  destruct (read_task_txt_line dir ns sr l sess lv) as [[s lv']| | | |];
    [apply IH | reflexivity..].
Qed.

(** C7: a task written with [write_task_info], whose time is a 64-bit
    value and whose tid and pid are [int]s, is read back by
    [read_task_txt_file] as a task with the same tid, pid and time: after
    the lines the log held, the reader creates that very task. *)
Theorem write_read_task_info (fs : filesys) (m : ftrace_msg_task)
    (old : list byte) (lv lv1 : txt_locals) (sess sess1 : R)
    (tr : list event) :
  0 <= time m < 2 ^ 64 ->
  - 2 ^ 31 <= tid m < 2 ^ 31 ->
  - 2 ^ 31 <= pid m < 2 ^ 31 ->
  open_append fs (dir ++ "/task.txt") = inl old ->
  (old = [] \/ exists o, old = o ++ [NL]) ->
  read_task_txt_lines dir ns sr (getlines old) sess lv = Ret (sess1, lv1) ->
  exists fs',
    write_task_info fs dir m = Ret fs'
    /\ read_task_txt_file fs' lv sess dir ns sr tr
       = (Ret (0, create_task sess1 m false ns),
          tr ++ [ev_open (dir ++ "/task.txt")]).
Proof.
  intros Ht Hi Hp Hopen Hold Hread.
  unfold write_task_info, append_line. rewrite Hopen.
  eexists. split; [reflexivity|].
  unfold read_task_txt_file, bind, fopen, open_read, fs_store.
  rewrite String.eqb_refl.
  assert (Hl : getlines (old ++ task_line m)
               = getlines old ++ [task_line m]).
  { destruct (task_line_body m) as (body & Hb & Hbody).
    destruct Hold as [-> | (o & ->)].
    - cbn [app getlines]. rewrite Hb. apply getlines_body. exact Hbody.
    - rewrite getlines_app. f_equal. rewrite Hb.
      apply getlines_body. exact Hbody. }
  rewrite Hl, read_task_txt_lines_app, Hread.
  cbn [read_task_txt_lines].
  destruct (read_task_txt_line_task m sess1 lv1 Ht Hi Hp) as (lv' & ->).
  reflexivity.
Qed.

End WriteRead.

(** A task appended to the log of the sample and read back. *)
Lemma write_read_task_info_witness :
  let m := {| time := 5000000042; pid := 7; tid := 8 |} in
  let fs := files [("d/task.txt"%string, sample_txt)] in
  exists fs' sess',
    write_task_info fs "d" m = Ret fs'
    /\ read_task_txt_file fs' locals0 sessions_init "d" true false []
       = (Ret (0, sess'), [ev_open "d/task.txt"])
    /\ tasks sess'
       = [{| ut_tid := 5; ut_pid := 5; ut_time := 10000000001;
             ut_fork := false |};
          {| ut_tid := 8; ut_pid := 7; ut_time := 5000000042;
             ut_fork := false |}].
Proof.
  intros m fs.
  eval_run (@read_task_txt_lines _ _ list_registry "d" true false
              (getlines sample_txt) sessions_init locals0) E.
  match type of E with
  | _ = Ret (?s1, ?l1) =>
      destruct (@write_read_task_info _ _ list_registry "d" true false fs m
                  sample_txt locals0 l1 sessions_init s1 []
                  ltac:(cbn; lia) ltac:(cbn; lia) ltac:(cbn; lia) eq_refl
                  (or_intror (ex_intro _ (removelast sample_txt) eq_refl)) E)
        as (fs' & Hw & Hr)
  end.
  eexists fs', _. split; [exact Hw|]. split; [exact Hr|]. reflexivity.
Defined.

(** ** The text log: sessions and DLOP lines *)

Lemma strncmp_eq_firstn (n : nat) :
  forall s t, strncmp_eq s t n = true -> firstn n s = firstn n t.
Proof.
  induction n as [|n IH]; intros s t H; [reflexivity|].
  destruct s as [|a s], t as [|b t]; cbn in H; try discriminate H;
    [reflexivity|].
  apply andb_prop in H. destruct H as [Hab H].
  apply Byte.byte_dec_bl in Hab. subst b. cbn [firstn].
  f_equal. apply IH. exact H.
Qed.

Lemma Ret_pair_inj {A B : Type} (a a' : A) (b b' : B) :
  Ret (a, b) = Ret (a', b') -> a = a' /\ b = b'.
Proof. intros E. inversion E. split; reflexivity. Qed.

(** A line has one tag. *)
Lemma line_tag_one (buf : list byte) (a b : string) :
  line_tag buf a = true -> line_tag buf b = true ->
  firstn 4 (bytes a) = firstn 4 (bytes b).
Proof.
  unfold line_tag. intros Ha Hb.
  apply strncmp_eq_firstn in Ha. apply strncmp_eq_firstn in Hb. congruence.
Qed.

Section Sessions.
Context {abi : Abi}.
Context {R P : Type} {reg : Registry R P} {laws : RegistryLaws R P}.

Variable dir : string.
Variable sr : bool.

Local Abbreviation found r x := (get_session_from_sid r x <> None).

(** A turn of the loop adds the session of a SESS line, and no other. *)
Lemma read_task_txt_line_found (buf : list byte) (sess sess' : R)
    (lv lv' : txt_locals) (x : list byte) :
  read_task_txt_line dir true sr buf sess lv = Ret (sess', lv') ->
  (found sess' x
   <-> found sess x
       \/ (line_tag buf "SESS" = true /\ sess_line_sid buf lv = Some x)).
Proof.
  unfold read_task_txt_line. fold (line_tag buf "TASK").
  fold (line_tag buf "FORK"). fold (line_tag buf "SESS").
  fold (line_tag buf "DLOP"). unfold sess_line_sid.
  destruct (line_tag buf "TASK") eqn:Et.
  { intros E. apply Ret_pair_inj in E. destruct E as [<- <-].
    rewrite find_create_task.
    split; [auto|]. intros [H|[H _]]; [exact H|].
    pose proof (line_tag_one buf "TASK" "SESS" Et H). discriminate. }
  destruct (line_tag buf "FORK") eqn:Ef.
  { intros E. apply Ret_pair_inj in E. destruct E as [<- <-].
    rewrite find_create_task.
    split; [auto|]. intros [H|[H _]]; [exact H|].
    pose proof (line_tag_one buf "FORK" "SESS" Ef H). discriminate. }
  destruct (line_tag buf "SESS") eqn:Es.
  { cbn [negb].
    destruct (strstr (cstr buf) (bytes "exename=")) as [pos|];
      [|discriminate].
    intros E. apply Ret_pair_inj in E. destruct E as [<- <-].
    rewrite find_create_session.
    split.
    - intros [-> | H]; [right; split; reflexivity | left; exact H].
    - intros [H | [_ H]]; [right; exact H|].
      left. congruence. }
  destruct (line_tag buf "DLOP") eqn:Ed.
  { cbn [negb].
    destruct (strstr (cstr buf) (bytes "libname=")) as [pos|];
      [|discriminate].
    destruct (get_session_from_sid sess _) as [s|]; [|discriminate].
    intros E. apply Ret_pair_inj in E. destruct E as [<- <-].
    rewrite find_add_dlopen.
    split; [auto|]. intros [H|[H _]]; [exact H|discriminate H]. }
  intros E. apply Ret_pair_inj in E. destruct E as [<- <-].
  split; [auto|]. intros [H|[H _]]; [exact H|discriminate H].
Qed.

(** After the lines [pre], the sessions of the registry are those it
    held and those the SESS lines created. *)
Lemma read_task_txt_lines_found (pre : list (list byte)) :
  forall (r0 sess : R) (lv0 lv : txt_locals) (x : list byte),
    read_task_txt_lines dir true sr pre r0 lv0 = Ret (sess, lv) ->
    (found sess x
     <-> found r0 x \/ created_from_sess_line dir sr pre r0 lv0 x).
Proof.
  induction pre as [|l rest IH]; intros r0 sess lv0 lv x Hrun.
  - cbn in Hrun. injection Hrun as <- <-. split; [auto|].
    intros [H|(p1 & l & p2 & s1 & lv1 & E & _)]; [exact H|].
    destruct p1; discriminate E.
  - cbn [read_task_txt_lines] in Hrun.
    destruct (read_task_txt_line dir true sr l r0 lv0) as [[r1 lv1]| | | |]
      eqn:El; try discriminate Hrun.
    rewrite (IH r1 sess lv1 lv x Hrun).
    rewrite (read_task_txt_line_found l r0 r1 lv0 lv1 x El).
    split.
    + intros [[H|[Ht Hs]]|(p1 & l' & p2 & s1 & lv2 & E & Hp & Ht & Hs)].
      * left. exact H.
      * right. exists [], l, rest, r0, lv0. repeat split; assumption.
      * right. exists (l :: p1), l', p2, s1, lv2. subst rest.
        repeat split; try assumption.
        cbn [read_task_txt_lines]. rewrite El. exact Hp.
    + intros [H|(p1 & l' & p2 & s1 & lv2 & E & Hp & Ht & Hs)].
      * left. left. exact H.
      * destruct p1 as [|l0 p1].
        -- cbn in E. injection E as <- <-. cbn in Hp.
           injection Hp as <- <-. left. right. split; assumption.
        -- cbn in E. injection E as <- ->.
           cbn [read_task_txt_lines] in Hp. rewrite El in Hp.
           right. exists p1, l', p2, s1, lv2. repeat split; assumption.
Qed.

(** C8: on a DLOP line (sessions being read), the reader looks the
    line's session id up in the registry and aborts on the assertion when
    no session is found; a log read from the empty registry passes the
    assertion, and attaches the library to the session, exactly on the
    DLOP lines whose session id is that of a session created from an
    earlier SESS line.  The lines are lines that fit the reader: their
    session ids fit the [sid] fields and their names are read from
    within the line. *)
Theorem read_task_txt_dlop_session (pre : list (list byte))
    (buf : list byte) (sess : R) (lv0 lv : txt_locals) (x : list byte) :
  Forall (line_fits true) pre ->
  line_fits true buf ->
  read_task_txt_lines dir true sr pre sessions_init lv0 = Ret (sess, lv) ->
  line_tag buf "DLOP" = true ->
  dlop_line_sid buf lv = Some x ->
  (read_task_txt_line dir true sr buf sess lv = Abort
   <-> get_session_from_sid sess x = None)
  /\ (read_task_txt_line dir true sr buf sess lv = Abort
      <-> ~ created_from_sess_line dir sr pre sessions_init lv0 x)
  /\ ((exists s sess' lv',
         get_session_from_sid sess x = Some s
         /\ read_task_txt_line dir true sr buf sess lv = Ret (sess', lv')
         /\ sess' = session_add_dlopen sess s (time (dlop_task (dlop lv')))
                      (base_addr (dlop lv'))
                      (match strstr (cstr buf) (bytes "libname=") with
                       | Some pos => quoted_name pos
                       | None => []
                       end))
      <-> created_from_sess_line dir sr pre sessions_init lv0 x).
Proof.
  intros _ _ Hrun Hd Hx.
  pose proof (read_task_txt_lines_found pre sessions_init sess lv0 lv x Hrun)
    as Hf.
  assert (Hfound : found sess x
                   <-> created_from_sess_line dir sr pre sessions_init lv0 x).
  { rewrite Hf. split; [|auto]. intros [H|H]; [|exact H].
    exfalso. apply H. apply find_init. }
  assert (Hline :
    read_task_txt_line dir true sr buf sess lv
    = match strstr (cstr buf) (bytes "libname=") with
      | None => Fatal invalid_task_txt
      | Some pos =>
          let lv' := scan_dlop (cstr buf) (quoted_name pos) lv in
          match get_session_from_sid sess (dlop_sid (dlop lv')) with
          | None => Abort
          | Some s =>
              Ret (session_add_dlopen sess s (time (dlop_task (dlop lv')))
                     (base_addr (dlop lv')) (quoted_name pos), lv')
          end
      end).
  { unfold read_task_txt_line. fold (line_tag buf "TASK").
    fold (line_tag buf "FORK"). fold (line_tag buf "SESS").
    fold (line_tag buf "DLOP"). rewrite Hd.
    destruct (line_tag buf "TASK") eqn:Et.
    { pose proof (line_tag_one buf "TASK" "DLOP" Et Hd). discriminate. }
    destruct (line_tag buf "FORK") eqn:Ef.
    { pose proof (line_tag_one buf "FORK" "DLOP" Ef Hd). discriminate. }
    destruct (line_tag buf "SESS") eqn:Es.
    { pose proof (line_tag_one buf "SESS" "DLOP" Es Hd). discriminate. }
    reflexivity. }
  unfold dlop_line_sid in Hx. rewrite Hline.
  destruct (strstr (cstr buf) (bytes "libname=")) as [pos|];
    [|discriminate Hx].
  assert (Hx' : dlop_sid (dlop (scan_dlop (cstr buf) (quoted_name pos) lv)) = x)
  by congruence.
  clear Hx. cbv zeta. rewrite Hx'.
  destruct (get_session_from_sid sess x) as [s|] eqn:Eg.
  - assert (Hc : created_from_sess_line dir sr pre sessions_init lv0 x)
      by (apply Hfound; discriminate).
    split; [split; discriminate|]. split.
    + split; [discriminate|]. intros N. contradiction.
    + split; [intros _; exact Hc|]. intros _.
      eexists s, _, _. split; [reflexivity|]. split; reflexivity.
  - assert (Hc : ~ created_from_sess_line dir sr pre sessions_init lv0 x).
    { intros C. apply Hfound in C. apply C. reflexivity. }
    split; [split; reflexivity|]. split.
    + split; [intros _; exact Hc | reflexivity].
    + split; [|intros C; contradiction].
      intros (s & _ & _ & E & _). discriminate E.
Qed.

End Sessions.

(** The list registry keeps the laws. *)
Lemma bytes_eqb_eq (a b : list byte) : bytes_eqb a b = true <-> a = b.
Proof.
  revert b. induction a as [|x a IH]; intros [|y b]; cbn;
    try (split; [discriminate|discriminate]); [split; reflexivity|].
  rewrite andb_true_iff, IH. split.
  - intros [H ->]. apply Byte.byte_dec_bl in H. subst y. reflexivity.
  - intros E. injection E as -> ->. split; [|reflexivity].
    apply Byte.byte_dec_lb. reflexivity.
Qed.

Lemma find_sid_found (ss : list uftrace_session) (x : list byte) :
  forall i,
    find_sid ss x i <> None <-> exists s, In s ss /\ us_sid s = x.
Proof.
  induction ss as [|s t IH]; intros i; cbn [find_sid].
  - split; [contradiction|]. intros (s & [] & _).
  - destruct (bytes_eqb (us_sid s) x) eqn:E.
    + split; [|discriminate]. intros _. exists s.
      split; [left; reflexivity | apply bytes_eqb_eq; exact E].
    + rewrite IH. split.
      * intros (s' & Hin & Hs). exists s'. split; [right; exact Hin | exact Hs].
      * intros (s' & [<- | Hin] & Hs).
        -- apply bytes_eqb_eq in Hs. congruence.
        -- exists s'. split; assumption.
Qed.

Lemma find_sid_add_dlopen (ss : list uftrace_session) (x : list byte)
    (d : Z * Z * list byte) :
  forall j i, find_sid (add_dlopen_at ss j d) x i = find_sid ss x i.
Proof.
  induction ss as [|s t IH]; intros j i; [destruct j; reflexivity|].
  destruct j as [|j]; cbn [add_dlopen_at find_sid us_sid].
  - reflexivity.
  - rewrite IH. reflexivity.
Qed.

Lemma list_registry_laws : RegistryLaws uftrace_session_link nat.
Proof.
  constructor.
  - reflexivity.
  - intros r m d e b x. cbn [get_session_from_sid create_session
                              list_registry root].
    rewrite !find_sid_found. split.
    + intros (s & Hin & Hs). apply in_app_or in Hin.
      destruct Hin as [Hin|[<-|[]]].
      * right. exists s. split; assumption.
      * left. symmetry. exact Hs.
    + intros [-> | (s & Hin & Hs)].
      * eexists. split; [apply in_or_app; right; left; reflexivity|].
        reflexivity.
      * exists s. split; [apply in_or_app; left; exact Hin | exact Hs].
  - intros r m f n x. reflexivity.
  - intros r s t a l x. cbn [get_session_from_sid session_add_dlopen
                              list_registry root].
    rewrite find_sid_add_dlopen. reflexivity.
Qed.

(** The lines of the samples fit the reader. *)
Ltac tag_off H := vm_compute in H; discriminate H.

Ltac fits_eval := repeat split; vm_compute; first [exact I | lia].

Ltac line_fits_eval :=
  unfold line_fits; split; [|split];
  [ intros [H|H]; first [tag_off H | fits_eval]
  | intros _ H; first [tag_off H | fits_eval]
  | intros _ H; first [tag_off H | fits_eval] ].

Lemma sample_txt_fits :
  Forall (@line_fits x86_64 true) (getlines sample_txt).
Proof.
  change (getlines sample_txt)
    with (ltac:(let v := eval vm_compute in (getlines sample_txt) in
                exact v)).
  repeat (constructor; [line_fits_eval|]). constructor.
Qed.

Lemma sample_dlop_fits :
  @line_fits x86_64 true (sample_dlop "abc123")
  /\ @line_fits x86_64 true (sample_dlop "0000").
Proof. split; line_fits_eval. Qed.

(** The log of the sample, then a library loaded into its session:
    the assertion holds, the session being that of the SESS line. *)
Lemma read_task_txt_dlop_session_witness :
  exists sess lv,
    @read_task_txt_lines _ _ list_registry "d" true false
      (getlines sample_txt) sessions_init locals0 = Ret (sess, lv)
    /\ line_tag (sample_dlop "abc123") "DLOP" = true
    /\ dlop_line_sid (sample_dlop "abc123") lv = Some (bytes "abc123")
    /\ @read_task_txt_line _ _ list_registry "d" true false
         (sample_dlop "abc123") sess lv <> Abort
    /\ @read_task_txt_line _ _ list_registry "d" true false
         (sample_dlop "0000") sess lv = Abort.
Proof.
  eval_run (@read_task_txt_lines _ _ list_registry "d" true false
              (getlines sample_txt) sessions_init locals0) E.
  match type of E with
  | _ = Ret (?s1, ?l1) => exists s1, l1
  end.
  split; [exact E|]. split; [reflexivity|]. split; [reflexivity|]. split.
  - destruct (@read_task_txt_dlop_session x86_64 _ _ list_registry
                list_registry_laws "d" false (getlines sample_txt)
                (sample_dlop "abc123") _ locals0 _ (bytes "abc123")
                sample_txt_fits (proj1 sample_dlop_fits) E
                eq_refl eq_refl) as (H & _ & _).
    intros A. apply H in A. vm_compute in A. discriminate A.
  - destruct (@read_task_txt_dlop_session x86_64 _ _ list_registry
                list_registry_laws "d" false (getlines sample_txt)
                (sample_dlop "0000") _ locals0 _ (bytes "0000")
                sample_txt_fits (proj2 sample_dlop_fits) E
                eq_refl eq_refl) as (H & _ & _).
    apply H. vm_compute. reflexivity.
Defined.

(** ** The text reader and the fallback to the legacy reader *)

Section TextResult.
Context {abi : Abi}.
Context {R P : Type} {reg : Registry R P}.

(** Without sessions to read, no line ends the process. *)
Lemma read_task_txt_lines_tasks_only (dir : string) (sr : bool)
    (lines : list (list byte)) :
  forall (sess : R) (lv : txt_locals),
    exists sess' lv',
      read_task_txt_lines dir false sr lines sess lv = Ret (sess', lv').
Proof.
  induction lines as [|l rest IH]; intros sess lv; cbn [read_task_txt_lines].
  - eauto.
  - unfold read_task_txt_line.
    repeat match goal with
           | |- context [if strncmp_eq ?a ?b ?c then _ else _] =>
               destruct (strncmp_eq a b c)
           end; cbn [negb]; apply IH.
Qed.

(** The two ways a turn of the loop ends the process. *)
Lemma read_task_txt_line_exits (dir : string) (ns sr : bool)
    (buf : list byte) (sess : R) (lv : txt_locals) :
  (forall d, read_task_txt_line dir ns sr buf sess lv = Fatal d ->
             ns = true /\ lacks_name buf)
  /\ (read_task_txt_line dir ns sr buf sess lv = Abort ->
      ns = true /\ line_tag buf "DLOP" = true
      /\ exists x, dlop_line_sid buf lv = Some x
                   /\ get_session_from_sid sess x = None).
Proof.
  unfold read_task_txt_line, lacks_name, dlop_line_sid.
  fold (line_tag buf "TASK"). fold (line_tag buf "FORK").
  fold (line_tag buf "SESS"). fold (line_tag buf "DLOP").
  destruct (line_tag buf "TASK"); [split; [intros d|]; discriminate|].
  destruct (line_tag buf "FORK"); [split; [intros d|]; discriminate|].
  destruct (line_tag buf "SESS").
  { destruct ns; cbn [negb]; [|split; [intros d|]; discriminate].
    destruct (strstr (cstr buf) (bytes "exename=")).
    - split; [intros d|]; discriminate.
    - split; [|discriminate]. intros d _. split; [reflexivity|].
      left. split; reflexivity. }
  destruct (line_tag buf "DLOP"); [|split; [intros d|]; discriminate].
  destruct ns; cbn [negb]; [|split; [intros d|]; discriminate].
  destruct (strstr (cstr buf) (bytes "libname=")) as [pos|].
  - destruct (get_session_from_sid sess _) as [s|] eqn:E.
    + split; [intros d|]; discriminate.
    + split; [intros d; discriminate|]. intros _.
      split; [reflexivity|]. split; [reflexivity|].
      eexists. split; [reflexivity | exact E].
  - split; [|discriminate]. intros d _. split; [reflexivity|].
    right. split; reflexivity.
Qed.

Lemma read_task_txt_lines_exits (dir : string) (ns sr : bool)
    (lines : list (list byte)) :
  forall (sess : R) (lv : txt_locals),
    (forall d, read_task_txt_lines dir ns sr lines sess lv = Fatal d ->
               ns = true /\ exists buf, In buf lines /\ lacks_name buf)
    /\ (read_task_txt_lines dir ns sr lines sess lv = Abort ->
        ns = true
        /\ exists buf sess' lv' x,
             In buf lines /\ line_tag buf "DLOP" = true
             /\ dlop_line_sid buf lv' = Some x
             /\ get_session_from_sid sess' x = None).
Proof.
  induction lines as [|l rest IH]; intros sess lv; cbn [read_task_txt_lines].
  - split; [intros d|]; discriminate.
  - destruct (read_task_txt_line_exits dir ns sr l sess lv) as [Hf Ha].
    destruct (read_task_txt_line dir ns sr l sess lv) as [[s lv']|d| | |].
    + destruct (IH s lv') as [IHf IHa]. split.
      * intros d E. destruct (IHf d E) as (Hn & buf & Hin & Hb).
        split; [exact Hn|]. exists buf. split; [right; exact Hin | exact Hb].
      * intros E. destruct (IHa E) as (Hn & buf & s' & l' & x & Hin & Hb).
        split; [exact Hn|]. exists buf, s', l', x.
        split; [right; exact Hin | exact Hb].
    + split; [|discriminate]. intros d' _.
      destruct (Hf d eq_refl) as [Hn Hb].
      split; [exact Hn|]. exists l. split; [left; reflexivity | exact Hb].
    + split; [intros d; discriminate|]. intros _.
      destruct (Ha eq_refl) as (Hn & Ht & x & Hx & Hg).
      split; [exact Hn|]. exists l, sess, lv, x.
      repeat split; try assumption. left. reflexivity.
    + split; [intros d|]; discriminate.
    + split; [intros d|]; discriminate.
Qed.

(** C10, as the code has it: [read_task_txt_file] returns a result
    other than 0 only when the text log cannot be opened, and it is then
    negative; once the log is open it returns 0 whatever the lines that
    fit the reader hold, unless a line ends the process: a SESS or DLOP
    line without its name, or a DLOP line whose session is not found;
    when no sessions are read, it returns 0.  So [open_data_file] does
    not go on to the legacy log when the text log is there.  The lines
    fit the reader when their session ids fit the [sid] fields and what
    is scanned, and the names, are read from within the line. *)
Theorem read_task_txt_file_returns (fs : filesys) (lv : txt_locals)
    (sess : R) (dir : string) (ns sr : bool) (tr : list event)
    (h : uftrace_file_header) :
  let txt := (dir ++ "/task.txt")%string in
  (forall data,
     open_read fs txt = inl data -> Forall (line_fits ns) (getlines data)) ->
  (forall rc sess' tr',
     read_task_txt_file fs lv sess dir ns sr tr = (Ret (rc, sess'), tr') ->
     rc <> 0 ->
     rc < 0 /\ exists e, open_read fs txt = inr e /\ rc = - Z.pos e)
  /\ (forall data,
        open_read fs txt = inl data ->
        ((exists sess',
            read_task_txt_file fs lv sess dir ns sr tr
            = (Ret (0, sess'), tr ++ [ev_open txt]))
         \/ read_task_txt_file fs lv sess dir ns sr tr
            = (Fatal invalid_task_txt, tr ++ [ev_open txt])
         \/ read_task_txt_file fs lv sess dir ns sr tr
            = (Abort, tr ++ [ev_open txt]))
        /\ (read_task_txt_file fs lv sess dir ns sr tr
            = (Fatal invalid_task_txt, tr ++ [ev_open txt]) ->
            ns = true
            /\ exists buf, In buf (getlines data) /\ lacks_name buf)
        /\ (read_task_txt_file fs lv sess dir ns sr tr
            = (Abort, tr ++ [ev_open txt]) ->
            ns = true
            /\ exists buf sess' lv' x,
                 In buf (getlines data) /\ line_tag buf "DLOP" = true
                 /\ dlop_line_sid buf lv' = Some x
                 /\ get_session_from_sid sess' x = None)
        /\ (ns = false ->
            exists sess',
              read_task_txt_file fs lv sess dir ns sr tr
              = (Ret (0, sess'), tr ++ [ev_open txt]))
        /\ (has_feat h TASK_SESSION = true ->
            Forall (line_fits true) (getlines data) ->
            snd (read_sessions fs lv dir h sess tr) = tr ++ [ev_open txt])).
Proof.
  intros txt _.
  pose proof (read_task_txt_file_result fs lv sess dir ns sr tr) as Hres.
  cbv zeta in Hres. fold txt in Hres. split.
  - intros rc sess' tr' Hrun Hrc.
    destruct (open_read fs txt) as [data|e].
    + destruct Hres as [(s & Hs)|[Hs|Hs]]; rewrite Hs in Hrun;
        try discriminate Hrun.
      injection Hrun as <- _ _. contradiction.
    + rewrite Hres in Hrun. injection Hrun as <- _ _.
      split; [lia|]. exists e. split; reflexivity.
  - intros data Hopen. rewrite Hopen in Hres. split; [exact Hres|].
    destruct (read_task_txt_lines_exits dir ns sr (getlines data) sess lv)
      as [Hf Ha].
    split; [|split]; [| |split].
    + unfold read_task_txt_file, bind, fopen. fold txt. rewrite Hopen.
      destruct (read_task_txt_lines dir ns sr (getlines data) sess lv)
        as [[s l]|d| | |]; try discriminate.
      intros _. exact (Hf d eq_refl).
    + unfold read_task_txt_file, bind, fopen. fold txt. rewrite Hopen.
      destruct (read_task_txt_lines dir ns sr (getlines data) sess lv)
        as [[s l]|d| | |]; try discriminate.
      intros _. exact (Ha eq_refl).
    + intros ->.
      unfold read_task_txt_file, bind, fopen. fold txt. rewrite Hopen.
      destruct (read_task_txt_lines_tasks_only dir sr (getlines data) sess lv)
        as (s & lv' & ->).
      exists s. reflexivity.
    + intros Hfeat _. unfold read_sessions. rewrite Hfeat. unfold bind.
      pose proof (read_task_txt_file_result fs lv sess dir true
                    (has_feat h SYM_REL_ADDR) tr) as Ht.
      cbv zeta in Ht. fold txt in Ht. rewrite Hopen in Ht.
      destruct Ht as [(s & ->)|[-> | ->]]; reflexivity.
Qed.

End TextResult.

(** The claim as stated fails on a DLOP line that has its name and a
    session id no SESS line made: the log is open, the line is no line
    without a name, and the reader does not return. *)
Lemma read_task_txt_file_assertion :
  let fs := files [("d/task.txt"%string, sample_dlop "0000")] in
  open_read fs "d/task.txt" = inl (sample_dlop "0000")
  /\ strstr (cstr (sample_dlop "0000")) (bytes "libname=") <> None
  /\ @read_task_txt_file _ _ list_registry fs locals0 sessions_init "d"
       true false []
     = (Abort, [ev_open "d/task.txt"]).
Proof.
  intros fs. split; [reflexivity|]. split.
  - vm_compute. discriminate.
  - vm_compute. reflexivity.
Qed.

(** A text log that is there, whatever it holds, is the one log read. *)
Lemma read_task_txt_file_returns_witness :
  let fs := files [("d/task.txt"%string, bytes "no such line")] in
  open_read fs "d/task.txt" = inl (bytes "no such line")
  /\ Forall (@line_fits x86_64 true) (getlines (bytes "no such line"))
  /\ @read_task_txt_file _ _ list_registry fs locals0 sessions_init "d"
       true false []
     = (Ret (0, sessions_init), [ev_open "d/task.txt"])
  /\ snd (@read_sessions x86_64 _ _ list_registry fs locals0 "d"
            (@hdr_of_raw x86_64 (sample_header 4 1 2 0 0)) sessions_init [])
     = [ev_open "d/task.txt"].
Proof.
  intros fs.
  assert (Hfit : Forall (@line_fits x86_64 true)
                   (getlines (bytes "no such line"))).
  { constructor; [|constructor]. line_fits_eval. }
  split; [reflexivity|]. split; [exact Hfit|].
  split; [vm_compute; reflexivity|].
  assert (Hall : forall data,
             open_read fs "d/task.txt" = inl data ->
             Forall (@line_fits x86_64 true) (getlines data)).
  { intros data E. injection E as <-. exact Hfit. }
  destruct (@read_task_txt_file_returns x86_64 _ _ list_registry fs locals0
              sessions_init "d" true false []
              (@hdr_of_raw x86_64 (sample_header 4 1 2 0 0)) Hall) as [_ H].
  destruct (H (bytes "no such line") eq_refl) as (_ & _ & _ & _ & H3).
  apply H3; [reflexivity | exact Hfit].
Defined.

(** ** open_data_file: a header that is missing or broken *)

Section OpenFailures.
Context {abi : Abi}.
Context {R P : Type} {reg : Registry R P}.
Context {X : Type} {col : Collaborators X}.

Variable fs : filesys.
Variable lv : txt_locals.
Variable o : opts.
Variable handle : ftrace_file_handle R X.

Let info_path : string := (dirname o ++ "/info")%string.
Let old_path : string := (UFTRACE_DIR_OLD_NAME ++ "/info")%string.

(** What [open_data_file] does with the outcome of [open_info] when no
    header is open. *)
Lemma open_data_file_no_header (tr tr1 : list event)
    (r : result (option (list byte * bool))) :
  open_info fs o tr = (r, tr1) ->
  (forall v, r <> Ret (Some v)) ->
  open_data_file fs lv o handle tr
  = (match r with
     | Ret _ => Ret (-1, o, handle)
     | Fatal d => Fatal d
     | Abort => Abort
     | OutOfFuel => OutOfFuel
     | Undefined => Undefined
     end, tr1).
Proof.
  intros Ho Hn. unfold open_data_file, bind. rewrite Ho.
  destruct r as [[v|]| | | |]; try reflexivity.
  exfalso. exact (Hn v eq_refl).
Qed.

(** X1: when the header is not found in the configured directory, nor,
    for the default directory, in the old default one, the message names
    the header of the configured directory; then the open ends with the
    hint about recording when an executable is known, and returns -1
    with the configuration and the handle as they were when none is.  A
    retry that fails for another reason is fatal, and its message names
    the header of the configured directory too. *)
Theorem open_data_file_not_found (tr : list event) :
  open_read fs info_path = inr ENOENT ->
  let opened :=
    if String.eqb (dirname o) UFTRACE_DIR_NAME
    then [ev_open info_path; ev_open old_path]
    else [ev_open info_path] in
  ((dirname o = UFTRACE_DIR_NAME -> open_read fs old_path = inr ENOENT) ->
   open_data_file fs lv o handle tr
   = (match exename o with
      | Some e => Fatal (record_msg e)
      | None => Ret (-1, o, handle)
      end,
      tr ++ opened ++ [ev_log (cannot_find_file info_path)]))
  /\ (forall e,
        dirname o = UFTRACE_DIR_NAME ->
        open_read fs old_path = inr e -> e <> ENOENT ->
        open_data_file fs lv o handle tr
        = (Fatal (cannot_open_file info_path), tr ++ opened)).
Proof.
  intros Hfirst opened. split.
  - intros Hold.
    destruct (String.eqb_spec (dirname o) UFTRACE_DIR_NAME) as [Ed|Ed].
    + pose proof (open_info_retry fs o tr Hfirst Ed) as Hr.
      fold old_path info_path in Hr. rewrite (Hold Ed) in Hr.
      rewrite Pos.eqb_refl in Hr.
      rewrite (open_data_file_no_header tr _ _ Hr).
      * subst opened. destruct (exename o); reflexivity.
      * destruct (exename o); discriminate.
    + pose proof (open_info_missing fs o tr Hfirst Ed) as Hr.
      fold info_path in Hr.
      rewrite (open_data_file_no_header tr _ _ Hr).
      * subst opened. destruct (exename o); reflexivity.
      * destruct (exename o); discriminate.
  - intros e Ed He Hne.
    pose proof (open_info_retry fs o tr Hfirst Ed) as Hr.
    fold old_path info_path in Hr. rewrite He in Hr.
    destruct (Pos.eqb_spec e ENOENT) as [E|_]; [contradiction|].
    rewrite (open_data_file_no_header tr _ _ Hr) by discriminate.
    subst opened. rewrite Ed, String.eqb_refl. reflexivity.
Qed.

(** X2: the header is checked in the order of the source -- its
    length, its magic, its version, then the blocks that follow it --
    and a header that fails a check ends the open with the message of
    that check, before any task log is opened: a header that is cut
    short is not looked at, and a wrong magic is reported whatever the
    version says. *)
Theorem open_data_file_bad_header (tr : list event) (fp : list byte) :
  open_read fs info_path = inl fp ->
  let tr1 := tr ++ [ev_open info_path] in
  let raw := firstn sizeof_hdr fp in
  ((List.length fp < sizeof_hdr)%nat ->
   open_data_file fs lv o handle tr = (Fatal cannot_read_header, tr1))
  /\ ((sizeof_hdr <= List.length fp)%nat ->
      (magic_ok (hdr_of_raw raw) = false ->
       open_data_file fs lv o handle tr = (Fatal invalid_magic, tr1))
      /\ (magic_ok (hdr_of_raw raw) = true ->
          version_ok (snd (load_header raw)) = true ->
          read_ftrace_info (info_mask (snd (load_header raw)))
            (skipn sizeof_hdr fp) = None ->
          open_data_file fs lv o handle tr = (Fatal cannot_read_info, tr1))).
Proof.
  intros Hopen tr1 raw.
  pose proof (open_info_found fs o tr fp Hopen) as Ho.
  fold info_path in Ho. fold tr1 in Ho.
  unfold open_data_file, bind. rewrite Ho. unfold fread1. split.
  - intros Hlen. destruct (Nat.leb_spec sizeof_hdr (List.length fp)); [lia|].
    reflexivity.
  - intros Hlen. destruct (Nat.leb_spec sizeof_hdr (List.length fp)); [|lia].
    fold raw. split.
    + intros Hm. rewrite Hm. reflexivity.
    + intros Hm Hv Hi. rewrite Hm. cbn [negb].
      destruct (load_header raw) as [[bs bits] h]. cbn [snd] in Hv, Hi.
      rewrite Hv. cbn [negb]. rewrite Hi. reflexivity.
Qed.

End OpenFailures.

(** Nothing is found in an empty directory. *)
Lemma open_data_file_not_found_witness :
  open_read (files []) "uftrace.data/info" = inr ENOENT
  /\ open_sample x86_64 (files []) "uftrace.data"
     = (Ret (-1, opts0 "uftrace.data", handle0),
        [ev_open "uftrace.data/info"; ev_open "ftrace.dir/info";
         ev_log (cannot_find_file "uftrace.data/info")]).
Proof.
  split; [reflexivity|].
  exact (proj1 (@open_data_file_not_found x86_64 _ _ list_registry unit
                  no_collaborators (files []) locals0 (opts0 "uftrace.data")
                  handle0 [] eq_refl)
               (fun _ => eq_refl)).
Defined.

(** A header of the sample cut after 39 bytes; and a whole one whose
    magic is spoilt and whose version is out of range. *)
Lemma open_data_file_bad_header_witness :
  let cut := firstn 39 (sample_header 4 1 0 0 0) in
  let bad := x00 :: skipn 1 (sample_header 9 1 0 0 0) in
  open_sample x86_64 (files [("d/info"%string, cut)]) "d"
  = (Fatal cannot_read_header, [ev_open "d/info"])
  /\ open_sample x86_64 (files [("d/info"%string, bad)]) "d"
     = (Fatal invalid_magic, [ev_open "d/info"]).
Proof.
  intros cut bad. split.
  - refine (proj1 (@open_data_file_bad_header x86_64 _ _ list_registry unit
                     no_collaborators (files [("d/info"%string, cut)])
                     locals0 (opts0 "d") handle0 [] cut eq_refl) _).
    cbn. lia.
  - refine (proj1 (proj2 (@open_data_file_bad_header x86_64 _ _
                            list_registry unit no_collaborators
                            (files [("d/info"%string, bad)])
                            locals0 (opts0 "d") handle0 [] bad eq_refl) _) _).
    + cbn. lia.
    + reflexivity.
Defined.

(** ** open_data_file: what a successful open leaves *)

Section OpenSuccess.
Context {abi : Abi}.
Context {R P : Type} {reg : Registry R P}.
Context {X : Type} {col : Collaborators X}.

Variable fs : filesys.
Variable lv : txt_locals.
Variable o : opts.
Variable handle : ftrace_file_handle R X.

(** A return of 0 is the end of the path through the header. *)
Lemma open_data_file_success (tr tr' : list event) (o' : opts)
    (h' : ftrace_file_handle R X) :
  open_data_file fs lv o handle tr = (Ret (0, o', h'), tr') ->
  exists fp again raw rest byte_swap bit_swap h inf tr1,
    open_info fs o tr = (Ret (Some (fp, again)), tr1)
    /\ fread1 sizeof_hdr fp = Some (raw, rest)
    /\ load_header raw = (byte_swap, bit_swap, h)
    /\ read_ftrace_info (info_mask h) rest = Some inf
    /\ read_sessions fs lv (active_dir o again) h sessions_init tr1
       = (Ret (sessions h'), tr')
    /\ (0, o', h')
       = finish_open o handle (active_dir o again) byte_swap bit_swap
           h inf (sessions h').
Proof.
  intros Hrun. apply open_data_file_ret in Hrun.
  destruct Hrun as [[_ E]|Hrun]; [discriminate|].
  destruct Hrun as (fp & again & raw & rest & bs & bits & h & inf & tr1
                    & sess & Ho & Hr & _ & Hl & _ & Hi & Hs & Hv).
  pose proof Hv as Hf. symmetry in Hf. apply finish_open_fields in Hf.
  destruct Hf as (_ & _ & _ & _ & _ & Hsess & _).
  exists fp, again, raw, rest, bs, bits, h, inf, tr1.
  rewrite Hsess. repeat split; assumption.
Qed.

(** [feat_mask & (a | b)]: one of the two features at least. *)
Lemma has_feat_lor (h : uftrace_file_header) (a b : Z) :
  has_feat h (Z.lor a b) = has_feat h a || has_feat h b.
Proof.
  unfold has_feat. rewrite Z.land_lor_distr_r.
  destruct (Z.eqb_spec (Z.land (feat_mask h) a) 0) as [Ea|Ea];
    destruct (Z.eqb_spec (Z.land (feat_mask h) b) 0) as [Eb|Eb];
    destruct (Z.eqb_spec (Z.lor (Z.land (feat_mask h) a)
                            (Z.land (feat_mask h) b)) 0) as [E|E];
    cbn [negb orb]; try reflexivity; exfalso;
    try (apply Z.lor_eq_0_iff in E; tauto);
    apply E; apply Z.lor_eq_0_iff; tauto.
Qed.

Ltac open_cases E :=
  repeat match type of E with
         | context [if ?c then _ else _] => destruct c eqn:?
         | context [let '(_, _) := ?x in _] => destruct x eqn:?
         end;
  injection E as <- <-.

Ltac open_fields E := unfold finish_open in E; open_cases E.

(** X3: a header without the session-info feature: no task log is
    opened, and the registry of the handle is the empty one, whatever
    the handle held. *)
Theorem open_data_file_no_sessions (tr tr' : list event) (o' : opts)
    (h' : ftrace_file_handle R X) :
  open_data_file fs lv o handle tr = (Ret (0, o', h'), tr') ->
  has_feat (hdr h') TASK_SESSION = false ->
  sessions h' = sessions_init
  /\ exists fp again, open_info fs o tr = (Ret (Some (fp, again)), tr').
Proof.
  intros Hrun Hfeat. apply open_data_file_success in Hrun.
  destruct Hrun as (fp & again & raw & rest & bs & bits & h & inf & tr1
                    & Ho & _ & _ & _ & Hs & Hv).
  assert (Hm : feat_mask (hdr h') = feat_mask h).
  { symmetry in Hv. apply finish_open_fields in Hv.
    destruct Hv as (_ & _ & _ & _ & _ & _ & _ & Hm & _). exact Hm. }
  unfold has_feat in Hfeat. rewrite Hm in Hfeat.
  unfold read_sessions, has_feat in Hs. rewrite Hfeat in Hs.
  unfold ret in Hs. injection Hs as Hs <-.
  split; [symmetry; exact Hs|]. exists fp, again. exact Ho.
Qed.

(** X4: after a successful open the handle holds the directory, the
    depth and the time filters of the configuration and no task; the
    configuration keeps its executable name when it has one and takes
    that of the info file when it has none; its directory is the one
    given or the old default one, and nothing else of it changes. *)
Theorem open_data_file_config (tr tr' : list event) (o' : opts)
    (h' : ftrace_file_handle R X) :
  open_data_file fs lv o handle tr = (Ret (0, o', h'), tr') ->
  h_dirname h' = dirname o'
  /\ h_depth h' = depth o
  /\ time_filter h' = threshold o
  /\ time_range h' = range o
  /\ nr_tasks h' = 0
  /\ exename o' = match exename o with
                  | Some e => Some e
                  | None => info_exename (info h')
                  end
  /\ (dirname o' = dirname o \/ dirname o' = UFTRACE_DIR_OLD_NAME)
  /\ depth o' = depth o /\ threshold o' = threshold o
  /\ range o' = range o /\ kernel_skip_out o' = kernel_skip_out o.
Proof.
  intros Hrun. apply open_data_file_success in Hrun.
  destruct Hrun as (fp & again & raw & rest & bs & bits & h & inf & tr1
                    & _ & _ & _ & _ & _ & Hv).
  symmetry in Hv. open_fields Hv;
    cbn [h_dirname dirname h_depth time_filter time_range nr_tasks exename
         info depth threshold range kernel_skip_out];
    (repeat split; try reflexivity);
    unfold active_dir; destruct again; auto.
Qed.

(** X5: the stack depth of the handle is the built-in default exactly
    when the feature mask does not declare one; with the feature, the
    header of the handle is the header as it was loaded, and without it
    only the stack depth differs. *)
Theorem open_data_file_max_stack (tr tr' : list event) (o' : opts)
    (h' : ftrace_file_handle R X) :
  open_data_file fs lv o handle tr = (Ret (0, o', h'), tr') ->
  exists fp again raw rest tr1,
    open_info fs o tr = (Ret (Some (fp, again)), tr1)
    /\ fread1 sizeof_hdr fp = Some (raw, rest)
    /\ let h := snd (load_header raw) in
       (has_feat (hdr h') MAX_STACK = true -> hdr h' = h)
       /\ (has_feat (hdr h') MAX_STACK = false ->
           hdr h' = {| hdr_magic := hdr_magic h; version := version h;
                       endian := endian h; feat_mask := feat_mask h;
                       info_mask := info_mask h;
                       max_stack := MCOUNT_RSTACK_MAX |}).
Proof.
  intros Hrun. apply open_data_file_success in Hrun.
  destruct Hrun as (fp & again & raw & rest & bs & bits & h & inf & tr1
                    & Ho & Hr & Hl & _ & _ & Hv).
  exists fp, again, raw, rest, tr1. split; [exact Ho|]. split; [exact Hr|].
  rewrite Hl. cbn [snd]. symmetry in Hv. unfold finish_open in Hv.
  destruct (has_feat h MAX_STACK) eqn:Hf; cbn [negb] in Hv.
  - assert (E : hdr h' = h) by (open_cases Hv; reflexivity).
    rewrite E, Hf. split; [reflexivity | discriminate].
  - assert (E : hdr h' = {| hdr_magic := hdr_magic h; version := version h;
                            endian := endian h; feat_mask := feat_mask h;
                            info_mask := info_mask h;
                            max_stack := MCOUNT_RSTACK_MAX |})
      by (open_cases Hv; reflexivity).
    rewrite E. unfold has_feat at 1 2. cbn [feat_mask].
    fold (has_feat h MAX_STACK). rewrite Hf.
    split; [discriminate | reflexivity].
Qed.

(** X6: the collaborators are called by the features of the header
    only: the argument specs are set up when it declares arguments or
    return values; the kernel data are set up, on the active directory,
    when it declares a kernel trace, and the kernel symbols are loaded
    when that setup returns 0.  Without the kernel feature the handle
    has no kernel event parser and nothing of the kernel is touched. *)
Theorem open_data_file_features (tr tr' : list event) (o' : opts)
    (h' : ftrace_file_handle R X) :
  open_data_file fs lv o handle tr = (Ret (0, o', h'), tr') ->
  let args :=
    if has_feat (hdr h') ARGUMENT || has_feat (hdr h') RETVAL
    then setup_fstack_args (argspec (info h')) (ext handle)
    else ext handle in
  let request :=
    {| pevent := None; output_dir := Some (dirname o');
       skip_out := kernel_skip_out o |} in
  (has_feat (hdr h') KERNEL = false ->
   ext h' = args
   /\ pevent (kernel h') = None
   /\ output_dir (kernel h') = output_dir (kernel handle)
   /\ skip_out (kernel h') = skip_out (kernel handle))
  /\ (has_feat (hdr h') KERNEL = true ->
      kernel h' = snd (setup_kernel_data request)
      /\ ext h' = if fst (setup_kernel_data request) =? 0
                  then load_kernel_symbol (dirname o') args
                  else args).
Proof.
  intros Hrun. rewrite <- has_feat_lor.
  apply open_data_file_success in Hrun.
  destruct Hrun as (fp & again & raw & rest & bs & bits & h & inf & tr1
                    & _ & _ & _ & _ & _ & Hv).
  symmetry in Hv. unfold finish_open in Hv.
  assert (Hk : forall b, has_feat (if negb (has_feat h MAX_STACK)
                 then {| hdr_magic := hdr_magic h; version := version h;
                         endian := endian h; feat_mask := feat_mask h;
                         info_mask := info_mask h;
                         max_stack := MCOUNT_RSTACK_MAX |}
                 else h) b = has_feat h b)
    by (intros b; destruct (has_feat h MAX_STACK); reflexivity).
  rewrite Hk in Hv.
  destruct (has_feat h KERNEL) eqn:Hfk.
  - destruct (setup_kernel_data _) as [st k] eqn:Es.
    injection Hv as <- <-.
    cbn [hdr ext kernel info dirname]. rewrite !Hk, Hfk.
    split; [discriminate|]. intros _. rewrite Es. split; reflexivity.
  - injection Hv as <- <-.
    cbn [hdr ext kernel info dirname pevent output_dir skip_out].
    rewrite !Hk, Hfk.
    split; [|discriminate]. intros _. repeat split; reflexivity.
Qed.

End OpenSuccess.

(** The header of the sample declares no feature. *)
Lemma open_data_file_no_sessions_witness :
  exists o' h' tr',
    open_sample x86_64 fs_plain "uftrace.data" = (Ret (0, o', h'), tr')
    /\ has_feat (hdr h') (@TASK_SESSION x86_64) = false
    /\ sessions h' = sessions_init
    /\ tr' = [ev_open "uftrace.data/info"].
Proof.
  eval_run (open_sample x86_64 fs_plain "uftrace.data") E.
  match type of E with
  | _ = (Ret (_, ?o, ?h), ?t) => exists o, h, t
  end.
  split; [exact E|]. split; [reflexivity|].
  split; [|reflexivity].
  exact (proj1 (@open_data_file_no_sessions x86_64 _ _ list_registry unit
                  no_collaborators _ _ _ _ _ _ _ _ E eq_refl)).
Defined.

(** A configuration that names its executable keeps it. *)
Lemma open_data_file_config_witness :
  let o := {| dirname := "uftrace.data"; exename := Some (bytes "a.out");
              depth := 3; threshold := 50; range := 0;
              kernel_skip_out := false |} in
  exists o' h' tr',
    @open_data_file x86_64 _ _ list_registry unit no_collaborators
      fs_plain locals0 o handle0 [] = (Ret (0, o', h'), tr')
    /\ h_depth h' = 3 /\ time_filter h' = 50
    /\ exename o' = Some (bytes "a.out").
Proof.
  intros o.
  eval_run (@open_data_file x86_64 _ _ list_registry unit no_collaborators
              fs_plain locals0 o handle0 []) E.
  match type of E with
  | _ = (Ret (_, ?o, ?h), ?t) => exists o, h, t
  end.
  split; [exact E|].
  destruct (@open_data_file_config x86_64 _ _ list_registry unit
              no_collaborators _ _ _ _ _ _ _ _ E)
    as (_ & Hd & Hf & _ & _ & He & _).
  split; [exact Hd|]. split; [exact Hf | exact He].
Defined.

(** A header that declares a stack depth of 77, and the header of the
    sample, which declares none. *)
Lemma open_data_file_max_stack_witness :
  let fs := files [("d/info"%string, sample_header 4 1 64 0 77)] in
  exists o' h' tr',
    open_sample x86_64 fs "d" = (Ret (0, o', h'), tr')
    /\ max_stack (hdr h') = 77.
Proof.
  intros fs.
  eval_run (open_sample x86_64 fs "d") E.
  match type of E with
  | _ = (Ret (_, ?o, ?h), ?t) => exists o, h, t
  end.
  split; [exact E|].
  destruct (@open_data_file_max_stack x86_64 _ _ list_registry unit
              no_collaborators _ _ _ _ _ _ _ _ E)
    as (fp & again & raw & rest & tr1 & Ho & Hr & Hset & _).
  injection Ho as <- _ _. injection Hr as <- _.
  exact (f_equal max_stack (Hset eq_refl)).
Defined.

(** A header with the kernel feature: the kernel data are set up on
    the directory of the data. *)
Lemma open_data_file_features_witness :
  let fs := files [("d/info"%string, sample_header 4 1 4 0 0)] in
  exists o' h' tr',
    open_sample x86_64 fs "d" = (Ret (0, o', h'), tr')
    /\ has_feat (hdr h') (@KERNEL x86_64) = true
    /\ output_dir (kernel h') = Some "d"%string.
Proof.
  intros fs.
  eval_run (open_sample x86_64 fs "d") E.
  match type of E with
  | _ = (Ret (_, ?o, ?h), ?t) => exists o, h, t
  end.
  split; [exact E|]. split; [reflexivity|].
  destruct (proj2 (@open_data_file_features x86_64 _ _ list_registry unit
                     no_collaborators _ _ _ _ _ _ _ _ E) eq_refl)
    as [Hk _].
  exact (f_equal output_dir Hk).
Defined.

(** ** open_data_file: the byte order of the header *)

Lemma fread1_length (size : nat) (fp raw rest : list byte) :
  fread1 size fp = Some (raw, rest) -> List.length raw = size.
Proof.
  unfold fread1. destruct (Nat.leb_spec size (List.length fp)); [|discriminate].
  intros E. injection E as <- _. rewrite length_firstn. lia.
Qed.

Section ByteOrder.
Context {abi : Abi}.
Context {R P : Type} {reg : Registry R P}.
Context {X : Type} {col : Collaborators X}.

(** C1, as the code has it: the handle of an open that returns 0 holds
    the header of the [info] file with its fields in the byte order of
    the running machine.  When the endianness tag of the header differs
    from that of the machine, the byte-swap flag of the handle is set
    and the version, the feature mask and the info mask are the values
    of their bytes on disk taken in reverse order; when the tags agree,
    the flag is clear and the three fields are the values of their bytes
    on disk.  The stack depth is the value of its bytes on disk, reversed
    or not in the same way, when the feature mask declares a stack depth,
    and the built-in default when it does not. *)
Theorem open_data_file_byte_order (fs : filesys) (lv : txt_locals)
    (o o' : opts) (handle h' : ftrace_file_handle R X)
    (tr tr' : list event) :
  hdr_layout_ok ->
  open_data_file fs lv o handle tr = (Ret (0, o', h'), tr') ->
  exists fp again raw rest tr1,
    open_info fs o tr = (Ret (Some (fp, again)), tr1)
    /\ fread1 sizeof_hdr fp = Some (raw, rest)
    /\ (endian (hdr_of_raw raw) <> get_elf_endian ->
        needs_byte_swap h' = true
        /\ version (hdr h')
           = decode_native host_order (rev (field off_version 4 raw))
        /\ feat_mask (hdr h')
           = decode_native host_order (rev (field off_feat_mask 8 raw))
        /\ info_mask (hdr h')
           = decode_native host_order (rev (field off_info_mask 8 raw))
        /\ max_stack (hdr h')
           = if has_feat (hdr h') MAX_STACK
             then decode_native host_order (rev (field off_max_stack 2 raw))
             else MCOUNT_RSTACK_MAX)
    /\ (endian (hdr_of_raw raw) = get_elf_endian ->
        needs_byte_swap h' = false
        /\ version (hdr h')
           = decode_native host_order (field off_version 4 raw)
        /\ feat_mask (hdr h')
           = decode_native host_order (field off_feat_mask 8 raw)
        /\ info_mask (hdr h')
           = decode_native host_order (field off_info_mask 8 raw)
        /\ max_stack (hdr h')
           = if has_feat (hdr h') MAX_STACK
             then decode_native host_order (field off_max_stack 2 raw)
             else MCOUNT_RSTACK_MAX).
Proof.
  intros Hlay Hrun. apply open_data_file_success in Hrun.
  destruct Hrun as (fp & again & raw & rest & bs & bits & h & inf & tr1
                    & Ho & Hr & Hl & _ & _ & Hv).
  exists fp, again, raw, rest, tr1. split; [exact Ho|]. split; [exact Hr|].
  symmetry in Hv. apply finish_open_fields in Hv.
  destruct Hv as (_ & _ & _ & Hbs & _ & _ & Hver & Hfeat & Hinf & Hmax).
  assert (Hhas : has_feat (hdr h') MAX_STACK = has_feat h MAX_STACK)
    by (unfold has_feat; rewrite Hfeat; reflexivity).
  rewrite Hhas, Hbs, Hver, Hfeat, Hinf, Hmax.
  destruct (load_header_byte_order raw bs bits h Hlay
              (fread1_length _ _ _ _ Hr) Hl) as [Hswap Hsame].
  split; intros Htag.
  - destruct (Hswap Htag) as (-> & -> & -> & -> & ->).
    repeat split; reflexivity.
  - destruct (Hsame Htag) as (-> & ->).
    repeat split; reflexivity.
Qed.

End ByteOrder.

Lemma big_endian_hdr_layout_ok : @hdr_layout_ok big_endian.
Proof. unfold hdr_layout_ok. cbn. lia. Qed.

(** A header written by a little-endian machine, with a stack depth
    declared, opened on a big-endian one: the flag is set, the version
    4 and the stack depth 0x1234 are the values of the bytes on disk
    reversed. *)
Lemma open_data_file_byte_order_witness :
  exists o' h' tr',
    open_sample big_endian (fs_depth 64) "uftrace.data"
    = (Ret (0, o', h'), tr')
    /\ needs_byte_swap h' = true
    /\ version (hdr h') = 4
    /\ max_stack (hdr h') = 0x1234
    /\ max_stack (hdr h')
       = decode_native BigEndian
           (rev (field 32 2 (sample_header 4 1 64 0 0x1234))).
Proof.
  eval_run (open_sample big_endian (fs_depth 64) "uftrace.data") E.
  match type of E with
  | _ = (Ret (_, ?o, ?h), ?t) => exists o, h, t
  end.
  split; [exact E|].
  destruct (@open_data_file_byte_order big_endian _ _ list_registry unit
              no_collaborators (fs_depth 64) locals0 (opts0 "uftrace.data")
              _ handle0 _ [] _ big_endian_hdr_layout_ok E)
    as (fp & again & raw & rest & tr1 & Ho & Hr & Hswap & _).
  vm_compute in Ho. injection Ho as <- _ _.
  vm_compute in Hr. injection Hr as <- _.
  destruct Hswap as (Hb & Hv & _ & _ & Hm);
    [vm_compute; discriminate|].
  split; [exact Hb|]. split; [reflexivity|]. split; [reflexivity|].
  exact Hm.
Defined.

(** The claim as stated fails for the stack depth of a header that
    declares none: the handle holds the built-in default, whatever the
    bytes on disk; with tags that differ, and with tags that agree. *)
Lemma open_data_file_default_depth :
  let raw := sample_header 4 1 0 0 0x1234 in
  (exists o' h' tr',
     open_sample big_endian (fs_depth 0) "uftrace.data"
     = (Ret (0, o', h'), tr')
     /\ endian (@hdr_of_raw big_endian raw) <> @get_elf_endian big_endian
     /\ needs_byte_swap h' = true
     /\ decode_native BigEndian (rev (field 32 2 raw)) = 0x1234
     /\ max_stack (hdr h') = 1024)
  /\ (exists o' h' tr',
        open_sample x86_64 (fs_depth 0) "uftrace.data"
        = (Ret (0, o', h'), tr')
        /\ endian (@hdr_of_raw x86_64 raw) = @get_elf_endian x86_64
        /\ needs_byte_swap h' = false
        /\ max_stack (@hdr_of_raw x86_64 raw) = 0x1234
        /\ max_stack (hdr h') = 1024).
Proof.
  intros raw. split.
  - eval_run (open_sample big_endian (fs_depth 0) "uftrace.data") E.
    match type of E with
    | _ = (Ret (_, ?o, ?h), ?t) => exists o, h, t
    end.
    split; [exact E|]. split; [vm_compute; discriminate|].
    repeat split; reflexivity.
  - eval_run (open_sample x86_64 (fs_depth 0) "uftrace.data") E.
    match type of E with
    | _ = (Ret (_, ?o, ?h), ?t) => exists o, h, t
    end.
    split; [exact E|]. repeat split; reflexivity.
Qed.

(** ** The run header: any producer, any host *)

Lemma le_bytes_cons (w : nat) (n : Z) :
  0 <= n ->
  exists b, le_bytes (S w) n = b :: le_bytes w (n / 256)
            /\ byte_val b = n mod 256.
Proof.
  intros Hn. cbn [le_bytes].
  pose proof (Z.mod_pos_bound n 256 ltac:(lia)) as Hm.
  destruct (Byte.of_N (Z.to_N (n mod 256))) as [b|] eqn:E.
  - exists b. split; [reflexivity|].
    unfold byte_val. apply Byte.to_of_N in E; rewrite E. lia.
  - apply Byte.of_N_None_iff in E. lia.
Qed.

Lemma le_bytes_length (w : nat) :
  forall n, 0 <= n -> List.length (le_bytes w n) = w.
Proof.
  induction w as [|w IH]; intros n Hn; [reflexivity|].
  destruct (le_bytes_cons w n Hn) as (b & -> & _).
  cbn [List.length]. rewrite IH; [reflexivity|]. apply Z.div_pos; lia.
Qed.

Lemma le_decode_le_bytes (w : nat) :
  forall n, 0 <= n < 256 ^ Z.of_nat w -> le_decode (le_bytes w n) = n.
Proof.
  induction w as [|w IH]; intros n Hn.
  - cbn in *. lia.
  - destruct (le_bytes_cons w n ltac:(lia)) as (b & -> & Hb).
    cbn [le_decode]. rewrite Hb, IH.
    + pose proof (Z.div_mod n 256 ltac:(lia)). lia.
    + rewrite Nat2Z.inj_succ, Z.pow_succ_r in Hn by lia.
      split; [apply Z.div_pos; lia|].
      apply Z.div_lt_upper_bound; lia.
Qed.

(** A field read in the order it was written in holds the value
    written; read in the other order, its bytes reversed hold it. *)
Lemma decode_encode_native (p q : byte_order) (w : nat) (v : Z) :
  0 <= v < 256 ^ Z.of_nat w ->
  decode_native q (if match p, q with
                      | LittleEndian, LittleEndian => true
                      | BigEndian, BigEndian => true
                      | _, _ => false
                      end
                   then encode_native p w v
                   else rev (encode_native p w v)) = v.
Proof.
  intros Hv. destruct p, q; cbn [decode_native encode_native];
    unfold be_decode; rewrite ?rev_involutive;
    apply le_decode_le_bytes; exact Hv.
Qed.

Section Producer.
Context {abi : Abi}.

(** X7: a header laid out by a producer of either byte order is read
    with the values the producer wrote, on a host of either byte order:
    the byte-swap flag is set exactly when the two orders differ, and
    the version, the two masks and the stack depth come out as
    written. *)
Theorem load_header_producer (p : byte_order) (raw : list byte)
    (ver feat inf depth : Z) :
  endian (hdr_of_raw raw) = elf_tag p ->
  0 <= ver < 2 ^ 32 -> 0 <= feat < 2 ^ 64 ->
  0 <= inf < 2 ^ 64 -> 0 <= depth < 2 ^ 16 ->
  field off_version 4 raw = encode_native p 4 ver ->
  field off_feat_mask 8 raw = encode_native p 8 feat ->
  field off_info_mask 8 raw = encode_native p 8 inf ->
  field off_max_stack 2 raw = encode_native p 2 depth ->
  exists byte_swap bit_swap h,
    load_header raw = (byte_swap, bit_swap, h)
    /\ (byte_swap = true <-> p <> host_order)
    /\ version h = ver /\ feat_mask h = feat
    /\ info_mask h = inf /\ max_stack h = depth.
Proof.
  intros Htag Hver Hfeat Hinf Hdepth Ev Ef Ei Ed.
  assert (Lv : List.length (encode_native p 4 ver) = 4%nat)
    by (destruct p; cbn [encode_native]; rewrite ?length_rev;
        apply le_bytes_length; lia).
  assert (Lf : List.length (encode_native p 8 feat) = 8%nat)
    by (destruct p; cbn [encode_native]; rewrite ?length_rev;
        apply le_bytes_length; lia).
  assert (Li : List.length (encode_native p 8 inf) = 8%nat)
    by (destruct p; cbn [encode_native]; rewrite ?length_rev;
        apply le_bytes_length; lia).
  assert (Ld : List.length (encode_native p 2 depth) = 2%nat)
    by (destruct p; cbn [encode_native]; rewrite ?length_rev;
        apply le_bytes_length; lia).
  pose proof (decode_encode_native p host_order 4 ver ltac:(cbn; lia)) as Dv.
  pose proof (decode_encode_native p host_order 8 feat ltac:(cbn; lia)) as Df.
  pose proof (decode_encode_native p host_order 8 inf ltac:(cbn; lia)) as Di.
  pose proof (decode_encode_native p host_order 2 depth ltac:(cbn; lia))
    as Dd.
  unfold load_header, check_data_order. rewrite Htag.
  unfold get_elf_endian.
  do 3 eexists. split; [reflexivity|].
  clear Htag. unfold hdr_of_raw.
  destruct p, host_order; cbv beta iota in Dv, Df, Di, Dd;
    cbn [elf_tag]; unfold ELFDATA2LSB, ELFDATA2MSB;
    cbn [Z.eqb Pos.eqb negb];
    cbn [swap_header version feat_mask info_mask max_stack];
    rewrite ?bswap_32_decode, ?bswap_64_decode, ?bswap_16_decode
      by congruence;
    rewrite Ev, Ef, Ei, Ed;
    (split; [|repeat split; assumption]);
    (split; intros H;
     first [discriminate H | discriminate | reflexivity
           | exfalso; apply H; reflexivity]).
Qed.

End Producer.

(** The header of the sample, written by a little-endian producer,
    read on the big-endian host. *)
Lemma load_header_producer_witness :
  let raw := sample_header 4 1 2 0 1024 in
  exists bit_swap h,
    @load_header big_endian raw = (true, bit_swap, h)
    /\ version h = 4 /\ feat_mask h = 2 /\ max_stack h = 1024.
Proof.
  intros raw.
  destruct (@load_header_producer big_endian LittleEndian raw 4 2 0 1024
              eq_refl ltac:(lia) ltac:(lia) ltac:(lia) ltac:(lia)
              eq_refl eq_refl eq_refl eq_refl)
    as (bs & bits & h & Hl & Hs & Hv & Hf & _ & Hd).
  assert (Hb : bs = true) by (apply Hs; discriminate).
  subst bs. exists bits, h. repeat split; assumption.
Defined.

(** ** read_task_file: a log of whole messages and what follows them *)

Section LegacyMessages.
Context {abi : Abi}.
Context {R P : Type} {reg : Registry R P}.

Variable dir : string.
Variables ns sr : bool.






End LegacyMessages.



(** ** open_data_file: the two task logs *)

Section TaskLogs.
Context {abi : Abi}.
Context {R P : Type} {reg : Registry R P}.
Context {X : Type} {col : Collaborators X}.



End TaskLogs.



(** ** read_task_file: what it does to the registry *)

Section LegacyFrame.
Context {abi : Abi}.
Context {R P : Type} {reg : Registry R P}.

Variable dir : string.
Variables ns sr : bool.

(** A property of the registry that creating a task keeps and, when
    sessions are read, creating a session of this directory keeps. *)
Variable inv : R -> Prop.
Hypothesis inv_task : forall r m f, inv r -> inv (create_task r m f ns).
Hypothesis inv_session :
  ns = true -> forall r m e, inv r -> inv (create_session r m dir e sr).

Lemma read_task_msg_inv (fd : list byte) (sess : R) (tr tr' : list event)
    (v : Z * R + list byte * R) :
  inv sess ->
  read_task_msg dir ns sr fd sess tr = (Ret v, tr') ->
  match v with
  | inl (_, s) => inv s
  | inr (_, s) => inv s
  end.
Proof.
  intros Hi. unfold read_task_msg, bind, pr_log, emit, ret, lift.
  repeat match goal with
         | |- context [match read_all ?a ?b with _ => _ end] =>
             destruct (read_all a b) as [[? ?]|]
         | |- context [if negb ?c then _ else _] => destruct c; cbn [negb]
         | |- context [if ?c =? ?d then _ else _] => destruct (c =? d)
         | |- context [if ?a && ?b then _ else _] => destruct (a && b)
         end;
    intros E; try discriminate E; injection E as <- _;
    try exact Hi; try (apply inv_task; exact Hi);
    destruct ns; try exact Hi;
    (apply inv_session; [reflexivity | exact Hi]).
Qed.

Lemma read_task_loop_inv (fuel : nat) :
  forall (fd : list byte) (sess : R) (tr tr' : list event) (rc : Z)
         (sess' : R),
    inv sess ->
    read_task_loop fuel dir ns sr fd sess tr = (Ret (rc, sess'), tr') ->
    inv sess'.
Proof.
  induction fuel as [|fuel IH]; intros fd sess tr tr' rc sess' Hi Hrun;
    [discriminate Hrun|].
  cbn [read_task_loop] in Hrun. unfold bind in Hrun.
  destruct (read_task_msg dir ns sr fd sess tr) as [[v| | | |] tr1] eqn:E;
    try discriminate Hrun.
  pose proof (read_task_msg_inv fd sess tr tr1 v Hi E) as Hv.
  destruct v as [[rc1 s1]|[fd1 s1]].
  - unfold ret in Hrun. injection Hrun as _ <- _. exact Hv.
  - exact (IH fd1 s1 tr1 tr' rc sess' Hv Hrun).
Qed.

(** X9: the legacy reader returns 0 or -1, unless it stores the name
    of a session past the end of its buffer of 1024 bytes; and all it
    does to the registry is to create tasks, with the [needs_session] it
    was given, and, when sessions are asked for, sessions of the
    directory and the address mode it was given: whatever creating them
    keeps true of the registry is true of it when the reader returns,
    with 0 as with -1.  When sessions are not asked for, no session is
    created. *)
Theorem read_task_file_frame (fs : filesys) (sess : R) (tr : list event) :
  msg_layout_ok ->
  inv sess ->
  exists r tr',
    read_task_file fs sess dir ns sr tr = (r, tr')
    /\ (r = Undefined
        \/ exists rc sess',
             r = Ret (rc, sess') /\ (rc = 0 \/ rc = -1) /\ inv sess').
Proof.
  intros Hok Hi.
  destruct (read_task_file_returns fs sess dir ns sr tr Hok)
    as (r & tr' & Hrun & [-> | (rc & sess' & -> & Hrc)]).
  - exists Undefined, tr'. split; [exact Hrun | left; reflexivity].
  - exists (Ret (rc, sess')), tr'. split; [exact Hrun|]. right.
    exists rc, sess'. split; [reflexivity|]. split; [exact Hrc|].
    unfold read_task_file, bind, fopen in Hrun.
    destruct (open_read fs (dir ++ "/task")) as [fd|e].
    + exact (read_task_loop_inv _ _ _ _ _ _ _ Hi Hrun).
    + unfold ret in Hrun. injection Hrun as _ <- _. exact Hi.
Qed.

End LegacyFrame.

(** Without sessions asked for, the session message and the task
    message of the sample leave the sessions of the registry alone. *)
Lemma read_task_file_frame_witness :
  let log := sample_envelope 6 ++ sample_smsg 0 5 "0123456789abcdef" 0
             ++ sample_tid_msg in
  let fs := files [("d/task"%string, log)] in
  exists r tr',
    @read_task_file x86_64 _ _ list_registry fs sessions_init "d" false
      false [] = (r, tr')
    /\ (r = Undefined
        \/ exists rc sess',
             r = Ret (rc, sess') /\ (rc = 0 \/ rc = -1)
             /\ root sess' = []).
Proof.
  intros log fs.
  exact (@read_task_file_frame x86_64 _ _ list_registry "d" false false
           (fun r => root r = [])
           (fun r m f H => H)
           (fun E : false = true => ltac:(discriminate E))
           fs sessions_init [] x86_64_msg_layout_ok eq_refl).
Defined.

(** ** Hexadecimal items, words and quoted names *)

Lemma hex_val_char (d : Z) : 0 <= d < 16 -> hex_val (hex_char d) = Some d.
Proof.
  intros H.
  assert (d = 0 \/ d = 1 \/ d = 2 \/ d = 3 \/ d = 4 \/ d = 5 \/ d = 6
          \/ d = 7 \/ d = 8 \/ d = 9 \/ d = 10 \/ d = 11 \/ d = 12
          \/ d = 13 \/ d = 14 \/ d = 15)
    as [-> | [-> | [-> | [-> | [-> | [-> | [-> | [-> | [-> | [-> | [->
       | [-> | [-> | [-> | [-> | ->]]]]]]]]]]]]]]]
    by lia; reflexivity.
Qed.

(** A hexadecimal digit is no NUL, no newline, no white space, no sign,
    no [x] and no [n]. *)
Lemma hex_val_plain (c : byte) :
  hex_val c <> None ->
  Byte.eqb c NUL = false /\ Byte.eqb c NL = false /\ is_space c = false
  /\ Byte.eqb c "-" = false /\ Byte.eqb c "+" = false
  /\ Byte.eqb c "x" = false /\ Byte.eqb c "X" = false
  /\ Byte.eqb c "n" = false.
Proof.
  destruct c; cbv; intros H; try (exfalso; apply H; reflexivity);
    repeat split.
Qed.

Lemma is_digit_hex (c : byte) : is_digit c = true -> hex_val c <> None.
Proof. destruct c; cbv; intros H; discriminate. Qed.

Lemma hex_digits_hex (fuel : nat) :
  forall n acc,
    0 <= n ->
    Forall (fun c => hex_val c <> None) acc ->
    Forall (fun c => hex_val c <> None) (hex_digits fuel n acc).
Proof.
  induction fuel as [|fuel IH]; intros n acc Hn Hacc; cbn [hex_digits].
  - exact Hacc.
  - pose proof (Z.mod_pos_bound n 16 ltac:(lia)) as Hm.
    assert (Hc : Forall (fun c => hex_val c <> None)
                   (hex_char (n mod 16) :: acc)).
    { constructor; [|exact Hacc]. rewrite hex_val_char by lia.
      discriminate. }
    destruct (n / 16 =? 0); [exact Hc|].
    apply IH; [apply Z.div_pos; lia | exact Hc].
Qed.

Lemma hex_digits_nonempty (fuel : nat) :
  forall n acc, hex_digits (S fuel) n acc <> [].
Proof.
  induction fuel as [|fuel IH]; intros n acc.
  - cbn. destruct (n / 16 =? 0); discriminate.
  - cbn [hex_digits]. destruct (n / 16 =? 0); [discriminate|]. apply IH.
Qed.

Lemma scan_hex_digits (fuel : nat) :
  forall n acc rest,
    0 <= n < 16 ^ Z.of_nat fuel ->
    scan_digits hex_val 16 0 (hex_digits fuel n acc ++ rest)
    = scan_digits hex_val 16 n (acc ++ rest).
Proof.
  induction fuel as [|fuel IH]; intros n acc rest Hn.
  - cbn [hex_digits]. change (16 ^ Z.of_nat 0) with 1 in Hn.
    replace n with 0 by lia. reflexivity.
  - cbn [hex_digits].
    assert (Hpow : 16 ^ Z.of_nat (S fuel) = 16 * 16 ^ Z.of_nat fuel).
    { rewrite Nat2Z.inj_succ, Z.pow_succ_r by lia. reflexivity. }
    pose proof (Z.div_mod n 16 ltac:(lia)) as Hdm.
    pose proof (Z.mod_pos_bound n 16 ltac:(lia)) as Hmod.
    destruct (Z.eqb_spec (n / 16) 0) as [E|E].
    + cbn [app scan_digits]. rewrite hex_val_char by lia.
      f_equal. lia.
    + rewrite IH.
      * cbn [app scan_digits]. rewrite hex_val_char by lia.
        f_equal. lia.
      * assert (0 <= n / 16) by (apply Z.div_pos; lia).
        split; [assumption|].
        apply Z.div_lt_upper_bound; lia.
Qed.

Lemma print_lx_item (n : Z) :
  0 <= n ->
  print_lx n <> [] /\ Forall (fun c => hex_val c <> None) (print_lx n).
Proof.
  intros Hn. split.
  - apply hex_digits_nonempty.
  - apply hex_digits_hex; [exact Hn | constructor].
Qed.

(** [%lx] reads back what [%lx] printed. *)
Lemma sscanf_lx_print (n : Z) (rest : list byte) (fmt : list directive) :
  0 <= n < 2 ^ 64 -> no_hex_head rest ->
  sscanf (print_lx n ++ rest) (d_conv cv_lx :: fmt)
  = v_num n :: sscanf rest fmt.
Proof.
  intros Hn Hr. cbn [sscanf].
  assert (Hscan : scan_digits hex_val 16 0 (print_lx n ++ rest) = (n, rest)).
  { unfold print_lx. rewrite scan_hex_digits
      by (change (16 ^ Z.of_nat 16) with (2 ^ 64); lia).
    cbn [app]. destruct rest as [|c t]; [reflexivity|].
    cbn [no_hex_head] in Hr. destruct Hr as (Hc & _).
    cbn [scan_digits]. rewrite Hc. reflexivity. }
  destruct (print_lx_item n ltac:(lia)) as [Hne Hd].
  destruct (print_lx n) as [|c t] eqn:E; [contradiction|].
  inversion Hd as [|? ? Hc Ht]; subst.
  destruct (hex_val_plain c Hc) as (_ & _ & Hsp & Hm & Hp & _).
  cbn [app skip_space] in *. rewrite Hsp.
  unfold scan_hex, scan_sign. rewrite Hm, Hp.
  assert (Hx : skip_0x (c :: t ++ rest) = c :: t ++ rest).
  { unfold skip_0x. destruct (t ++ rest) as [|b u] eqn:Et; [reflexivity|].
    assert (Hb : Byte.eqb b "x" = false /\ Byte.eqb b "X" = false).
    { destruct t as [|b' t'].
      - cbn [app] in Et. subst rest. cbn [no_hex_head] in Hr. tauto.
      - cbn [app] in Et. injection Et as -> _.
        inversion Ht as [|? ? Hb' _]; subst.
        destruct (hex_val_plain b Hb') as (_ & _ & _ & _ & _ & H1 & H2 & _).
        split; assumption. }
    destruct Hb as [-> ->]. rewrite andb_false_r. reflexivity. }
  rewrite Hx. destruct (hex_val c) eqn:Ec; [|contradiction].
  rewrite Hscan. unfold strtoul_val, ULONG_MAX.
  destruct (Z.ltb_spec (2 ^ 64 - 1) n); [lia|reflexivity].
Qed.

(** [%s] reads a word up to the white space that follows it. *)
Lemma span_word_app (w rest : list byte) :
  Forall (fun c => is_space c = false) w ->
  span_word (w ++ " "%byte :: rest) = (w, " "%byte :: rest).
Proof.
  induction 1 as [|c t Hc _ IH]; [reflexivity|].
  cbn [app span_word]. rewrite Hc, IH. reflexivity.
Qed.

Lemma sscanf_s_word (w rest : list byte) (fmt : list directive) :
  w <> [] -> Forall (fun c => is_space c = false) w ->
  sscanf (w ++ " "%byte :: rest) (d_conv cv_s :: fmt)
  = v_str w :: sscanf (" "%byte :: rest) fmt.
Proof.
  intros Hne Hw. cbn [sscanf].
  assert (Hs : skip_space (w ++ " "%byte :: rest) = w ++ " "%byte :: rest).
  { destruct w as [|c t]; [contradiction|].
    inversion Hw as [|? ? Hc _]; subst. cbn [app skip_space].
    rewrite Hc. reflexivity. }
  rewrite Hs, span_word_app by exact Hw.
  destruct w; [contradiction|reflexivity].
Qed.

(** [strstr] passes over a text in which the needle cannot start: one
    that lacks, [k] bytes further on, the [k]-th byte of the needle. *)
Lemma is_prefix_nth (p s : list byte) :
  is_prefix p s = true ->
  forall k c, nth_error p k = Some c -> nth_error s k = Some c.
Proof.
  revert s. induction p as [|a p IH]; intros s H k c Hk.
  - destruct k; discriminate Hk.
  - destruct s as [|b s]; [discriminate H|]. cbn [is_prefix] in H.
    apply andb_prop in H. destruct H as [Hab H].
    apply Byte.byte_dec_bl in Hab. subst b.
    destruct k as [|k]; [exact Hk|]. cbn [nth_error] in *.
    exact (IH s H k c Hk).
Qed.

Lemma strstr_skip (needle : list byte) (k : nat) (c : byte) :
  nth_error needle k = Some c ->
  forall a b,
    Forall (fun x => Byte.eqb x c = false) (a ++ firstn k b) ->
    strstr (a ++ b) needle = strstr b needle.
Proof.
  intros Hk a. induction a as [|x a IH]; intros b Hall; [reflexivity|].
  cbn [app]. cbn [app] in Hall. inversion Hall as [|? ? Hx Hrest]; subst.
  assert (Hp : is_prefix needle (x :: a ++ b) = false).
  { destruct (is_prefix needle (x :: a ++ b)) eqn:E; [|reflexivity].
    pose proof (is_prefix_nth _ _ E k c Hk) as Hn.
    assert (Hin : In c (x :: a ++ firstn k b)).
    { change (x :: a ++ b) with ((x :: a) ++ b) in Hn.
      change (x :: a ++ firstn k b) with ((x :: a) ++ firstn k b).
      destruct (Nat.ltb_spec k (List.length (x :: a))) as [Hlt|Hge].
      - rewrite nth_error_app1 in Hn by exact Hlt.
        apply in_or_app. left. exact (nth_error_In _ _ Hn).
      - rewrite nth_error_app2 in Hn by exact Hge.
        apply in_or_app. right.
        apply (nth_error_In _ (k - List.length (x :: a))).
        rewrite nth_error_firstn.
        destruct (Nat.ltb_spec (k - List.length (x :: a)) k);
          [exact Hn|]. cbn [List.length] in *. lia. }
    rewrite Forall_forall in Hall. specialize (Hall c Hin).
    rewrite (Byte.byte_dec_lb eq_refl) in Hall. discriminate Hall. }
  destruct needle as [|n0 needle']; [destruct k; discriminate Hk|].
  change (strstr (x :: a ++ b) (n0 :: needle'))
    with (if is_prefix (n0 :: needle') (x :: a ++ b)
          then Some (x :: a ++ b)
          else strstr (a ++ b) (n0 :: needle')).
  rewrite Hp. apply IH. exact Hrest.
Qed.

(** [strrchr] finds the quote that closes a name, whatever the name
    holds. *)
Lemma cut_at_last_closing (name : list byte) :
  cut_at_last QUOTE (name ++ [QUOTE; NL]) = Some name.
Proof.
  induction name as [|c t IH]; [reflexivity|].
  cbn [app cut_at_last]. rewrite IH. reflexivity.
Qed.

(** ** The lines of the four writers, read back *)

Lemma cstr_id (a : list byte) : line_body a -> cstr a = a.
Proof.
  intros H. rewrite <- (app_nil_r a) at 1. rewrite cstr_body by exact H.
  apply app_nil_r.
Qed.

Lemma hex_body (s : list byte) :
  Forall (fun c => hex_val c <> None) s -> line_body s.
Proof.
  intros H. eapply Forall_impl; [|exact H].
  intros c Hc. destruct (hex_val_plain c Hc) as (H1 & H2 & _).
  split; assumption.
Qed.

Lemma hex_word (s : list byte) :
  Forall (fun c => hex_val c <> None) s ->
  Forall (fun c => is_space c = false) s.
Proof.
  intros H. eapply Forall_impl; [|exact H].
  intros c Hc. destruct (hex_val_plain c Hc) as (_ & _ & H3 & _). exact H3.
Qed.

Lemma no_n_bytes (s : string) :
  forallb (fun c => negb (Byte.eqb c "n")) (bytes s) = true ->
  no_n (bytes s).
Proof.
  intros H. apply Forall_forall. intros c Hc.
  rewrite forallb_forall in H. specialize (H c Hc).
  destruct (Byte.eqb c "n"); [discriminate H | reflexivity].
Qed.

Lemma no_n_digits (ds : list byte) :
  Forall (fun c => is_digit c = true) ds -> no_n ds.
Proof.
  intros H. eapply Forall_impl; [|exact H].
  intros c Hc. apply is_digit_hex in Hc.
  destruct (hex_val_plain c Hc) as (_ & _ & _ & _ & _ & _ & _ & Hn).
  exact Hn.
Qed.

Lemma no_n_hex (s : list byte) :
  Forall (fun c => hex_val c <> None) s -> no_n s.
Proof.
  intros H. eapply Forall_impl; [|exact H].
  intros c Hc.
  destruct (hex_val_plain c Hc) as (_ & _ & _ & _ & _ & _ & _ & Hn).
  exact Hn.
Qed.

Lemma no_n_print_d (v : Z) : no_n (print_d v).
Proof.
  unfold print_d. destruct (v <? 0).
  - constructor; [reflexivity|]. apply no_n_digits, print_lu_item.
  - apply no_n_digits, print_lu_item.
Qed.

Lemma no_n_timestamp (t : Z) : no_n (snprint_timestamp 128 t).
Proof.
  rewrite snprint_timestamp_full.
  apply Forall_app; split; [apply no_n_digits, print_lu_item|].
  apply Forall_app; split; [apply no_n_bytes; reflexivity|].
  apply no_n_digits, print_09lu_item.
Qed.

Lemma timestamp_body (t : Z) : line_body (snprint_timestamp 128 t).
Proof.
  rewrite snprint_timestamp_full.
  apply Forall_app; split; [apply digits_body, print_lu_item|].
  apply Forall_app; split; [apply bytes_body; reflexivity|].
  apply digits_body, print_09lu_item.
Qed.

(** The two conversions of a timestamp. *)
Lemma sscanf_timestamp (t : Z) (rest : list byte) (fmt : list directive) :
  0 <= t < 2 ^ 64 -> no_digit_head rest ->
  sscanf (bytes "timestamp=" ++ snprint_timestamp 128 t ++ rest)
    (map d_lit (bytes "timestamp=")
     ++ d_conv cv_lu :: d_lit "." :: d_conv cv_lu :: fmt)
  = v_num (t / NSEC_PER_SEC) :: v_num (t mod NSEC_PER_SEC)
    :: sscanf rest fmt.
Proof.
  intros Ht Hr. rewrite snprint_timestamp_full.
  set (s := t / NSEC_PER_SEC). set (ns := t mod NSEC_PER_SEC).
  assert (Hs : 0 <= s < 2 ^ 64).
  { subst s. unfold NSEC_PER_SEC. split.
    - apply Z.div_pos; lia.
    - apply Z.div_lt_upper_bound; lia. }
  assert (Hns : 0 <= ns < 2 ^ 64).
  { subst ns. pose proof (Z.mod_pos_bound t NSEC_PER_SEC
                            ltac:(unfold NSEC_PER_SEC; lia)).
    unfold NSEC_PER_SEC in *. lia. }
  rewrite sscanf_lits. rewrite <- !app_assoc.
  destruct (print_lu_item s) as [Hne Hd].
  rewrite (sscanf_lu_digits (print_lu s) _ s)
    by first [assumption | apply print_lu_scan; [assumption|reflexivity]].
  f_equal.
  change (bytes "." ++ ?x) with ("."%byte :: x).
  rewrite sscanf_lit.
  destruct (print_09lu_item ns) as [Hne' Hd'].
  rewrite (sscanf_lu_digits (print_09lu ns) _ ns)
    by first [assumption | apply print_09lu_scan; assumption].
  reflexivity.
Qed.

(** The conversions of the scans of the lines of a fork, of a session
    and of a library. *)
Lemma sscanf_fork_line (m : ftrace_msg_task) :
  task_ok m ->
  sscanf (skipn 5 (fork_line m)) fmt_fork
  = [v_num (time m / NSEC_PER_SEC); v_num (time m mod NSEC_PER_SEC);
     v_num (tid m); v_num (pid m)].
Proof.
  intros (Ht & Hi & Hp). unfold fork_line.
  change (skipn 5 (bytes "FORK timestamp=" ++ ?x))
    with (bytes "timestamp=" ++ x).
  change fmt_fork
    with (map d_lit (bytes "timestamp=")
          ++ d_conv cv_lu :: d_lit "." :: d_conv cv_lu :: d_space
             :: map d_lit (bytes "pid=")
          ++ d_conv cv_d :: d_space :: map d_lit (bytes "ppid=")
          ++ [d_conv cv_d]).
  rewrite sscanf_timestamp by first [exact Ht | reflexivity].
  do 2 f_equal.
  rewrite sscanf_space.
  change (skip_space (bytes " pid=" ++ ?x)) with (bytes "pid=" ++ x).
  rewrite sscanf_lits.
  rewrite sscanf_d_print by first [assumption | reflexivity].
  f_equal.
  rewrite sscanf_space.
  change (skip_space (bytes " ppid=" ++ ?x)) with (bytes "ppid=" ++ x).
  rewrite sscanf_lits.
  rewrite sscanf_d_print by first [assumption | reflexivity].
  reflexivity.
Qed.

(** The line of a session, with the strings it prints written out. *)
Lemma sess_line_text (m : ftrace_msg_sess) (e : list byte) :
  sid_ok (sid m) -> line_body e ->
  sess_line m e
  = bytes "SESS timestamp="
    ++ snprint_timestamp 128 (time (sess_task m))
    ++ bytes " pid=" ++ print_d (pid (sess_task m))
    ++ bytes " sid=" ++ sid m
    ++ bytes " exename=" ++ [QUOTE] ++ e ++ [QUOTE; NL].
Proof.
  intros [_ Hsid] He. unfold sess_line, print_s.
  rewrite (cstr_id (sid m)) by (apply hex_body; exact Hsid).
  rewrite (cstr_id e) by exact He. reflexivity.
Qed.

Lemma dlop_line_text (m : ftrace_msg_dlopen) (l : list byte) :
  sid_ok (dlop_sid m) -> line_body l ->
  dlop_line m l
  = bytes "DLOP timestamp="
    ++ snprint_timestamp 128 (time (dlop_task m))
    ++ bytes " tid=" ++ print_d (tid (dlop_task m))
    ++ bytes " sid=" ++ dlop_sid m
    ++ bytes " base=" ++ print_lx (base_addr m)
    ++ bytes " libname=" ++ [QUOTE] ++ l ++ [QUOTE; NL].
Proof.
  intros [_ Hsid] Hl. unfold dlop_line, print_s.
  rewrite (cstr_id (dlop_sid m)) by (apply hex_body; exact Hsid).
  rewrite (cstr_id l) by exact Hl. reflexivity.
Qed.

Lemma sscanf_sess_line (m : ftrace_msg_sess) (e : list byte) :
  is_u64 (time (sess_task m)) -> is_int (pid (sess_task m)) ->
  sid_ok (sid m) -> line_body e ->
  sscanf (skipn 5 (sess_line m e)) fmt_sess
  = [v_num (time (sess_task m) / NSEC_PER_SEC);
     v_num (time (sess_task m) mod NSEC_PER_SEC);
     v_num (pid (sess_task m)); v_str (sid m)].
Proof.
  intros Ht Hp Hsid He. rewrite sess_line_text by assumption.
  destruct Hsid as [Hne Hhex].
  change (skipn 5 (bytes "SESS timestamp=" ++ ?x))
    with (bytes "timestamp=" ++ x).
  change fmt_sess
    with (map d_lit (bytes "timestamp=")
          ++ d_conv cv_lu :: d_lit "." :: d_conv cv_lu :: d_space
             :: d_conv (cv_skip_not "i") :: map d_lit (bytes "id=")
          ++ d_conv cv_d :: d_space :: map d_lit (bytes "sid=")
          ++ [d_conv cv_s]).
  rewrite sscanf_timestamp by first [exact Ht | reflexivity].
  do 2 f_equal.
  rewrite sscanf_space.
  change (skip_space (bytes " pid=" ++ ?x)) with (bytes "pid=" ++ x).
  change (sscanf (bytes "pid=" ++ ?x) (d_conv (cv_skip_not "i") :: ?f))
    with (sscanf (bytes "id=" ++ x) f).
  rewrite sscanf_lits.
  rewrite sscanf_d_print by first [assumption | reflexivity].
  f_equal.
  rewrite sscanf_space.
  change (skip_space (bytes " sid=" ++ ?x)) with (bytes "sid=" ++ x).
  rewrite sscanf_lits.
  change (bytes " exename=" ++ ?x) with (" "%byte :: bytes "exename=" ++ x).
  rewrite sscanf_s_word by first [exact Hne | apply hex_word; exact Hhex].
  reflexivity.
Qed.

Lemma sscanf_dlop_line (m : ftrace_msg_dlopen) (l : list byte) :
  is_u64 (time (dlop_task m)) -> is_int (tid (dlop_task m)) ->
  sid_ok (dlop_sid m) -> is_u64 (base_addr m) -> line_body l ->
  sscanf (skipn 5 (dlop_line m l)) fmt_dlop
  = [v_num (time (dlop_task m) / NSEC_PER_SEC);
     v_num (time (dlop_task m) mod NSEC_PER_SEC);
     v_num (tid (dlop_task m)); v_str (dlop_sid m);
     v_num (base_addr m)].
Proof.
  intros Ht Hp Hsid Hb Hl. rewrite dlop_line_text by assumption.
  destruct Hsid as [Hne Hhex].
  change (skipn 5 (bytes "DLOP timestamp=" ++ ?x))
    with (bytes "timestamp=" ++ x).
  change fmt_dlop
    with (map d_lit (bytes "timestamp=")
          ++ d_conv cv_lu :: d_lit "." :: d_conv cv_lu :: d_space
             :: map d_lit (bytes "tid=")
          ++ d_conv cv_d :: d_space :: map d_lit (bytes "sid=")
          ++ d_conv cv_s :: d_space :: map d_lit (bytes "base=")
          ++ [d_conv cv_lx]).
  rewrite sscanf_timestamp by first [exact Ht | reflexivity].
  do 2 f_equal.
  rewrite sscanf_space.
  change (skip_space (bytes " tid=" ++ ?x)) with (bytes "tid=" ++ x).
  rewrite sscanf_lits.
  rewrite sscanf_d_print by first [assumption | reflexivity].
  f_equal.
  rewrite sscanf_space.
  change (skip_space (bytes " sid=" ++ ?x)) with (bytes "sid=" ++ x).
  rewrite sscanf_lits.
  change (bytes " base=" ++ ?x) with (" "%byte :: bytes "base=" ++ x).
  rewrite sscanf_s_word by first [exact Hne | apply hex_word; exact Hhex].
  f_equal.
  rewrite sscanf_space.
  change (skip_space (" "%byte :: bytes "base=" ++ ?x))
    with (bytes "base=" ++ x).
  rewrite sscanf_lits.
  rewrite sscanf_lx_print by first [exact Hb | repeat split].
  reflexivity.
Qed.

(** ** The turns of the text reader on the lines of the writers *)

Lemma fork_line_body (m : ftrace_msg_task) :
  exists body, fork_line m = body ++ [NL] /\ line_body body.
Proof.
  exists (bytes "FORK timestamp=" ++ snprint_timestamp 128 (time m)
          ++ bytes " pid=" ++ print_d (tid m) ++ bytes " ppid="
          ++ print_d (pid m)).
  split.
  - unfold fork_line. rewrite <- !app_assoc. reflexivity.
  - apply Forall_app; split; [apply bytes_body; reflexivity|].
    apply Forall_app; split; [apply timestamp_body|].
    apply Forall_app; split; [apply bytes_body; reflexivity|].
    apply Forall_app; split; [apply print_d_body|].
    apply Forall_app; split; [apply bytes_body; reflexivity|].
    apply print_d_body.
Qed.

Lemma sess_line_body (m : ftrace_msg_sess) (e : list byte) :
  sid_ok (sid m) -> line_body e ->
  exists body, sess_line m e = body ++ [NL] /\ line_body body.
Proof.
  intros Hsid He.
  exists (bytes "SESS timestamp="
          ++ snprint_timestamp 128 (time (sess_task m))
          ++ bytes " pid=" ++ print_d (pid (sess_task m))
          ++ bytes " sid=" ++ sid m
          ++ bytes " exename=" ++ [QUOTE] ++ e ++ [QUOTE]).
  split.
  - rewrite sess_line_text by assumption. rewrite <- !app_assoc.
    reflexivity.
  - destruct Hsid as [_ Hhex].
    apply Forall_app; split; [apply bytes_body; reflexivity|].
    apply Forall_app; split; [apply timestamp_body|].
    apply Forall_app; split; [apply bytes_body; reflexivity|].
    apply Forall_app; split; [apply print_d_body|].
    apply Forall_app; split; [apply bytes_body; reflexivity|].
    apply Forall_app; split; [apply hex_body; exact Hhex|].
    apply Forall_app; split; [apply bytes_body; reflexivity|].
    apply Forall_app; split; [repeat constructor|].
    apply Forall_app; split; [exact He | repeat constructor].
Qed.

Lemma dlop_line_body (m : ftrace_msg_dlopen) (l : list byte) :
  sid_ok (dlop_sid m) -> is_u64 (base_addr m) -> line_body l ->
  exists body, dlop_line m l = body ++ [NL] /\ line_body body.
Proof.
  intros Hsid Hb Hl.
  exists (bytes "DLOP timestamp="
          ++ snprint_timestamp 128 (time (dlop_task m))
          ++ bytes " tid=" ++ print_d (tid (dlop_task m))
          ++ bytes " sid=" ++ dlop_sid m
          ++ bytes " base=" ++ print_lx (base_addr m)
          ++ bytes " libname=" ++ [QUOTE] ++ l ++ [QUOTE]).
  split.
  - rewrite dlop_line_text by assumption. rewrite <- !app_assoc.
    reflexivity.
  - destruct Hsid as [_ Hhex]. destruct Hb as [Hb _].
    apply Forall_app; split; [apply bytes_body; reflexivity|].
    apply Forall_app; split; [apply timestamp_body|].
    apply Forall_app; split; [apply bytes_body; reflexivity|].
    apply Forall_app; split; [apply print_d_body|].
    apply Forall_app; split; [apply bytes_body; reflexivity|].
    apply Forall_app; split; [apply hex_body; exact Hhex|].
    apply Forall_app; split; [apply bytes_body; reflexivity|].
    apply Forall_app; split; [apply hex_body, print_lx_item; exact Hb|].
    apply Forall_app; split; [apply bytes_body; reflexivity|].
    apply Forall_app; split; [repeat constructor|].
    apply Forall_app; split; [exact Hl | repeat constructor].
Qed.

(** The line of a record is a body and its newline. *)
Lemma info_line_body (r : info_record) :
  info_ok r -> exists body, info_line r = body ++ [NL] /\ line_body body.
Proof.
  destruct r as [m|m|m e|m l]; cbn [info_ok info_line].
  - intros _. apply task_line_body.
  - intros _. apply fork_line_body.
  - intros (_ & _ & Hsid & He). apply sess_line_body; assumption.
  - intros (_ & _ & Hsid & Hb & Hl). apply dlop_line_body; assumption.
Qed.

Lemma info_line_cstr (r : info_record) :
  info_ok r -> cstr (info_line r) = info_line r.
Proof.
  intros Hok. destruct (info_line_body r Hok) as (body & -> & Hb).
  rewrite cstr_body by exact Hb. reflexivity.
Qed.

(** [strstr] finds the name of a session line and of a library line
    where the writer put it. *)
Lemma strstr_sess_line (m : ftrace_msg_sess) (e : list byte) :
  sid_ok (sid m) -> line_body e ->
  strstr (sess_line m e) (bytes "exename=")
  = Some (bytes "exename=" ++ [QUOTE] ++ e ++ [QUOTE; NL]).
Proof.
  intros Hsid He. rewrite sess_line_text by assumption.
  destruct Hsid as [_ Hhex].
  set (b := bytes " exename=" ++ [QUOTE] ++ e ++ [QUOTE; NL]).
  replace (bytes "SESS timestamp="
           ++ snprint_timestamp 128 (time (sess_task m))
           ++ bytes " pid=" ++ print_d (pid (sess_task m))
           ++ bytes " sid=" ++ sid m ++ b)
    with ((bytes "SESS timestamp="
           ++ snprint_timestamp 128 (time (sess_task m))
           ++ bytes " pid=" ++ print_d (pid (sess_task m))
           ++ bytes " sid=" ++ sid m) ++ b)
    by (rewrite <- !app_assoc; reflexivity).
  rewrite (strstr_skip (bytes "exename=") 3 "n" eq_refl); [reflexivity|].
  rewrite <- !app_assoc.
  apply Forall_app; split; [apply no_n_bytes; reflexivity|].
  apply Forall_app; split; [apply no_n_timestamp|].
  apply Forall_app; split; [apply no_n_bytes; reflexivity|].
  apply Forall_app; split; [apply no_n_print_d|].
  apply Forall_app; split; [apply no_n_bytes; reflexivity|].
  apply Forall_app; split; [apply no_n_hex; exact Hhex|].
  repeat constructor.
Qed.

Lemma strstr_dlop_line (m : ftrace_msg_dlopen) (l : list byte) :
  sid_ok (dlop_sid m) -> is_u64 (base_addr m) -> line_body l ->
  strstr (dlop_line m l) (bytes "libname=")
  = Some (bytes "libname=" ++ [QUOTE] ++ l ++ [QUOTE; NL]).
Proof.
  intros Hsid Hb Hl. rewrite dlop_line_text by assumption.
  destruct Hsid as [_ Hhex]. destruct Hb as [Hb _].
  set (b := bytes " libname=" ++ [QUOTE] ++ l ++ [QUOTE; NL]).
  replace (bytes "DLOP timestamp="
           ++ snprint_timestamp 128 (time (dlop_task m))
           ++ bytes " tid=" ++ print_d (tid (dlop_task m))
           ++ bytes " sid=" ++ dlop_sid m
           ++ bytes " base=" ++ print_lx (base_addr m) ++ b)
    with ((bytes "DLOP timestamp="
           ++ snprint_timestamp 128 (time (dlop_task m))
           ++ bytes " tid=" ++ print_d (tid (dlop_task m))
           ++ bytes " sid=" ++ dlop_sid m
           ++ bytes " base=" ++ print_lx (base_addr m)) ++ b)
    by (rewrite <- !app_assoc; reflexivity).
  rewrite (strstr_skip (bytes "libname=") 3 "n" eq_refl); [reflexivity|].
  rewrite <- !app_assoc.
  apply Forall_app; split; [apply no_n_bytes; reflexivity|].
  apply Forall_app; split; [apply no_n_timestamp|].
  apply Forall_app; split; [apply no_n_bytes; reflexivity|].
  apply Forall_app; split; [apply no_n_print_d|].
  apply Forall_app; split; [apply no_n_bytes; reflexivity|].
  apply Forall_app; split; [apply no_n_hex; exact Hhex|].
  apply Forall_app; split; [apply no_n_bytes; reflexivity|].
  apply Forall_app; split; [apply no_n_hex, print_lx_item; exact Hb|].
  repeat constructor.
Qed.

Section ReadBack.
Context {R P : Type} {reg : Registry R P}.

Variable dir : string.
Variables ns sr : bool.

(** A turn of the loop on the line of a record: what the record adds
    to the registry, or the failed assertion. *)
Lemma read_task_txt_line_info (r : info_record) (sess : R)
    (lv : txt_locals) :
  info_ok r ->
  match info_apply dir ns sr sess r with
  | Some sess' =>
      exists lv',
        read_task_txt_line dir ns sr (info_line r) sess lv
        = Ret (sess', lv')
  | None => read_task_txt_line dir ns sr (info_line r) sess lv = Abort
  end.
Proof.
  intros Hok. unfold read_task_txt_line.
  rewrite (info_line_cstr r Hok).
  destruct r as [m|m|m e|m l]; cbn [info_ok info_line info_apply] in *.
  - destruct Hok as (Ht & Hi & Hp).
    assert (Hk : strncmp_eq (task_line m) (bytes "TASK") 4 = true)
      by reflexivity.
    rewrite Hk. unfold scan_task.
    rewrite (sscanf_task_line m Ht Hi Hp).
    cbn [stored_num nth_error tmsg].
    rewrite compose_time_div_mod by exact Ht.
    destruct m as [t p i]. cbn [time pid tid]. eexists. reflexivity.
  - assert (Hk : strncmp_eq (fork_line m) (bytes "TASK") 4 = false)
      by reflexivity.
    assert (Hf : strncmp_eq (fork_line m) (bytes "FORK") 4 = true)
      by reflexivity.
    rewrite Hk, Hf. unfold scan_task.
    rewrite (sscanf_fork_line m Hok). destruct Hok as (Ht & _).
    cbn [stored_num nth_error tmsg].
    rewrite compose_time_div_mod by exact Ht.
    destruct m as [t p i]. cbn [time pid tid]. eexists. reflexivity.
  - destruct Hok as (Ht & Hp & Hsid & He).
    assert (Hk : strncmp_eq (sess_line m e) (bytes "TASK") 4 = false)
      by reflexivity.
    assert (Hf : strncmp_eq (sess_line m e) (bytes "FORK") 4 = false)
      by reflexivity.
    assert (Hs : strncmp_eq (sess_line m e) (bytes "SESS") 4 = true)
      by reflexivity.
    rewrite Hk, Hf, Hs. destruct ns; cbn [negb]; [|eexists; reflexivity].
    rewrite (strstr_sess_line m e Hsid He).
    assert (Hq : quoted_name (bytes "exename=" ++ [QUOTE] ++ e
                              ++ [QUOTE; NL]) = e).
    { unfold quoted_name.
      change (skipn 9 (bytes "exename=" ++ [QUOTE] ++ ?x)) with x.
      rewrite cut_at_last_closing. reflexivity. }
    rewrite Hq. unfold scan_sess.
    rewrite (sscanf_sess_line m e Ht Hp Hsid He).
    cbn [stored_num stored_str nth_error smsg].
    rewrite compose_time_div_mod by exact Ht.
    eexists. reflexivity.
  - destruct Hok as (Ht & Hp & Hsid & Hb & Hl).
    assert (Hk : strncmp_eq (dlop_line m l) (bytes "TASK") 4 = false)
      by reflexivity.
    assert (Hf : strncmp_eq (dlop_line m l) (bytes "FORK") 4 = false)
      by reflexivity.
    assert (Hs : strncmp_eq (dlop_line m l) (bytes "SESS") 4 = false)
      by reflexivity.
    assert (Hd : strncmp_eq (dlop_line m l) (bytes "DLOP") 4 = true)
      by reflexivity.
    rewrite Hk, Hf, Hs, Hd. destruct ns; cbn [negb]; [|eexists; reflexivity].
    rewrite (strstr_dlop_line m l Hsid Hb Hl).
    assert (Hq : quoted_name (bytes "libname=" ++ [QUOTE] ++ l
                              ++ [QUOTE; NL]) = l).
    { unfold quoted_name.
      change (skipn 9 (bytes "libname=" ++ [QUOTE] ++ ?x)) with x.
      rewrite cut_at_last_closing. reflexivity. }
    rewrite Hq. unfold scan_dlop.
    rewrite (sscanf_dlop_line m l Ht Hp Hsid Hb Hl).
    cbn [stored_num stored_str nth_error dlop dlop_sid dlop_task time
         base_addr].
    rewrite compose_time_div_mod by exact Ht.
    destruct (get_session_from_sid sess (dlop_sid m)) as [s|];
      [eexists; reflexivity | reflexivity].
Qed.

End ReadBack.

(** ** Records written to the text log and read back *)

(** A text that ends a line: empty, or with a newline at its end. *)
Lemma getlines_snoc (old l : list byte) :
  old = [] \/ (exists o, old = o ++ [NL]) ->
  (exists body, l = body ++ [NL] /\ line_body body) ->
  getlines (old ++ l) = getlines old ++ [l].
Proof.
  intros Hold (body & -> & Hb). destruct Hold as [-> | (o & ->)].
  - cbn [app getlines]. apply getlines_body. exact Hb.
  - rewrite getlines_app. f_equal. apply getlines_body. exact Hb.
Qed.

Lemma getlines_lines (ls : list (list byte)) :
  forall old,
    old = [] \/ (exists o, old = o ++ [NL]) ->
    Forall (fun l => exists body, l = body ++ [NL] /\ line_body body) ls ->
    getlines (old ++ List.concat ls) = getlines old ++ ls.
Proof.
  induction ls as [|l ls IH]; intros old Hold Hls.
  - cbn [List.concat]. rewrite !app_nil_r. reflexivity.
  - inversion Hls as [|? ? Hl Hrest]; subst. cbn [List.concat].
    rewrite app_assoc, IH.
    + rewrite (getlines_snoc old l Hold Hl), <- app_assoc. reflexivity.
    + right. destruct Hl as (body & -> & _). exists (old ++ body).
      rewrite app_assoc. reflexivity.
    + exact Hrest.
Qed.

Section WriteReadInfos.
Context {R P : Type} {reg : Registry R P}.

Variable dir : string.
Variables ns sr : bool.

Let path : string := (dir ++ "/task.txt")%string.

Lemma write_info_append (fs : filesys) (r : info_record) :
  write_info fs dir r = append_line fs dir (info_line r).
Proof. destruct r; reflexivity. Qed.

(** The log after the writers: its old contents and the lines of the
    records, in their order. *)
Lemma write_infos_content (rs : list info_record) :
  forall (fs : filesys) (old : list byte),
    open_append fs path = inl old ->
    exists fs',
      write_infos fs dir rs = Ret fs'
      /\ open_append fs' path
         = inl (old ++ List.concat (map info_line rs))
      /\ (rs <> [] ->
          open_read fs' path
          = inl (old ++ List.concat (map info_line rs))).
Proof.
  induction rs as [|r rs IH]; intros fs old Hopen.
  - exists fs. cbn [map List.concat write_infos]. rewrite app_nil_r.
    split; [reflexivity|]. split; [exact Hopen|]. intros H. contradiction.
  - cbn [write_infos]. rewrite write_info_append. unfold append_line.
    fold path. rewrite Hopen.
    set (fs1 := fs_store fs path (old ++ info_line r)).
    assert (H1 : open_append fs1 path = inl (old ++ info_line r)).
    { unfold open_append, fs1, fs_store. rewrite String.eqb_refl.
      reflexivity. }
    destruct (IH fs1 _ H1) as (fs' & Hw & Ha & Hr).
    exists fs'. cbn [map List.concat]. rewrite app_assoc.
    split; [exact Hw|]. split; [exact Ha|]. intros _.
    destruct rs as [|r' rs'].
    + cbn [write_infos] in Hw. injection Hw as <-.
      cbn [map List.concat]. rewrite app_nil_r.
      unfold open_read, fs1, fs_store. rewrite String.eqb_refl.
      reflexivity.
    + apply Hr. discriminate.
Qed.

(** The loop on the lines of records. *)
Lemma read_task_txt_lines_replay (rs : list info_record) :
  forall (sess : R) (lv : txt_locals),
    Forall info_ok rs ->
    match replay dir ns sr rs sess with
    | Some sess' =>
        exists lv',
          read_task_txt_lines dir ns sr (map info_line rs) sess lv
          = Ret (sess', lv')
    | None =>
        read_task_txt_lines dir ns sr (map info_line rs) sess lv = Abort
    end.
Proof.
  induction rs as [|r rs IH]; intros sess lv Hok.
  - cbn. eexists. reflexivity.
  - inversion Hok as [|? ? Hr Hrest]; subst.
    cbn [replay map read_task_txt_lines].
    pose proof (read_task_txt_line_info dir ns sr r sess lv Hr) as Hl.
    destruct (info_apply dir ns sr sess r) as [s1|].
    + destruct Hl as (lv1 & ->). apply IH. exact Hrest.
    + rewrite Hl. reflexivity.
Qed.

(** The reader on a log that holds [old] and then the lines of
    records. *)
Lemma read_task_txt_file_replay (fs : filesys) (rs : list info_record)
    (old : list byte) (lv lv1 : txt_locals) (sess sess1 : R)
    (tr : list event) :
  Forall info_ok rs ->
  open_read fs path = inl (old ++ List.concat (map info_line rs)) ->
  old = [] \/ (exists o, old = o ++ [NL]) ->
  read_task_txt_lines dir ns sr (getlines old) sess lv = Ret (sess1, lv1) ->
  read_task_txt_file fs lv sess dir ns sr tr
  = (match replay dir ns sr rs sess1 with
     | Some sess' => Ret (0, sess')
     | None => Abort
     end, tr ++ [ev_open path]).
Proof.
  intros Hok Hopen Hold Hread.
  unfold read_task_txt_file, bind, fopen. fold path. rewrite Hopen.
  rewrite getlines_lines; [|exact Hold|].
  - rewrite read_task_txt_lines_app, Hread.
    pose proof (read_task_txt_lines_replay rs sess1 lv1 Hok) as Hr.
    destruct (replay dir ns sr rs sess1) as [s|].
    + destruct Hr as (lv' & ->). reflexivity.
    + rewrite Hr. reflexivity.
  - apply Forall_map. eapply Forall_impl; [|exact Hok].
    intros r Hr. apply info_line_body. exact Hr.
Qed.

(** One record appended and read back. *)
Lemma write_read_info (fs : filesys) (r : info_record)
    (old : list byte) (lv lv1 : txt_locals) (sess sess1 : R)
    (tr : list event) :
  info_ok r ->
  open_append fs path = inl old ->
  old = [] \/ (exists o, old = o ++ [NL]) ->
  read_task_txt_lines dir ns sr (getlines old) sess lv = Ret (sess1, lv1) ->
  exists fs',
    write_info fs dir r = Ret fs'
    /\ read_task_txt_file fs' lv sess dir ns sr tr
       = (match info_apply dir ns sr sess1 r with
          | Some sess' => Ret (0, sess')
          | None => Abort
          end, tr ++ [ev_open path]).
Proof.
  intros Hok Hopen Hold Hread.
  destruct (write_infos_content [r] fs old Hopen) as (fs' & Hw & _ & Hr).
  cbn [write_infos] in Hw.
  destruct (write_info fs dir r) as [fs1| | | |]; try discriminate Hw.
  injection Hw as ->. exists fs'. split; [reflexivity|].
  rewrite (read_task_txt_file_replay fs' [r] old lv lv1 sess sess1 tr
             (Forall_cons _ Hok (Forall_nil _))
             (Hr ltac:(discriminate)) Hold Hread).
  cbn [replay]. destruct (info_apply dir ns sr sess1 r); reflexivity.
Qed.

(** X10: a fork written with [write_fork_info], whose time is a 64-bit
    value and whose ids are [int]s, is read back as a task created by a
    fork, with the same time, and with the ids in the places they were
    written from: the line names them pid and ppid, the message tid and
    pid. *)
Theorem write_read_fork_info (fs : filesys) (m : ftrace_msg_task)
    (old : list byte) (lv lv1 : txt_locals) (sess sess1 : R)
    (tr : list event) :
  task_ok m ->
  open_append fs path = inl old ->
  old = [] \/ (exists o, old = o ++ [NL]) ->
  read_task_txt_lines dir ns sr (getlines old) sess lv = Ret (sess1, lv1) ->
  exists fs',
    write_fork_info fs dir m = Ret fs'
    /\ read_task_txt_file fs' lv sess dir ns sr tr
       = (Ret (0, create_task sess1 m true ns), tr ++ [ev_open path]).
Proof.
  intros Hok Hopen Hold Hread.
  exact (write_read_info fs (fork_info m) old lv lv1 sess sess1 tr
           Hok Hopen Hold Hread).
Qed.

(** X11: a session written with [write_session_info] -- a 64-bit time,
    an [int] pid, a session id of hexadecimal digits, and a name of any
    bytes but NUL and newline, double quotes included -- is read back,
    when sessions are read, as a session with the same time, pid, id
    and name, in the directory and the address mode the reader was
    given; its tid is its pid and its name length the length of the
    name.  When sessions are not read the line changes nothing. *)
Theorem write_read_session_info (fs : filesys) (m : ftrace_msg_sess)
    (exename old : list byte) (lv lv1 : txt_locals) (sess sess1 : R)
    (tr : list event) :
  is_u64 (time (sess_task m)) -> is_int (pid (sess_task m)) ->
  sid_ok (sid m) -> line_body exename ->
  open_append fs path = inl old ->
  old = [] \/ (exists o, old = o ++ [NL]) ->
  read_task_txt_lines dir ns sr (getlines old) sess lv = Ret (sess1, lv1) ->
  exists fs',
    write_session_info fs dir m exename = Ret fs'
    /\ read_task_txt_file fs' lv sess dir ns sr tr
       = (Ret (0, if ns
                  then create_session sess1 (session_as_read m exename)
                         dir exename sr
                  else sess1),
          tr ++ [ev_open path]).
Proof.
  intros Ht Hp Hsid He Hopen Hold Hread.
  exact (write_read_info fs (session_info m exename) old lv lv1 sess sess1
           tr (conj Ht (conj Hp (conj Hsid He))) Hopen Hold Hread).
Qed.

(** X12: a library written with [write_dlopen_info] -- a 64-bit time
    and base address, an [int] tid, a session id of hexadecimal digits
    and a name without NUL and newline -- is read back, when sessions
    are read, into the session of that id with the same time, base
    address and name; when the registry has no session of that id the
    reader aborts on its assertion.  When sessions are not read the
    line changes nothing. *)
Theorem write_read_dlopen_info (fs : filesys) (m : ftrace_msg_dlopen)
    (libname old : list byte) (lv lv1 : txt_locals) (sess sess1 : R)
    (tr : list event) :
  is_u64 (time (dlop_task m)) -> is_int (tid (dlop_task m)) ->
  sid_ok (dlop_sid m) -> is_u64 (base_addr m) -> line_body libname ->
  open_append fs path = inl old ->
  old = [] \/ (exists o, old = o ++ [NL]) ->
  read_task_txt_lines dir ns sr (getlines old) sess lv = Ret (sess1, lv1) ->
  exists fs',
    write_dlopen_info fs dir m libname = Ret fs'
    /\ read_task_txt_file fs' lv sess dir ns sr tr
       = (if ns then
            match get_session_from_sid sess1 (dlop_sid m) with
            | Some s =>
                Ret (0, session_add_dlopen sess1 s (time (dlop_task m))
                          (base_addr m) libname)
            | None => Abort
            end
          else Ret (0, sess1),
          tr ++ [ev_open path]).
Proof.
  intros Ht Hp Hsid Hb Hl Hopen Hold Hread.
  destruct (write_read_info fs (dlopen_info m libname) old lv lv1 sess
              sess1 tr (conj Ht (conj Hp (conj Hsid (conj Hb Hl))))
              Hopen Hold Hread) as (fs' & Hw & Hr).
  exists fs'. split; [exact Hw|]. rewrite Hr. cbn [info_apply].
  destruct ns; [|reflexivity].
  destruct (get_session_from_sid sess1 (dlop_sid m)); reflexivity.
Qed.

(** X13: records written one after the other by the four writers, to a
    log that ends a line, are read back in their order: the reader
    returns 0 with the registry the records build -- after what the log
    held before -- and it aborts when a library comes before the
    session it names. *)
Theorem write_read_infos (fs : filesys) (rs : list info_record)
    (old : list byte) (lv lv1 : txt_locals) (sess sess1 : R)
    (tr : list event) :
  Forall info_ok rs -> rs <> [] ->
  open_append fs path = inl old ->
  old = [] \/ (exists o, old = o ++ [NL]) ->
  read_task_txt_lines dir ns sr (getlines old) sess lv = Ret (sess1, lv1) ->
  exists fs',
    write_infos fs dir rs = Ret fs'
    /\ read_task_txt_file fs' lv sess dir ns sr tr
       = (match replay dir ns sr rs sess1 with
          | Some sess' => Ret (0, sess')
          | None => Abort
          end, tr ++ [ev_open path]).
Proof.
  intros Hok Hne Hopen Hold Hread.
  destruct (write_infos_content rs fs old Hopen) as (fs' & Hw & _ & Hr).
  exists fs'. split; [exact Hw|].
  exact (read_task_txt_file_replay fs' rs old lv lv1 sess sess1 tr Hok
           (Hr Hne) Hold Hread).
Qed.

End WriteReadInfos.

(** A fork written to a log that is not there yet. *)
Lemma write_read_fork_info_witness :
  let m := {| time := 5000000042; pid := 7; tid := 8 |} in
  exists fs' sess',
    write_fork_info (files []) "d" m = Ret fs'
    /\ read_task_txt_file fs' locals0 sessions_init "d" true false []
       = (Ret (0, sess'), [ev_open "d/task.txt"])
    /\ tasks sess'
       = [{| ut_tid := 8; ut_pid := 7; ut_time := 5000000042;
             ut_fork := true |}].
Proof.
  intros m.
  destruct (@write_read_fork_info _ _ list_registry "d" true false
              (files []) m [] locals0 locals0 sessions_init sessions_init []
              ltac:(unfold task_ok, is_u64, is_int; cbn; lia)
              eq_refl (or_introl eq_refl) eq_refl)
    as (fs' & Hw & Hr).
  eexists fs', _. split; [exact Hw|]. split; [exact Hr|]. reflexivity.
Defined.

(** A session whose name holds a double quote. *)
Lemma write_read_session_info_witness :
  let m := {| sess_task := {| time := 10000000000; pid := 5; tid := 5 |};
              sid := bytes "abc123"; namelen := 8 |} in
  let name := bytes "/bin/a" ++ [QUOTE] ++ bytes "b" in
  exists fs' sess',
    write_session_info (files []) "d" m name = Ret fs'
    /\ read_task_txt_file fs' locals0 sessions_init "d" true false []
       = (Ret (0, sess'), [ev_open "d/task.txt"])
    /\ root sess'
       = [{| us_sid := bytes "abc123"; us_pid := 5; us_time := 10000000000;
             us_dirname := "d"; us_exename := name; us_sym_rel := false;
             us_dlopens := [] |}].
Proof.
  intros m name.
  destruct (@write_read_session_info _ _ list_registry "d" true false
              (files []) m name [] locals0 locals0 sessions_init
              sessions_init []
              ltac:(unfold is_u64; cbn; lia) ltac:(unfold is_int; cbn; lia)
              ltac:(split; [discriminate | repeat constructor; discriminate])
              ltac:(repeat constructor)
              eq_refl (or_introl eq_refl) eq_refl)
    as (fs' & Hw & Hr).
  eexists fs', _. split; [exact Hw|]. split; [exact Hr|]. reflexivity.
Defined.

(** A library loaded into the session of the sample log. *)
Lemma write_read_dlopen_info_witness :
  let m := {| dlop_task := {| time := 11000000000; pid := 5; tid := 5 |};
              dlop_sid := bytes "abc123"; base_addr := 0x7f0000001000;
              dlop_namelen := 9 |} in
  let fs := files [("d/task.txt"%string, sample_txt)] in
  exists fs' sess',
    write_dlopen_info fs "d" m (bytes "libfoo.so") = Ret fs'
    /\ read_task_txt_file fs' locals0 sessions_init "d" true false []
       = (Ret (0, sess'), [ev_open "d/task.txt"])
    /\ map us_dlopens (root sess')
       = [[(11000000000, 0x7f0000001000, bytes "libfoo.so")]].
Proof.
  intros m fs.
  eval_run (@read_task_txt_lines _ _ list_registry "d" true false
              (getlines sample_txt) sessions_init locals0) E.
  match type of E with
  | _ = Ret (?s1, ?l1) =>
      destruct (@write_read_dlopen_info _ _ list_registry "d" true false fs
                  m (bytes "libfoo.so") sample_txt locals0 l1
                  sessions_init s1 []
                  ltac:(unfold is_u64; cbn; lia)
                  ltac:(unfold is_int; cbn; lia)
                  ltac:(split; [discriminate
                               | repeat constructor; discriminate])
                  ltac:(unfold is_u64; cbn; lia)
                  ltac:(repeat constructor)
                  eq_refl
                  (or_intror (ex_intro _ (removelast sample_txt) eq_refl)) E)
        as (fs' & Hw & Hr)
  end.
  eexists fs', _. split; [exact Hw|]. split; [exact Hr|]. reflexivity.
Defined.

(** A task, its session, a library of the session and a fork, written
    to a new log. *)
Lemma write_read_infos_witness :
  let t := {| time := 10000000001; pid := 5; tid := 5 |} in
  let rs :=
    [task_info t;
     session_info {| sess_task := t; sid := bytes "abc123"; namelen := 8 |}
       (bytes "/bin/app");
     dlopen_info {| dlop_task := t; dlop_sid := bytes "abc123";
                    base_addr := 4096; dlop_namelen := 6 |}
       (bytes "lib.so");
     fork_info {| time := 10000000002; pid := 5; tid := 6 |}] in
  exists fs' sess',
    write_infos (files []) "d" rs = Ret fs'
    /\ read_task_txt_file fs' locals0 sessions_init "d" true false []
       = (Ret (0, sess'), [ev_open "d/task.txt"])
    /\ map ut_tid (tasks sess') = [5; 6]
    /\ map us_dlopens (root sess') = [[(10000000001, 4096, bytes "lib.so")]].
Proof.
  intros t rs.
  destruct (@write_read_infos _ _ list_registry "d" true false (files [])
              rs [] locals0 locals0 sessions_init sessions_init [])
    as (fs' & Hw & Hr).
  - repeat constructor; try discriminate; unfold is_u64, is_int; cbn; lia.
  - discriminate.
  - reflexivity.
  - left. reflexivity.
  - reflexivity.
  - eexists fs', _. split; [exact Hw|]. split; [exact Hr|].
    split; reflexivity.
Defined.

(** ** read_task_txt_file: what it does to the registry *)

Section TextFrame.
Context {R P : Type} {reg : Registry R P}.

Variable dir : string.
Variables ns sr : bool.

(** A property of the registry that creating a task keeps and, when
    sessions are read, creating a session of this directory and adding
    a library to a session that is found keep. *)
Variable inv : R -> Prop.
Hypothesis inv_task : forall r m f, inv r -> inv (create_task r m f ns).
Hypothesis inv_session :
  ns = true -> forall r m e, inv r -> inv (create_session r m dir e sr).
Hypothesis inv_dlopen :
  ns = true ->
  forall r x s t a l,
    get_session_from_sid r x = Some s ->
    inv r -> inv (session_add_dlopen r s t a l).

Lemma read_task_txt_line_inv (buf : list byte) (sess sess' : R)
    (lv lv' : txt_locals) :
  inv sess ->
  read_task_txt_line dir ns sr buf sess lv = Ret (sess', lv') ->
  inv sess'.
Proof.
  intros Hi. unfold read_task_txt_line.
  repeat match goal with
         | |- context [if strncmp_eq ?a ?b ?c then _ else _] =>
             destruct (strncmp_eq a b c)
         end.
  - intros E. apply Ret_pair_inj in E. destruct E as [<- _].
    apply inv_task. exact Hi.
  - intros E. apply Ret_pair_inj in E. destruct E as [<- _].
    apply inv_task. exact Hi.
  - destruct ns eqn:En; cbn [negb].
    + destruct (strstr (cstr buf) (bytes "exename=")); [|discriminate].
      intros E. apply Ret_pair_inj in E. destruct E as [<- _].
      apply inv_session; [reflexivity | exact Hi].
    + intros E. apply Ret_pair_inj in E. destruct E as [<- _]. exact Hi.
  - destruct ns eqn:En; cbn [negb].
    + destruct (strstr (cstr buf) (bytes "libname=")) as [pos|];
        [|discriminate].
      destruct (get_session_from_sid sess _) as [s|] eqn:Es;
        [|discriminate].
      intros E. apply Ret_pair_inj in E. destruct E as [<- _].
      exact (inv_dlopen eq_refl _ _ _ _ _ _ Es Hi).
    + intros E. apply Ret_pair_inj in E. destruct E as [<- _]. exact Hi.
  - intros E. apply Ret_pair_inj in E. destruct E as [<- _]. exact Hi.
Qed.

Lemma read_task_txt_lines_inv (lines : list (list byte)) :
  forall (sess sess' : R) (lv lv' : txt_locals),
    inv sess ->
    read_task_txt_lines dir ns sr lines sess lv = Ret (sess', lv') ->
    inv sess'.
Proof.
  induction lines as [|l rest IH]; intros sess sess' lv lv' Hi Hrun.
  - cbn in Hrun. apply Ret_pair_inj in Hrun. destruct Hrun as [<- _].
    exact Hi.
  - cbn [read_task_txt_lines] in Hrun.
    destruct (read_task_txt_line dir ns sr l sess lv) as [[s1 lv1]| | | |]
      eqn:El; try discriminate Hrun.
    exact (IH s1 sess' lv1 lv' (read_task_txt_line_inv l _ _ _ _ Hi El)
             Hrun).
Qed.

(** X14: all the text reader does to the registry is to create tasks,
    with the [needs_session] it was given, and, when sessions are read,
    to create sessions of the directory and the address mode it was
    given and to add libraries to sessions it has found: whatever these
    keep true of the registry is true of it when the reader returns.
    When sessions are not read, the reader returns 0 on any log it can
    open, having created tasks only. *)
Theorem read_task_txt_file_frame (fs : filesys) (lv : txt_locals)
    (sess : R) (tr : list event) :
  inv sess ->
  (forall rc sess' tr',
     read_task_txt_file fs lv sess dir ns sr tr = (Ret (rc, sess'), tr') ->
     inv sess')
  /\ (ns = false ->
      forall data,
        open_read fs (dir ++ "/task.txt") = inl data ->
        exists sess',
          read_task_txt_file fs lv sess dir ns sr tr
          = (Ret (0, sess'), tr ++ [ev_open (dir ++ "/task.txt")%string])
          /\ inv sess').
Proof.
  intros Hi.
  assert (Hret : forall rc sess' tr',
             read_task_txt_file fs lv sess dir ns sr tr
             = (Ret (rc, sess'), tr') -> inv sess').
  { intros rc sess' tr'. unfold read_task_txt_file, bind, fopen.
    destruct (open_read fs (dir ++ "/task.txt")) as [data|e].
    - destruct (read_task_txt_lines dir ns sr (getlines data) sess lv)
        as [[s1 lv1]| | | |] eqn:El; try discriminate.
      unfold ret. intros E. injection E as _ <- _.
      exact (read_task_txt_lines_inv _ _ _ _ _ Hi El).
    - unfold ret. intros E. injection E as _ <- _. exact Hi. }
  split; [exact Hret|]. intros Hns data Hopen.
  pose proof (read_task_txt_lines_tasks_only dir sr (getlines data) sess lv)
    as (s1 & lv1 & El).
  exists s1.
  assert (Hrun : read_task_txt_file fs lv sess dir ns sr tr
                 = (Ret (0, s1), tr ++ [ev_open (dir ++ "/task.txt")%string])).
  { unfold read_task_txt_file, bind, fopen. rewrite Hopen, Hns, El.
    reflexivity. }
  split; [exact Hrun | exact (Hret _ _ _ Hrun)].
Qed.

End TextFrame.

(** Without sessions to read, the log of the sample leaves the sessions
    of the registry alone. *)
Lemma read_task_txt_file_frame_witness :
  let fs := files [("d/task.txt"%string, sample_txt)] in
  exists sess',
    read_task_txt_file fs locals0 sessions_init "d" false false []
    = (Ret (0, sess'), [ev_open "d/task.txt"])
    /\ root sess' = [].
Proof.
  intros fs.
  exact (proj2 (@read_task_txt_file_frame _ _ list_registry "d" false false
                  (fun r => root r = [])
                  (fun r m f H => H)
                  (fun E : false = true => ltac:(discriminate E))
                  (fun E : false = true => ltac:(discriminate E))
                  fs locals0 sessions_init [] eq_refl)
               eq_refl sample_txt eq_refl).
Defined.

(** ** read_task_txt_file: lines the writers did not write *)

Section OddLines.
Context {R P : Type} {reg : Registry R P}.

Variable dir : string.
Variables ns sr : bool.

(** The locals after the line of a task. *)
Lemma scan_task_line (m : ftrace_msg_task) (lv : txt_locals) :
  task_ok m ->
  let lv' := scan_task fmt_task (task_line m) lv in
  sec lv' = time m / NSEC_PER_SEC
  /\ nsec lv' = time m mod NSEC_PER_SEC
  /\ tmsg lv' = m.
Proof.
  intros (Ht & Hi & Hp) lv'. subst lv'. unfold scan_task.
  rewrite (sscanf_task_line m Ht Hi Hp).
  cbn [stored_num nth_error sec nsec tmsg].
  rewrite compose_time_div_mod by exact Ht.
  destruct m; repeat split; reflexivity.
Qed.

(** X15: the reader does not look at what [sscanf] returns.  A TASK
    line whose text does not start the way the format does stores
    nothing, and the reader creates a task all the same, from what its
    variables hold: after the line of a task [m], such a line creates
    the task [m] a second time. *)
Theorem read_task_txt_file_stale_task (fs : filesys) (m : ftrace_msg_task)
    (junk : list byte) (lv : txt_locals) (sess : R) (tr : list event) :
  task_ok m ->
  line_body junk ->
  match junk with
  | c :: _ => Byte.eqb c "t" = false
  | [] => True
  end ->
  open_read fs (dir ++ "/task.txt")
  = inl (task_line m ++ bytes "TASK " ++ junk ++ [NL]) ->
  read_task_txt_file fs lv sess dir ns sr tr
  = (Ret (0, create_task (create_task sess m false ns) m false ns),
     tr ++ [ev_open (dir ++ "/task.txt")%string]).
Proof.
  intros Hok Hjunk Hhead Hopen.
  unfold read_task_txt_file, bind, fopen. rewrite Hopen.
  assert (Hb : line_body (bytes "TASK " ++ junk)).
  { apply Forall_app; split; [apply bytes_body; reflexivity | exact Hjunk]. }
  assert (Hl : getlines (task_line m ++ bytes "TASK " ++ junk ++ [NL])
               = [task_line m; bytes "TASK " ++ junk ++ [NL]]).
  { destruct (task_line_body m) as (body & Hline & Hbody).
    rewrite Hline, getlines_app, (getlines_body body Hbody).
    change (bytes "TASK " ++ junk ++ [NL])
      with ((bytes "TASK " ++ junk) ++ [NL]).
    rewrite getlines_body by exact Hb. reflexivity. }
  rewrite Hl. cbn [read_task_txt_lines].
  assert (H1 : read_task_txt_line dir ns sr (task_line m) sess lv
               = Ret (create_task sess m false ns,
                      scan_task fmt_task (task_line m) lv)).
  { unfold read_task_txt_line.
    assert (Hc : cstr (task_line m) = task_line m).
    { destruct (task_line_body m) as (body & -> & Hbody).
      rewrite cstr_body by exact Hbody. reflexivity. }
    rewrite Hc.
    assert (Hk : strncmp_eq (task_line m) (bytes "TASK") 4 = true)
      by reflexivity.
    rewrite Hk.
    destruct (scan_task_line m lv Hok) as (_ & _ & ->). reflexivity. }
  rewrite H1.
  destruct (scan_task_line m lv Hok) as (Hs & Hn & Hm).
  set (lv1 := scan_task fmt_task (task_line m) lv) in *.
  assert (H2 : read_task_txt_line dir ns sr (bytes "TASK " ++ junk ++ [NL])
                 (create_task sess m false ns) lv1
               = Ret (create_task (create_task sess m false ns) m false ns,
                      lv1)).
  { unfold read_task_txt_line.
    change (bytes "TASK " ++ junk ++ [NL])
      with ((bytes "TASK " ++ junk) ++ [NL]).
    rewrite (cstr_body _ [NL] Hb).
    assert (Hk : strncmp_eq ((bytes "TASK " ++ junk) ++ cstr [NL])
                   (bytes "TASK") 4 = true) by reflexivity.
    rewrite Hk. unfold scan_task.
    assert (Hscan : sscanf (skipn 5 ((bytes "TASK " ++ junk) ++ cstr [NL]))
                      fmt_task = []).
    { change (skipn 5 ((bytes "TASK " ++ junk) ++ cstr [NL]))
        with (junk ++ [NL]).
      destruct junk as [|c t]; [reflexivity|].
      cbn [app]. unfold fmt_task. cbn [sscanf]. rewrite Hhead.
      reflexivity. }
    rewrite Hscan. cbn [stored_num nth_error tmsg].
    assert (Ht : compose_time (sec lv1) (nsec lv1) = time m).
    { rewrite Hs, Hn. apply compose_time_div_mod. apply Hok. }
    rewrite Ht, Hm.
    assert (E1 : {| time := time m; pid := pid m; tid := tid m |} = m)
      by (destruct m; reflexivity).
    rewrite E1.
    assert (E2 : {| sec := sec lv1; nsec := nsec lv1; tmsg := m;
                    smsg := smsg lv1; dlop := dlop lv1 |} = lv1).
    { rewrite <- Hm at 1. destruct lv1; reflexivity. }
    rewrite E2. reflexivity. }
  rewrite H2. reflexivity.
Qed.

(** X16: a line that starts with none of the four tags is passed over:
    a log of such lines leaves the registry as it was, and the reader
    returns 0. *)
Theorem read_task_txt_file_no_tag (fs : filesys) (data : list byte)
    (lv : txt_locals) (sess : R) (tr : list event) :
  open_read fs (dir ++ "/task.txt") = inl data ->
  Forall (fun l => line_tag l "TASK" = false /\ line_tag l "FORK" = false
                   /\ line_tag l "SESS" = false
                   /\ line_tag l "DLOP" = false) (getlines data) ->
  read_task_txt_file fs lv sess dir ns sr tr
  = (Ret (0, sess), tr ++ [ev_open (dir ++ "/task.txt")%string]).
Proof.
  intros Hopen Hall. unfold read_task_txt_file, bind, fopen.
  rewrite Hopen.
  assert (Hl : read_task_txt_lines dir ns sr (getlines data) sess lv
               = Ret (sess, lv)).
  { induction Hall as [|l ls (H1 & H2 & H3 & H4) _ IH]; [reflexivity|].
    cbn [read_task_txt_lines]. unfold read_task_txt_line.
    unfold line_tag in H1, H2, H3, H4. rewrite H1, H2, H3, H4.
    exact IH. }
  rewrite Hl. reflexivity.
Qed.

End OddLines.

(** A line that only says TASK after the line of a task. *)
Lemma read_task_txt_file_stale_task_witness :
  let m := {| time := 5000000042; pid := 7; tid := 8 |} in
  let fs := files [("d/task.txt"%string,
                    task_line m ++ bytes "TASK " ++ [NL])] in
  exists sess',
    read_task_txt_file fs locals0 sessions_init "d" true false []
    = (Ret (0, sess'), [ev_open "d/task.txt"])
    /\ map ut_tid (tasks sess') = [8; 8].
Proof.
  intros m fs. eexists. split.
  - exact (@read_task_txt_file_stale_task _ _ list_registry "d" true false
             fs m [] locals0 sessions_init []
             ltac:(unfold task_ok, is_u64, is_int; cbn; lia)
             (Forall_nil _) I eq_refl).
  - reflexivity.
Defined.

(** A log of a comment and an empty line. *)
Lemma read_task_txt_file_no_tag_witness :
  let data := bytes "# tasks" ++ [NL; NL] in
  let fs := files [("d/task.txt"%string, data)] in
  read_task_txt_file fs locals0 sessions_init "d" true false []
  = (Ret (0, sessions_init), [ev_open "d/task.txt"]).
Proof.
  intros data fs.
  apply (@read_task_txt_file_no_tag _ _ list_registry "d" true false fs
           data locals0 sessions_init [] eq_refl).
  repeat constructor.
Defined.

(** ** The timestamp of a line *)

Lemma dec_digits_small (fuel : nat) :
  forall (k : nat) (n : Z) (acc : list byte),
    0 <= n < 10 ^ Z.of_nat (S k) ->
    (List.length (dec_digits fuel n acc) <= S k + List.length acc)%nat.
Proof.
  induction fuel as [|fuel IH]; intros k n acc Hn; cbn [dec_digits].
  - lia.
  - destruct (Z.eqb_spec (n / 10) 0) as [E|E]; [cbn [List.length]; lia|].
    destruct k as [|k].
    + exfalso. apply E. apply Z.div_small. cbn in Hn. lia.
    + specialize (IH k (n / 10) (digit_char (n mod 10) :: acc)).
      cbn [List.length] in IH.
      assert (Hq : 0 <= n / 10 < 10 ^ Z.of_nat (S k)).
      { split; [apply Z.div_pos; lia|].
        apply Z.div_lt_upper_bound; [lia|].
        rewrite (Nat2Z.inj_succ (S k)), Z.pow_succ_r in Hn by lia. lia. }
      specialize (IH Hq). lia.
Qed.

(** X17: the timestamp of a line: for a 64-bit time the text is the
    seconds, a point and the nanoseconds in exactly nine digits; it has
    30 bytes at most, so that the buffer of 128 bytes never cuts it; and
    two times that differ give two texts that differ. *)
Theorem snprint_timestamp_shape (t t' : Z) :
  is_u64 t -> is_u64 t' ->
  snprint_timestamp 128 t
  = print_lu (t / NSEC_PER_SEC) ++ bytes "."
    ++ print_09lu (t mod NSEC_PER_SEC)
  /\ List.length (print_09lu (t mod NSEC_PER_SEC)) = 9%nat
  /\ (List.length (snprint_timestamp 128 t) <= 30)%nat
  /\ (snprint_timestamp 128 t = snprint_timestamp 128 t' -> t = t').
Proof.
  intros Ht Ht'. unfold is_u64 in *.
  pose proof (Z.mod_pos_bound t NSEC_PER_SEC ltac:(unfold NSEC_PER_SEC; lia))
    as Hm.
  assert (H9 : List.length (print_09lu (t mod NSEC_PER_SEC)) = 9%nat).
  { unfold print_09lu. rewrite length_app, repeat_length.
    pose proof (dec_digits_small 20 8 (t mod NSEC_PER_SEC) []) as Hl.
    cbn [List.length] in Hl. unfold print_lu.
    assert (Hr : 0 <= t mod NSEC_PER_SEC < 10 ^ Z.of_nat 9)
      by (unfold NSEC_PER_SEC in *; change (10 ^ Z.of_nat 9) with 1000000000;
          lia).
    specialize (Hl Hr). lia. }
  split; [apply snprint_timestamp_full|]. split; [exact H9|]. split.
  - rewrite snprint_timestamp_full, !length_app, H9.
    pose proof (dec_digits_length 20 (t / NSEC_PER_SEC) []) as Hl.
    unfold print_lu. cbn [List.length] in *.
    change (List.length (bytes ".")) with 1%nat. lia.
  - intros E.
    pose proof (sscanf_timestamp t [] [] Ht I) as H1.
    pose proof (sscanf_timestamp t' [] [] Ht' I) as H2.
    rewrite E, H2 in H1. injection H1 as Hd Hr.
    pose proof (Z.div_mod t NSEC_PER_SEC ltac:(unfold NSEC_PER_SEC; lia)).
    pose proof (Z.div_mod t' NSEC_PER_SEC ltac:(unfold NSEC_PER_SEC; lia)).
    congruence.
Qed.

(** The largest 64-bit time has twenty-nine bytes. *)
Lemma snprint_timestamp_shape_witness :
  snprint_timestamp 128 (2 ^ 64 - 1) = bytes "18446744073.709551615"
  /\ (List.length (snprint_timestamp 128 (2 ^ 64 - 1)) <= 30)%nat.
Proof.
  destruct (snprint_timestamp_shape (2 ^ 64 - 1) 0
              ltac:(unfold is_u64; lia) ltac:(unfold is_u64; lia))
    as (_ & _ & Hl & _).
  split; [reflexivity | exact Hl].
Defined.

(** ** The two task logs side by side *)

Section Agreement.
Context {abi : Abi}.
Context {R P : Type} {reg : Registry R P}.

Variable dir : string.
Variables ns sr : bool.




End Agreement.


(** ** open_data_file on a directory the writers filled *)

Section OpenReplay.
Context {abi : Abi}.
Context {R P : Type} {reg : Registry R P}.
Context {X : Type} {col : Collaborators X}.

(** X19: a directory with a sound header that declares session info,
    and a text log that holds the lines of records, the writers'
    output: [open_data_file] opens the header and the text log and
    nothing else, and returns 0 with a handle whose registry is the one
    the records build from the empty registry, in the address mode the
    header declares; it aborts when the log names a library before its
    session. *)
Theorem open_data_file_replay (fs : filesys) (lv : txt_locals) (o : opts)
    (handle : ftrace_file_handle R X) (tr : list event)
    (fp : list byte) (inf : ftrace_info) (rs : list info_record) :
  let info_path := (dirname o ++ "/info")%string in
  let txt_path := (dirname o ++ "/task.txt")%string in
  let raw := firstn sizeof_hdr fp in
  let h := snd (load_header raw) in
  open_read fs info_path = inl fp ->
  (sizeof_hdr <= List.length fp)%nat ->
  magic_ok (hdr_of_raw raw) = true ->
  version_ok h = true ->
  read_ftrace_info (info_mask h) (skipn sizeof_hdr fp) = Some inf ->
  has_feat h TASK_SESSION = true ->
  Forall info_ok rs ->
  open_read fs txt_path = inl (List.concat (map info_line rs)) ->
  match replay (dirname o) true (has_feat h SYM_REL_ADDR) rs sessions_init
  with
  | Some sess =>
      exists o' h',
        open_data_file fs lv o handle tr
        = (Ret (0, o', h'), tr ++ [ev_open info_path; ev_open txt_path])
        /\ sessions h' = sess
        /\ dirname o' = dirname o
  | None =>
      open_data_file fs lv o handle tr
      = (Abort, tr ++ [ev_open info_path; ev_open txt_path])
  end.
Proof.
  intros info_path txt_path raw h Hopen Hlen Hm Hv Hi Hfeat Hrs Htxt.
  pose proof (open_info_found fs o tr fp Hopen) as Ho.
  assert (Hr : fread1 sizeof_hdr fp = Some (raw, skipn sizeof_hdr fp)).
  { unfold fread1. destruct (Nat.leb_spec sizeof_hdr (List.length fp));
      [reflexivity | lia]. }
  destruct (load_header raw) as [[bs bits] h0] eqn:Hl.
  subst h. cbn [snd] in *.
  rewrite (open_data_file_run fs lv o handle tr _ fp raw _ false bs bits h0
             inf Ho Hr Hm Hl Hv Hi).
  cbn [active_dir]. unfold read_sessions. rewrite Hfeat. unfold bind.
  rewrite (read_task_txt_file_replay (dirname o) true
             (has_feat h0 SYM_REL_ADDR) fs rs [] lv lv sessions_init
             sessions_init _ Hrs Htxt (or_introl eq_refl) eq_refl).
  fold info_path txt_path. rewrite <- app_assoc. cbn [app].
  destruct (replay (dirname o) true (has_feat h0 SYM_REL_ADDR) rs
              sessions_init) as [sess|].
  - cbn [Z.ltb Z.compare]. unfold ret.
    destruct (finish_open o handle (dirname o) bs bits h0 inf sess)
      as [[rc o'] h'] eqn:Ef.
    apply finish_open_fields in Ef.
    destruct Ef as (-> & Hd & _ & _ & _ & Hs & _).
    exists o', h'. repeat split; assumption.
  - reflexivity.
Qed.

End OpenReplay.

(** The directory of the sample, its text log written by the writers:
    a task and its session. *)
Lemma open_data_file_replay_witness :
  let t := {| time := 10000000001; pid := 5; tid := 5 |} in
  let rs :=
    [task_info t;
     session_info {| sess_task := t; sid := bytes "abc123"; namelen := 8 |}
       (bytes "/bin/app")] in
  let fs := files [("d/info"%string, sample_header 4 1 2 0 0);
                   ("d/task.txt"%string, List.concat (map info_line rs))] in
  exists o' h',
    open_sample x86_64 fs "d"
    = (Ret (0, o', h'), [ev_open "d/info"; ev_open "d/task.txt"])
    /\ map us_sid (root (sessions h')) = [bytes "abc123"]
    /\ map ut_tid (tasks (sessions h')) = [5].
Proof.
  intros t rs fs.
  pose proof (@open_data_file_replay x86_64 _ _ list_registry unit
                no_collaborators fs locals0 (opts0 "d") handle0 []
                (sample_header 4 1 2 0 0)
                {| info_exename := None; argspec := None |} rs
                eq_refl ltac:(cbn; lia) eq_refl eq_refl eq_refl eq_refl)
    as H.
  assert (Hrs : Forall info_ok rs).
  { repeat constructor; try discriminate; vm_compute; congruence. }
  specialize (H Hrs eq_refl).
  destruct H as (o' & h' & Hrun & Hs & _).
  exists o', h'. split; [exact Hrun|]. rewrite Hs. split; reflexivity.
Defined.

(** ** The writers: one line at the end of the log *)

Section Writers.

Variable dir : string.

Let path : string := (dir ++ "/task.txt")%string.

(** X20: each of the four writers ends the process when it cannot open
    the log; otherwise it leaves every other file alone, keeps the
    lines the log holds and adds exactly one line after them: the log
    read line by line is what it was, and then the line of the record. *)
Theorem write_info_one_line (fs : filesys) (r : info_record) :
  info_ok r ->
  (forall e, open_append fs path = inr e ->
             write_info fs dir r = Fatal (cannot_open path))
  /\ (forall old,
        open_append fs path = inl old ->
        old = [] \/ (exists o, old = o ++ [NL]) ->
        exists fs',
          write_info fs dir r = Ret fs'
          /\ open_read fs' path = inl (old ++ info_line r)
          /\ getlines (old ++ info_line r) = getlines old ++ [info_line r]
          /\ forall p, p <> path -> fs' p = fs p).
Proof.
  intros Hok. rewrite write_info_append. unfold append_line. fold path.
  split.
  - intros e He. rewrite He. reflexivity.
  - intros old Hopen Hold. rewrite Hopen. eexists. split; [reflexivity|].
    split; [|split].
    + unfold open_read, fs_store. rewrite String.eqb_refl. reflexivity.
    + apply getlines_snoc; [exact Hold|]. apply info_line_body. exact Hok.
    + intros p Hp. unfold fs_store.
      destruct (String.eqb_spec p path); [contradiction|reflexivity].
Qed.

End Writers.

(** The line of a library added to the log of the sample. *)
Lemma write_info_one_line_witness :
  let fs := files [("d/task.txt"%string, sample_txt)] in
  let r := dlopen_info
             {| dlop_task := {| time := 11000000000; pid := 5; tid := 5 |};
                dlop_sid := bytes "abc123"; base_addr := 4096;
                dlop_namelen := 6 |} (bytes "lib.so") in
  exists fs',
    write_info fs "d" r = Ret fs'
    /\ List.length (getlines (sample_txt ++ info_line r)) = 3%nat
    /\ fs' "d/info"%string = Absent.
Proof.
  intros fs r.
  assert (Hok : info_ok r).
  { repeat split; try discriminate; try (vm_compute; congruence);
      repeat constructor; discriminate. }
  destruct (proj2 (write_info_one_line "d" fs r Hok) sample_txt eq_refl
              (or_intror (ex_intro _ (removelast sample_txt) eq_refl)))
    as (fs' & Hw & _ & Hl & Hp).
  exists fs'. split; [exact Hw|]. split.
  - rewrite Hl, length_app. reflexivity.
  - rewrite Hp; [reflexivity | discriminate].
Defined.
